(** * numba.np.ufunc.parallel: threading-layer selection, one-time
      initialisation and the run-time execution parameters

    A shallow embedding of the dispatcher part of
    [numba/np/ufunc/parallel.py]: [_check_tbb_version_compatible],
    [_launch_threads] with its nested helpers, [set_num_threads],
    [get_num_threads], [set_parallel_chunksize], [get_parallel_chunksize].

    Python module globals become fields of a [state] record, exceptions
    become the [Raise] case of a result, and the whole is threaded through
    a small state-and-exception monad.  What the module gets from outside
    (the platform string, the configuration, which extension modules can
    be imported, what [CDLL] finds) is a record [env] that every call
    receives.  Strings are byte strings (the UTF-8 form of a Python
    [str]).  [str.lower] belongs to the interpreter and its Unicode
    tables, not to the module, so it is a field of [env] as well. *)

From Stdlib Require Import ZArith List String Ascii Bool Lia DecimalString.
From stdpp Require Import base gmap strings list.

Local Open Scope string_scope.
Local Open Scope Z_scope.

(** ** Values, exceptions, results *)

(** The three extension modules that implement a threading layer. *)
Inductive Lib := tbbpool | omppool | workqueue.

#[global] Instance Lib_eq_dec : EqDecision Lib.
Proof. solve_decision. Defined.

(** Python exceptions, by class.  [BackendError] stands for whatever a
    call into the native library raises. *)
Inductive exn :=
| ValueError (msg : string)
| ImportError (msg : string)
| OSError (msg : string)
| TypeError (msg : string)
| RuntimeError (msg : string)
| KeyError (key : string)
| NameError (name : string)
| AttributeError (msg : string)
| BackendError.

Inductive result (A : Type) :=
| Ok (a : A)
| Raise (ex : exn).
Arguments Ok {A} a.
Arguments Raise {A} ex.

(** A Python argument as [isinstance(n, (int, np.integer))] sees it. *)
Inductive pyobj :=
| PyInt (z : Z)
| PyOther.

(** What the process does to the outside, in the order it does it. *)
Inductive event :=
| EvCDLL (name : string)
| EvImport (l : Lib)
| EvWarn (msg : string)
| EvLaunch (l : Lib) (n : Z)
| EvSetNumThreads (l : Lib) (n : Z)
| EvSetChunksize (l : Lib) (n : Z).

(** ** ctypes conversions.  ctypes does no overflow checking: a Python
    integer passed as [c_int] or [c_uint] is reduced modulo [2^32]. *)
Definition c_uint (n : Z) : Z := n mod 2 ^ 32.
Definition c_int (n : Z) : Z := (n + 2 ^ 31) mod 2 ^ 32 - 2 ^ 31.

(** ** Strings *)

Definition nl : string := String (ascii_of_nat 10) EmptyString.

(** [str(n)] and ["%s" % n] for an integer. *)
Definition str_of_Z (z : Z) : string := NilZero.string_of_int (Z.to_int z).

Definition lower_char (c : ascii) : ascii :=
  let n := nat_of_ascii c in
  if ((65 <=? n) && (n <=? 90))%nat then ascii_of_nat (n + 32) else c.

(** What [s.lower()] is for a string of ASCII characters: the letters
    A-Z folded, everything else kept. *)
Fixpoint ascii_lower (s : string) : string :=
  match s with
  | EmptyString => EmptyString
  | String c r => String (lower_char c) (ascii_lower r)
  end.

Fixpoint is_ascii (s : string) : bool :=
  match s with
  | EmptyString => true
  | String c r => (nat_of_ascii c <? 128)%nat && is_ascii r
  end.

(** [s.startswith(p)] *)
Definition startswith (s p : string) : bool := String.prefix p s.

(** [x in l] for a list of strings. *)
Definition str_in (x : string) (l : list string) : bool :=
  existsb (String.eqb x) l.

(** [sep.join(l)] *)
Fixpoint join (sep : string) (l : list string) : string :=
  match l with
  | [] => ""
  | [x] => x
  | x :: r => x +:+ sep +:+ join sep r
  end.

(** ** The environment of a call *)

(** A shared library as [CDLL] returns it.  The module looks one
    attribute up in it: [None] when the library does not export the
    function, [Some v] when it does and the call answers [v]. *)
Record dll := {
  TBB_runtime_interface_version : option Z
}.

Record env := {
  sys_platform : string;
  (** [config.THREADING_LAYER], read by each [_launch_threads] *)
  THREADING_LAYER : string;
  (** [str.lower] of the interpreter *)
  lower : string -> string;
  (** [config.NUMBA_NUM_THREADS] *)
  NUMBA_NUM_THREADS : Z;
  (** [CDLL(name)]: [None] is an [OSError] *)
  CDLL : string -> option dll;
  (** whether [from numba.np.ufunc import <module>] succeeds *)
  importable : Lib -> bool;
  (** whether the library's [launch_threads] call raises *)
  launch_raises : Lib -> bool
}.

Definition _IS_OSX (e : env) : bool := startswith (sys_platform e) "darwin".
Definition _IS_LINUX (e : env) : bool := startswith (sys_platform e) "linux".
Definition _IS_WINDOWS (e : env) : bool := startswith (sys_platform e) "win32".

(** ** Process-wide state *)

(** The cells a native thread pool keeps and reports through
    [get_num_threads], [get_thread_id] and [get_parallel_chunksize]. *)
Record backend := {
  num_threads : Z;
  thread_id : Z;
  chunksize : Z
}.

Record state := {
  _is_initialized : bool;
  _threading_layer : option string;
  (** module globals rebound to ctypes wrappers: [_set_num_threads],
      [_get_num_threads], ... each to the library it wraps *)
  globals : gmap string Lib;
  (** the symbols given to [ll.add_symbol]: library and entry point *)
  ll_symbols : gmap string (Lib * string);
  backends : Lib -> backend;
  trace : list event
}.

Definition set_is_initialized (b : bool) (s : state) : state :=
  {| _is_initialized := b; _threading_layer := _threading_layer s;
     globals := globals s; ll_symbols := ll_symbols s;
     backends := backends s; trace := trace s |}.

Definition set_threading_layer (o : option string) (s : state) : state :=
  {| _is_initialized := _is_initialized s; _threading_layer := o;
     globals := globals s; ll_symbols := ll_symbols s;
     backends := backends s; trace := trace s |}.

Definition set_globals (g : gmap string Lib) (s : state) : state :=
  {| _is_initialized := _is_initialized s;
     _threading_layer := _threading_layer s;
     globals := g; ll_symbols := ll_symbols s;
     backends := backends s; trace := trace s |}.

Definition set_ll_symbols (g : gmap string (Lib * string)) (s : state) : state :=
  {| _is_initialized := _is_initialized s;
     _threading_layer := _threading_layer s;
     globals := globals s; ll_symbols := g;
     backends := backends s; trace := trace s |}.

Definition set_backends (f : Lib -> backend) (s : state) : state :=
  {| _is_initialized := _is_initialized s;
     _threading_layer := _threading_layer s;
     globals := globals s; ll_symbols := ll_symbols s;
     backends := f; trace := trace s |}.

Definition set_trace (t : list event) (s : state) : state :=
  {| _is_initialized := _is_initialized s;
     _threading_layer := _threading_layer s;
     globals := globals s; ll_symbols := ll_symbols s;
     backends := backends s; trace := t |}.

Definition upd_backend (l : Lib) (b : backend) (f : Lib -> backend)
  : Lib -> backend :=
  fun l' => if decide (l' = l) then b else f l'.

(** The module right after import: [_is_initialized = False],
    [_threading_layer = None]. *)
Definition initial_state (b : Lib -> backend) : state :=
  {| _is_initialized := false; _threading_layer := None;
     globals := ∅; ll_symbols := ∅; backends := b; trace := [] |}.

(** ** The monad *)

Definition M (A : Type) : Type := state -> result A * state.

Definition ret {A} (a : A) : M A := fun s => (Ok a, s).
Definition raise {A} (ex : exn) : M A := fun s => (Raise ex, s).
Definition bind {A B} (m : M A) (k : A -> M B) : M B :=
  fun s => match m s with
           | (Ok a, s') => k a s'
           | (Raise ex, s') => (Raise ex, s')
           end.

(** [try: m except <classes>: h]; [h ex = None] when [ex] is not of a
    caught class. *)
Definition try_except {A} (m : M A) (h : exn -> option (M A)) : M A :=
  fun s => match m s with
           | (Ok a, s') => (Ok a, s')
           | (Raise ex, s') =>
               match h ex with
               | Some k => k s'
               | None => (Raise ex, s')
               end
           end.

Definition get_state : M state := fun s => (Ok s, s).
Definition modify (f : state -> state) : M unit := fun s => (Ok tt, f s).
Definition emit (ev : event) : M unit :=
  modify (fun s => set_trace (trace s ++ [ev])%list s).

Declare Scope py_scope.
Delimit Scope py_scope with py.
Notation "x <- m ;; k" := (bind m (fun x => k))
  (at level 100, m at next level, right associativity) : py_scope.
Notation "m ;;; k" := (bind m (fun _ => k))
  (at level 100, right associativity) : py_scope.
Local Open Scope py_scope.

(** ** Module level *)

(** [get_thread_count()]; [NUM_THREADS = get_thread_count()] is evaluated
    when the module is imported, so the module exists only when this
    returns. *)
Definition get_thread_count (e : env) : result Z :=
  let t := NUMBA_NUM_THREADS e in
  if t <? 1 then Raise (ValueError "Number of threads specified must be > 0.")
  else Ok t.

Definition NUM_THREADS (e : env) : Z := NUMBA_NUM_THREADS e.

(** [threading_layer()] *)
Definition threading_layer : M string :=
  s <- get_state ;;
  match _threading_layer s with
  | None => raise (ValueError "Threading layer is not initialized.")
  | Some name => ret name
  end.

(** ** External calls *)

(** [CDLL(name)] *)
Definition call_CDLL (e : env) (name : string) : M dll :=
  emit (EvCDLL name) ;;;
  match CDLL e name with
  | None => raise (OSError (name +:+ ": cannot open shared object file"))
  | Some lib => ret lib
  end.

(** [libtbb.TBB_runtime_interface_version]: the attribute lookup of a
    [CDLL] object raises [AttributeError] for a symbol the library does
    not export.  The function found is given by the value it answers. *)
Definition getattr_version_func (name : string) (libtbb : dll) : M Z :=
  match TBB_runtime_interface_version libtbb with
  | None =>
      raise (AttributeError
               (name +:+ ": undefined symbol: TBB_runtime_interface_version"))
  | Some v => ret v
  end.

(** [from numba.np.ufunc import <module> as lib] *)
Definition import_lib (e : env) (l : Lib) : M Lib :=
  emit (EvImport l) ;;;
  if importable e l then ret l
  else raise (ImportError "cannot import name").

(** [warnings.warn(problem)] *)
Definition warn (msg : string) : M unit := emit (EvWarn msg).

(** [ll.add_symbol(name, lib.<entry>)] *)
Definition add_symbol (name : string) (l : Lib) (entry : string) : M unit :=
  modify (fun s => set_ll_symbols (<[name := (l, entry)]> (ll_symbols s)) s).

(** [global <name>; <name> = CFUNCTYPE(...)(lib.<entry>)] *)
Definition bind_global (name : string) (l : Lib) : M unit :=
  modify (fun s => set_globals (<[name := l]> (globals s)) s).

(** Looking a rebound global up; unbound before the first launch. *)
Definition global (name : string) : M Lib :=
  s <- get_state ;;
  match globals s !! name with
  | Some l => ret l
  | None => raise (NameError name)
  end.

(** [CFUNCTYPE(None, c_int)(lib.launch_threads)(n)].  Of the steps that
    follow the selection this is the one that is given a way to fail; the
    [ll.add_symbol] registrations and the [CFUNCTYPE] wrappers are taken
    over a library that has every entry point. *)
Definition call_launch_threads (e : env) (l : Lib) (n : Z) : M unit :=
  if launch_raises e l then raise BackendError
  else emit (EvLaunch l (c_int n)).

(** [_set_num_threads(n)], a [CFUNCTYPE(None, c_int)] *)
Definition _set_num_threads (n : Z) : M unit :=
  l <- global "_set_num_threads" ;;
  modify (fun s =>
    let b := backends s l in
    set_backends
      (upd_backend l {| num_threads := c_int n; thread_id := thread_id b;
                        chunksize := chunksize b |} (backends s)) s) ;;;
  emit (EvSetNumThreads l (c_int n)).

(** [_get_num_threads()] *)
Definition _get_num_threads : M Z :=
  l <- global "_get_num_threads" ;;
  s <- get_state ;;
  ret (num_threads (backends s l)).

(** [_get_thread_id()], once rebound to the library's entry point *)
Definition _get_thread_id : M Z :=
  l <- global "_get_thread_id" ;;
  s <- get_state ;;
  ret (thread_id (backends s l)).

(** [_set_parallel_chunksize(n)], a [CFUNCTYPE(None, c_uint)] *)
Definition _set_parallel_chunksize (n : Z) : M unit :=
  l <- global "_set_parallel_chunksize" ;;
  modify (fun s =>
    let b := backends s l in
    set_backends
      (upd_backend l {| num_threads := num_threads b; thread_id := thread_id b;
                        chunksize := c_uint n |} (backends s)) s) ;;;
  emit (EvSetChunksize l (c_uint n)).

(** [_get_parallel_chunksize()] *)
Definition _get_parallel_chunksize : M Z :=
  l <- global "_get_parallel_chunksize" ;;
  s <- get_state ;;
  ret (chunksize (backends s l)).

(** ** TBB version check *)

Definition tbb_msg_head : string :=
  "The TBB threading layer requires TBB version 2019.5 or later i.e., "
  +:+ "TBB_INTERFACE_VERSION >= 11005. Found TBB_INTERFACE_VERSION = ".
Definition tbb_msg_tail : string :=
  ". The TBB threading layer is disabled.".

(** [msg % tbb_iface_ver] *)
Definition tbb_warning (v : Z) : string :=
  tbb_msg_head +:+ str_of_Z v +:+ tbb_msg_tail.

Definition _check_tbb_version_compatible (e : env) : M unit :=
  try_except
    (libtbb_name <-
       (if _IS_WINDOWS e then ret "tbb"
        else if _IS_OSX e then ret "libtbb.dylib"
        else if _IS_LINUX e then ret "libtbb.so.2"
        else raise (ValueError "Unknown operating system")) ;;
     libtbb <- call_CDLL e libtbb_name ;;
     version_func <- getattr_version_func libtbb_name libtbb ;;
     (* version_func.restype = c_int; tbb_iface_ver = version_func() *)
     let tbb_iface_ver := c_int version_func in
     if tbb_iface_ver <? 11005 then
       warn (tbb_warning tbb_iface_ver) ;;;
       raise (ImportError ("Problem with TBB. Reason: "
                           +:+ tbb_msg_head +:+ "%s" +:+ tbb_msg_tail))
     else ret tt)
    (fun ex =>
       match ex with
       | ValueError m | OSError m =>
           Some (raise (ImportError ("Problem with TBB. Reason: " +:+ m)))
       | _ => None
       end).

(** ** Selection *)

(** [except ImportError: pass], leaving [lib = None] *)
Definition except_ImportError_pass (ex : exn) : option (M (option Lib)) :=
  match ex with
  | ImportError _ => Some (ret None)
  | _ => None
  end.

Definition select_known_backend (e : env) (backend : string)
  : M (option Lib) :=
  if startswith backend "tbb" then
    try_except
      (_check_tbb_version_compatible e ;;;
       lib <- import_lib e tbbpool ;;
       ret (Some lib))
      except_ImportError_pass
  else if startswith backend "omp" then
    try_except
      (lib <- import_lib e omppool ;; ret (Some lib))
      except_ImportError_pass
  else if startswith backend "workqueue" then
    lib <- import_lib e workqueue ;;
    ret (Some lib)
  else
    raise (ValueError
             ("Unknown value specified for threading layer: " +:+ backend)).

(** The [for ... else] loop: the first backend that gives a library,
    or [(None, '')] when the list is used up. *)
Fixpoint select_from_backends (e : env) (backends : list string)
  : M (option Lib * string) :=
  match backends with
  | [] => ret (None, "")
  | backend :: rest =>
      lib <- select_known_backend e backend ;;
      match lib with
      | Some _ => ret (lib, backend)
      | None => select_from_backends e rest
      end
  end.

Definition namedbackends : list string := ["tbb"; "omp"; "workqueue"].

Definition err_helpers : gmap string string :=
  <["OSX_OMP" := "Intel OpenMP is required, try:" +:+ nl
                 +:+ "$ conda/pip install intel-openmp"]>
  (<["TBB" := "Intel TBB is required, try:" +:+ nl
              +:+ "$ conda/pip install tbb"]> ∅).

(** [err_helpers[x]] *)
Definition err_helper (x : string) : M string :=
  match err_helpers !! x with
  | Some h => ret h
  | None => raise (KeyError x)
  end.

Fixpoint mapM {A B} (f : A -> M B) (l : list A) : M (list B) :=
  match l with
  | [] => ret []
  | x :: r => y <- f x ;; ys <- mapM f r ;; ret (y :: ys)
  end.

Definition errmsg (hint : string) : string :=
  "No threading layer could be loaded." +:+ nl +:+ hint.
Definition hintmsg (body : string) : string := "HINT:" +:+ nl +:+ body.

Definition raise_with_hint {A} (required : list string) : M A :=
  hint <-
    match required with
    | [] => ret ""
    | [x] => h <- err_helper x ;; ret (hintmsg h)
    | _ =>
        hs <- mapM err_helper required ;;
        ret (hintmsg ("One of:" +:+ nl +:+ join (nl +:+ "OR" +:+ nl) hs))
    end ;;
  raise (ValueError (errmsg hint)).

(** The mode dispatch of [_launch_threads]: the library found (if any),
    its name, and the requirements gathered for hinting. *)
Definition resolve_mode (e : env) (t : string)
  : M (option Lib * string * list string) :=
  if str_in t namedbackends then
    lib <- select_known_backend e t ;;
    let requirements :=
      match lib with
      | Some _ => []
      | None =>
          if String.eqb t "tbb" then ["TBB"]
          else if String.eqb t "omp" && _IS_OSX e then ["OSX_OMP"]
          else []
      end in
    ret (lib, t, requirements)
  else if str_in t ["threadsafe"; "forksafe"; "safe"] then
    let available := ["tbb"] in
    let requirements := ["TBB"] in
    av_req <-
      (if String.eqb t "safe" then ret (available, requirements)
       else if String.eqb t "threadsafe" then
         let requirements :=
           if _IS_OSX e then (requirements ++ ["OSX_OMP"])%list else requirements in
         ret ((available ++ ["omp"])%list, requirements)
       else if String.eqb t "forksafe" then
         let available :=
           if negb (_IS_LINUX e) then (available ++ ["omp"])%list else available in
         let requirements :=
           if _IS_OSX e then (requirements ++ ["OSX_OMP"])%list else requirements in
         ret ((available ++ ["workqueue"])%list, requirements)
       else
         raise (ValueError
                  ("No threading layer available for purpose " +:+ t))) ;;
    let '(available, requirements) := av_req in
    sel <- select_from_backends e available ;;
    ret (fst sel, snd sel, requirements)
  else if String.eqb t "default" then
    sel <- select_from_backends e namedbackends ;;
    let requirements :=
      match fst sel with
      | Some _ => []
      | None => (["TBB"] ++ (if _IS_OSX e then ["OSX_OMP"] else []))%list
      end in
    ret (fst sel, snd sel, requirements)
  else
    raise (ValueError ("The threading layer requested '" +:+ t
                       +:+ "' is unknown to Numba.")).

Definition _load_num_threads_funcs (e : env) (lib : Lib) : M unit :=
  add_symbol "get_num_threads" lib "get_num_threads" ;;;
  add_symbol "set_num_threads" lib "set_num_threads" ;;;
  add_symbol "get_thread_id" lib "get_thread_id" ;;;
  bind_global "_set_num_threads" lib ;;;
  _set_num_threads (NUM_THREADS e) ;;;
  bind_global "_get_num_threads" lib ;;;
  bind_global "_get_thread_id" lib.

Definition parfor_load_late (lib : Lib) : M unit :=
  add_symbol "set_parallel_chunksize" lib "set_parallel_chunksize" ;;;
  add_symbol "get_parallel_chunksize" lib "get_parallel_chunksize" ;;;
  add_symbol "get_sched_size" lib "get_sched_size" ;;;
  bind_global "_set_parallel_chunksize" lib ;;;
  bind_global "_get_parallel_chunksize" lib ;;;
  bind_global "_get_sched_size" lib.

(** Lines 487-500: what [_launch_threads] does with the library found. *)
Definition bring_up (e : env) (lib : Lib) (libname : string) : M unit :=
  add_symbol "numba_parallel_for" lib "parallel_for" ;;;
  add_symbol "do_scheduling_signed" lib "do_scheduling_signed" ;;;
  add_symbol "do_scheduling_unsigned" lib "do_scheduling_unsigned" ;;;
  call_launch_threads e lib (NUM_THREADS e) ;;;
  _load_num_threads_funcs e lib ;;;
  parfor_load_late lib ;;;
  modify (set_threading_layer (Some libname)) ;;;
  modify (set_is_initialized true).

(** Everything [_launch_threads] does past the [_is_initialized] test. *)
Definition init_sequence (e : env) : M unit :=
  let t := lower e (THREADING_LAYER e) in
  sel <- resolve_mode e t ;;
  let '(lib, libname, requirements) := sel in
  match lib with
  | None => raise_with_hint requirements
  | Some lib => bring_up e lib libname
  end.

(** [_launch_threads()]; the two reentrant locks are held around the
    body and released on every exit, which a sequential run does not
    observe. *)
Definition _launch_threads (e : env) : M unit :=
  s <- get_state ;;
  if _is_initialized s then ret tt
  else init_sequence e.

(** ** Execution parameters *)

Definition snt_check (e : env) (n : Z) : M unit :=
  let msg := "The number of threads must be between 1 and "
             +:+ str_of_Z (NUMBA_NUM_THREADS e) in
  if (n >? NUMBA_NUM_THREADS e) || (n <? 1) then raise (ValueError msg)
  else ret tt.

Definition set_num_threads (e : env) (n : pyobj) : M unit :=
  _launch_threads e ;;;
  match n with
  | PyOther =>
      raise (TypeError "The number of threads specified must be an integer")
  | PyInt n =>
      snt_check e n ;;;
      _set_num_threads n
  end.

Definition get_num_threads (e : env) : M Z :=
  _launch_threads e ;;;
  num_threads <- _get_num_threads ;;
  if num_threads <=? 0 then
    tid <- _get_thread_id ;;
    raise (RuntimeError
             ("Invalid number of threads. "
              +:+ "This likely indicates a bug in Numba. "
              +:+ "(thread_id=" +:+ str_of_Z tid
              +:+ ", num_threads=" +:+ str_of_Z num_threads +:+ ")"))
  else ret num_threads.

Definition set_parallel_chunksize (e : env) (n : pyobj) : M unit :=
  _launch_threads e ;;;
  match n with
  | PyOther => raise (TypeError "The parallel chunkize must be an integer")
  | PyInt n => _set_parallel_chunksize n
  end.

Definition get_parallel_chunksize (e : env) : M Z :=
  _launch_threads e ;;;
  _get_parallel_chunksize.

(** ** Observations used by the statements *)

(** [s] with [evs] appended to what the process has done so far. *)
Definition add_events (evs : list event) (s : state) : state :=
  set_trace (trace s ++ evs)%list s.

Definition is_launch (ev : event) : bool :=
  match ev with
  | EvLaunch _ _ => true
  | _ => false
  end.

(** How many [launch_threads] calls of a backend have returned. *)
Definition count_launches (evs : list event) : nat :=
  length (List.filter is_launch evs).

(** A computation that only looks at the environment: its result and the
    events it adds do not depend on the state, it launches nothing, and
    it leaves every other field as it is. *)
Definition selects {A} (m : M A) : Prop :=
  exists r evs, count_launches evs = 0%nat /\
                forall s, m s = (r, add_events evs s).

(** The six globals that [_load_num_threads_funcs] and
    [parfor_load_late] rebind. *)
Definition late_bound : list string :=
  ["_set_num_threads"; "_get_num_threads"; "_get_thread_id";
   "_set_parallel_chunksize"; "_get_parallel_chunksize"; "_get_sched_size"].

Definition bound_to (s : state) (l : Lib) : Prop :=
  Forall (fun name => globals s !! name = Some l) late_bound.

(** What holds of every state the module can be in: once initialised,
    the late-bound globals all wrap one library and the layer is named. *)
Definition wf (s : state) : Prop :=
  _is_initialized s = true ->
  (exists l, bound_to s l) /\ _threading_layer s <> None.

(** Computations that neither read nor write the state. *)
Definition stateless {A} (m : M A) : Prop :=
  exists r, forall s, m s = (r, s).

(** The calls a client can make, and a process lifetime as a list of
    them, each with the environment it meets. *)
Inductive call :=
| CallLaunchThreads
| CallSetNumThreads (n : pyobj)
| CallGetNumThreads
| CallSetParallelChunksize (n : pyobj)
| CallGetParallelChunksize
| CallThreadingLayer.

Definition do_call (e : env) (c : call) (s : state) : state :=
  match c with
  | CallLaunchThreads => snd (_launch_threads e s)
  | CallSetNumThreads n => snd (set_num_threads e n s)
  | CallGetNumThreads => snd (get_num_threads e s)
  | CallSetParallelChunksize n => snd (set_parallel_chunksize e n s)
  | CallGetParallelChunksize => snd (get_parallel_chunksize e s)
  | CallThreadingLayer => snd (threading_layer s)
  end.

Fixpoint run (calls : list (env * call)) (s : state) : state :=
  match calls with
  | [] => s
  | (e, c) :: rest => run rest (do_call e c s)
  end.

(** The invariant of a process lifetime. *)
Definition inv (s : state) : Prop :=
  wf s /\
  count_launches (trace s) = (if _is_initialized s then 1 else 0)%nat.

(** Computations that leave the initialisation data alone. *)
Definition keeps {A} (m : M A) : Prop :=
  forall s r s', m s = (r, s') ->
    _is_initialized s' = _is_initialized s /\
    _threading_layer s' = _threading_layer s /\
    globals s' = globals s /\
    count_launches (trace s') = count_launches (trace s).

Definition preserves {A} (m : M A) : Prop :=
  forall s r s', m s = (r, s') -> inv s ->
    inv s' /\ (_is_initialized s = true -> _is_initialized s' = true).

(** The library name [_check_tbb_version_compatible] asks [CDLL] for;
    [None] on an operating system it does not know. *)
Definition libtbb_name (e : env) : option string :=
  if _IS_WINDOWS e then Some "tbb"
  else if _IS_OSX e then Some "libtbb.dylib"
  else if _IS_LINUX e then Some "libtbb.so.2"
  else None.

(** The TBB runtime that [CDLL] finds, if any. *)
Definition libtbb (e : env) : option dll :=
  match libtbb_name e with
  | Some name => CDLL e name
  | None => None
  end.

(** The interface version of the TBB runtime that is present, if there
    is one and it exports [TBB_runtime_interface_version]. *)
Definition tbb_iface_ver (e : env) : option Z :=
  match libtbb e with
  | Some lib => c_int <$> TBB_runtime_interface_version lib
  | None => None
  end.

(** A TBB runtime is found, but it does not export
    [TBB_runtime_interface_version]. *)
Definition tbb_lacks_version (e : env) : bool :=
  match libtbb e with
  | Some lib =>
      match TBB_runtime_interface_version lib with
      | Some _ => false
      | None => true
      end
  | None => false
  end.

(** A backend module fails to load: its import fails or, for TBB, no
    runtime of interface version 11005 or later is found. *)
Definition fails_to_load (e : env) (l : Lib) : bool :=
  match l with
  | tbbpool =>
      match tbb_iface_ver e with
      | Some v => (v <? 11005) || negb (importable e tbbpool)
      | None => true
      end
  | omppool => negb (importable e omppool)
  | workqueue => negb (importable e workqueue)
  end.

(** The three ways an attempt on a candidate can end, from any state. *)
Definition unavailable (e : env) (b : string) : Prop :=
  forall s, fst (select_known_backend e b s) = Ok None.
Definition loads (e : env) (b : string) (lib : Lib) : Prop :=
  forall s, fst (select_known_backend e b s) = Ok (Some lib).
Definition load_raises (e : env) (b : string) (ex : exn) : Prop :=
  forall s, fst (select_known_backend e b s) = Raise ex.

(** The candidates of each mode as the specification lists them, in the
    order they are tried. *)
Definition candidates (e : env) (t : string) : option (list string) :=
  if String.eqb t "default" then Some ["tbb"; "omp"; "workqueue"]
  else if String.eqb t "safe" then Some ["tbb"]
  else if String.eqb t "threadsafe" then Some ["tbb"; "omp"]
  else if String.eqb t "forksafe" then
    Some (if _IS_LINUX e then ["tbb"; "workqueue"]
          else ["tbb"; "omp"; "workqueue"])
  else if str_in t ["tbb"; "omp"; "workqueue"] then Some [t]
  else None.

(** The module a candidate name stands for, by the [startswith] tests of
    [select_known_backend]. *)
Definition module_of (backend : string) : option Lib :=
  if startswith backend "tbb" then Some tbbpool
  else if startswith backend "omp" then Some omppool
  else if startswith backend "workqueue" then Some workqueue
  else None.

(** The hints that go with a list of attempted candidates: the TBB one
    when tbb was among them, the Intel OpenMP one on macOS when omp was. *)
Definition relevant_hints (e : env) (l : list string) : list string :=
  ((if str_in "tbb" l then ["TBB"] else []) ++
   (if str_in "omp" l && _IS_OSX e then ["OSX_OMP"] else []))%list.

Definition hint_text (keys : list string) : string :=
  let hs := omap (fun k => err_helpers !! k) keys in
  match hs with
  | [] => ""
  | [h] => hintmsg h
  | _ => hintmsg ("One of:" +:+ nl +:+ join (nl +:+ "OR" +:+ nl) hs)
  end.

Definition known_modes : list string :=
  ["tbb"; "omp"; "workqueue"; "threadsafe"; "forksafe"; "safe"; "default"].

Definition unknown_layer_error (t : string) : exn :=
  ValueError ("The threading layer requested '" +:+ t
              +:+ "' is unknown to Numba.").

Definition with_threading_layer (x : string) (e : env) : env :=
  {| sys_platform := sys_platform e; THREADING_LAYER := x;
     lower := lower e;
     NUMBA_NUM_THREADS := NUMBA_NUM_THREADS e; CDLL := CDLL e;
     importable := importable e; launch_raises := launch_raises e |}.

(** Sample environments and states.  The modes they are used with are
    ASCII strings, on which [str.lower] is [ascii_lower]. *)
Definition idle_backends : Lib -> backend :=
  fun _ => {| num_threads := 0; thread_id := 0; chunksize := 0 |}.

(** Linux, every module importable, a recent TBB, four threads. *)
Definition env_linux (mode : string) : env :=
  {| sys_platform := "linux"; THREADING_LAYER := mode;
     lower := ascii_lower; NUMBA_NUM_THREADS := 4;
     CDLL := fun _ => Some {| TBB_runtime_interface_version := Some 12000 |};
     importable := fun _ => true; launch_raises := fun _ => false |}.

(** Linux with TBB 2019.4 (interface version 11004) installed. *)
Definition env_old_tbb (mode : string) : env :=
  {| sys_platform := "linux"; THREADING_LAYER := mode;
     lower := ascii_lower; NUMBA_NUM_THREADS := 4;
     CDLL := fun _ => Some {| TBB_runtime_interface_version := Some 11004 |};
     importable := fun _ => true; launch_raises := fun _ => false |}.

(** macOS with no TBB runtime and no extension module importable. *)
Definition env_bare (mode : string) : env :=
  {| sys_platform := "darwin"; THREADING_LAYER := mode;
     lower := ascii_lower; NUMBA_NUM_THREADS := 4; CDLL := fun _ => None;
     importable := fun _ => false; launch_raises := fun _ => false |}.

(** Linux where the library loads but its launch call raises. *)
Definition env_launch_fails (mode : string) : env :=
  {| sys_platform := "linux"; THREADING_LAYER := mode;
     lower := ascii_lower; NUMBA_NUM_THREADS := 4;
     CDLL := fun _ => Some {| TBB_runtime_interface_version := Some 12000 |};
     importable := fun _ => true; launch_raises := fun _ => true |}.

(** Linux where the library found under the TBB name does not export
    [TBB_runtime_interface_version]; every module is importable. *)
Definition env_tbb_no_version (mode : string) : env :=
  {| sys_platform := "linux"; THREADING_LAYER := mode;
     lower := ascii_lower; NUMBA_NUM_THREADS := 4;
     CDLL := fun _ => Some {| TBB_runtime_interface_version := None |};
     importable := fun _ => true; launch_raises := fun _ => false |}.

(** The UTF-8 form of U+212A, the Kelvin sign, whose lowercase form is
    the letter k. *)
Definition kelvin_sign : string :=
  String (ascii_of_nat 226)
    (String (ascii_of_nat 132) (String (ascii_of_nat 170) EmptyString)).

Definition is_kelvin_sign (a b c : ascii) : bool :=
  ((nat_of_ascii a =? 226) && (nat_of_ascii b =? 132)
   && (nat_of_ascii c =? 170))%nat.

(** A [str.lower] that knows one letter beyond ASCII, the Kelvin sign. *)
Fixpoint kelvin_lower (s : string) : string :=
  match s with
  | EmptyString => EmptyString
  | String a r =>
      match r with
      | String b (String c r') =>
          if is_kelvin_sign a b c then String "k" (kelvin_lower r')
          else String (lower_char a) (kelvin_lower r)
      | _ => String (lower_char a) (kelvin_lower r)
      end
  end.

(** Linux, every module importable, the mode spelled with a Kelvin sign
    for the letter K. *)
Definition env_kelvin : env :=
  {| sys_platform := "linux";
     THREADING_LAYER := "WOR" +:+ kelvin_sign +:+ "QUEUE";
     lower := kelvin_lower; NUMBA_NUM_THREADS := 4;
     CDLL := fun _ => Some {| TBB_runtime_interface_version := Some 12000 |};
     importable := fun _ => true; launch_raises := fun _ => false |}.

(** Computations whose exceptions all satisfy [P]. *)
Definition raises_only {A} (P : exn -> Prop) (m : M A) : Prop :=
  forall s ex s', m s = (Raise ex, s') -> P ex.

(** Not the unknown-threading-layer error, whatever value it names. *)
Definition not_unknown_layer (ex : exn) : Prop :=
  forall t, ex <> unknown_layer_error t.

(** The message of the [RuntimeError] of [get_num_threads]. *)
Definition invalid_threads_msg (tid v : Z) : string :=
  "Invalid number of threads. This likely indicates a bug in Numba. "
  +:+ "(thread_id=" +:+ str_of_Z tid +:+ ", num_threads=" +:+ str_of_Z v +:+ ")".

(** The [ValueError] of [snt_check]. *)
Definition range_error (e : env) : exn :=
  ValueError ("The number of threads must be between 1 and "
              +:+ str_of_Z (NUMBA_NUM_THREADS e)).

(** A module that omp initialised on Linux with four threads. *)
Definition ready_state : state :=
  snd (_launch_threads (env_linux "omp") (initial_state idle_backends)).

Section RangeScheduler.
Local Open Scope nat_scope.

(** Modelled from the spec: the range scheduler, whose code is in the
    native libraries ([do_scheduling_signed], [do_scheduling_unsigned],
    [get_sched_size]) that [_launch_threads] only registers by name.
    With chunk size 0 the domain is split as evenly as possible into
    [min(thread_count, total_count)] ranges, and the first
    [total_count mod thread_count] ranges get one extra element. *)
Definition range_size (total_count thread_count i : nat) : nat :=
  total_count / thread_count
  + (if i <? total_count mod thread_count then 1 else 0).

(** Contiguous ranges [(start, end)] of the given sizes, from [start]. *)
Fixpoint ranges_from (start : nat) (sizes : list nat) : list (nat * nat) :=
  match sizes with
  | [] => []
  | n :: rest => (start, start + n) :: ranges_from (start + n) rest
  end.

(** Modelled from the spec: [get_schedule_ranges(total_count,
    thread_count)] for chunk size 0. *)
Definition get_schedule_ranges (total_count thread_count : nat)
  : list (nat * nat) :=
  ranges_from 0 (map (range_size total_count thread_count)
                     (seq 0 (Nat.min thread_count total_count))).

(** [rs] is a chain of non-empty ranges from [a] to [c]: the first
    starts at [a], each starts where the one before ends, the last ends
    at [c]. *)
Inductive chained : nat -> nat -> list (nat * nat) -> Prop :=
| chained_nil a : chained a a []
| chained_cons a b c rs :
    a < b -> chained b c rs -> chained a c ((a, b) :: rs).

(** How many ranges of [rs] contain [x]. *)
Definition covering (x : nat) (rs : list (nat * nat)) : nat :=
  length (List.filter (fun r => (fst r <=? x) && (x <? snd r)) rs).

End RangeScheduler.

(** ** Further observations *)

(** The error of the lookup of [TBB_runtime_interface_version] in a
    library, found under [name], that does not export it. *)
Definition version_lookup_error (name : string) : exn :=
  AttributeError (name +:+ ": undefined symbol: TBB_runtime_interface_version").

(** The error that ends an attempt on a module without being caught, if
    there is one: the version lookup in a TBB runtime that lacks the
    function, and the failed import of workqueue. *)
Definition load_error (e : env) (l : Lib) : option exn :=
  match l with
  | tbbpool =>
      if tbb_lacks_version e then version_lookup_error <$> libtbb_name e
      else None
  | omppool => None
  | workqueue =>
      if importable e workqueue then None
      else Some (ImportError "cannot import name")
  end.

(** The errors an attempt on tbb, omp or workqueue can end with, each
    with what brings it about. *)
Definition selection_error (e : env) (ex : exn) : Prop :=
  (importable e workqueue = false /\
   ex = ImportError "cannot import name") \/
  (tbb_lacks_version e = true /\ exists msg, ex = AttributeError msg).

(** The errors [_launch_threads] can end with. *)
Definition launch_error (e : env) (ex : exn) : Prop :=
  ex = unknown_layer_error (lower e (THREADING_LAYER e)) \/
  (exists keys, incl keys ["TBB"; "OSX_OMP"] /\
                ex = ValueError (errmsg (hint_text keys))) \/
  selection_error e ex \/
  (exists lib, launch_raises e lib = true /\ ex = BackendError).

(** The symbols [_launch_threads] registers with [ll.add_symbol], each
    with the entry point of the library it is given. *)
Definition entry_points : list (string * string) :=
  [("numba_parallel_for", "parallel_for");
   ("do_scheduling_signed", "do_scheduling_signed");
   ("do_scheduling_unsigned", "do_scheduling_unsigned");
   ("get_num_threads", "get_num_threads");
   ("set_num_threads", "set_num_threads");
   ("get_thread_id", "get_thread_id");
   ("set_parallel_chunksize", "set_parallel_chunksize");
   ("get_parallel_chunksize", "get_parallel_chunksize");
   ("get_sched_size", "get_sched_size")].

(** The module is wired to the library [lib] under the name [name]. *)
Definition wired (s : state) (name : string) (lib : Lib) : Prop :=
  _threading_layer s = Some name /\
  In name namedbackends /\
  module_of name = Some lib /\
  bound_to s lib /\
  Forall (fun p => ll_symbols s !! fst p = Some (lib, snd p)) entry_points.

(** Two states with the same initialisation flag, layer name, rebound
    globals and registered symbols. *)
Definition same_wiring (s s' : state) : Prop :=
  _is_initialized s' = _is_initialized s /\
  _threading_layer s' = _threading_layer s /\
  globals s' = globals s /\
  ll_symbols s' = ll_symbols s.

(** Computations that leave the wiring as it is. *)
Definition keeps_wiring {A} (m : M A) : Prop :=
  forall s r s', m s = (r, s') -> same_wiring s s'.

(** What the wiring is in a state: none before initialisation, one
    library under its own name after. *)
Definition wiring_inv (s : state) : Prop :=
  if _is_initialized s then exists name lib, wired s name lib
  else _threading_layer s = None.

(** A candidate whose module loads in this environment. *)
Definition loadable (e : env) (b : string) : bool :=
  match module_of b with
  | Some l => negb (fails_to_load e l)
  | None => false
  end.

(** A candidate whose attempt ends the selection with an error. *)
Definition fatal (e : env) (b : string) : bool :=
  match module_of b with
  | Some l => bool_decide (is_Some (load_error e l))
  | None => true
  end.

(** The first candidate of a list whose module loads, no candidate
    before it being fatal. *)
Fixpoint first_loading (e : env) (l : list string) : option string :=
  match l with
  | [] => None
  | b :: rest =>
      if fatal e b then None
      else if loadable e b then Some b
      else first_loading e rest
  end.

(** The layer a first [_launch_threads] is going to name, read off the
    environment alone. *)
Definition predicted_layer (e : env) : option string :=
  match candidates e (lower e (THREADING_LAYER e)) with
  | Some l => first_loading e l
  | None => None
  end.

(** What [str.lower] does whatever the Unicode tables of the
    interpreter: on a string of ASCII characters it folds the letters
    A-Z. *)
Definition lower_folds_ascii (e : env) : Prop :=
  forall t, is_ascii t = true -> lower e t = ascii_lower t.

(** Once initialised, the active thread count of the library in use is
    between 1 and [N]. *)
Definition count_in_range (N : Z) (s : state) : Prop :=
  _is_initialized s = true ->
  exists lib, bound_to s lib /\ 1 <= num_threads (backends s lib) <= N.

(** ** The module-level function [_get_thread_id] *)

(** [def _get_thread_id()], lines 630-637: it initialises, then calls
    whatever the name [_get_thread_id] is bound to by then, which is the
    library's entry point once [_load_num_threads_funcs] has rebound the
    name, and this function itself otherwise.  [depth] is what is left of
    the Python call stack; running out of it is a [RecursionError], which
    is a [RuntimeError]. *)
Fixpoint _get_thread_id_def (depth : nat) (e : env) : M Z :=
  match depth with
  | O => raise (RuntimeError "maximum recursion depth exceeded")
  | S d =>
      _launch_threads e ;;;
      s <- get_state ;;
      match globals s !! "_get_thread_id" with
      | Some _ => _get_thread_id
      | None => _get_thread_id_def d e
      end
  end.

(** ** The import of the module *)

(** What the top-level statements of the module read besides [env]. *)
Record import_env := {
  base : env;
  (** [multiprocessing.get_start_method()] *)
  start_method : string;
  (** [multiprocessing.get_context().RLock()]: [Some msg] when it raises
      [OSError(msg)] *)
  rlock_raises : option string;
  (** [NUMBA_DYLD_WORKAROUND] in [os.environ]: [None] when unset,
      [Some None] when set to something [int()] rejects, [Some (Some v)]
      when set to the numeral of [v] *)
  NUMBA_DYLD_WORKAROUND : option (option Z)
}.

(** What [_backend_init_process_lock] is bound to. *)
Inductive lock_kind :=
| ProcessRLock
| NopLock.

(** [p in s] for strings *)
Fixpoint str_contains (p s : string) : bool :=
  String.prefix p s ||
  match s with
  | EmptyString => false
  | String _ r => str_contains p r
  end.

Definition lock_warning (err : string) : string :=
  "Could not obtain multiprocessing lock due to OS level error: " +:+ err
  +:+ nl
  +:+ "A likely cause of this problem is '/dev/shm' is missing or"
  +:+ "read-only such that necessary semaphores cannot be written." +:+ nl
  +:+ "*** The responsibility of ensuring multiprocessing safe access to "
  +:+ "this initialization sequence/module import is deferred to the "
  +:+ "user! ***" +:+ nl.

(** Calling a module-level function by name: a [NameError] while its
    [def] has not been executed. *)
Definition call_function (defined : string -> bool) (name : string)
    (body : M unit) : M unit :=
  if defined name then body else raise (NameError name).

(** [bring_up], [init_sequence] and [_launch_threads] with the
    module-level functions they call looked up in what is defined at the
    time of the call. *)
Definition bring_up_in (defined : string -> bool) (e : env) (lib : Lib)
    (libname : string) : M unit :=
  add_symbol "numba_parallel_for" lib "parallel_for" ;;;
  add_symbol "do_scheduling_signed" lib "do_scheduling_signed" ;;;
  add_symbol "do_scheduling_unsigned" lib "do_scheduling_unsigned" ;;;
  call_launch_threads e lib (NUM_THREADS e) ;;;
  call_function defined "_load_num_threads_funcs"
    (_load_num_threads_funcs e lib) ;;;
  call_function defined "parfor_load_late" (parfor_load_late lib) ;;;
  modify (set_threading_layer (Some libname)) ;;;
  modify (set_is_initialized true).

Definition init_sequence_in (defined : string -> bool) (e : env) : M unit :=
  let t := lower e (THREADING_LAYER e) in
  sel <- resolve_mode e t ;;
  let '(lib, libname, requirements) := sel in
  match lib with
  | None => raise_with_hint requirements
  | Some lib => bring_up_in defined e lib libname
  end.

Definition _launch_threads_in (defined : string -> bool) (e : env) : M unit :=
  s <- get_state ;;
  if _is_initialized s then ret tt
  else init_sequence_in defined e.

(** The module-level functions defined when line 653 runs: all those
    that [_launch_threads] calls except [parfor_load_late], whose [def]
    is at line 656. *)
Definition defined_at_workaround (name : string) : bool :=
  negb (String.eqb name "parfor_load_late").

(** Lines 289-310: the process lock is a multiprocessing [RLock] when the
    start method has "fork" in its name or on Windows, and a no-op
    context manager otherwise; when the [RLock] cannot be made the
    [OSError] becomes a warning and the lock a no-op. *)
Definition choose_process_lock (ie : import_env) : M lock_kind :=
  try_except
    (if str_contains "fork" (start_method ie) || _IS_WINDOWS (base ie) then
       match rlock_raises ie with
       | Some msg => raise (OSError msg)
       | None => ret ProcessRLock
       end
     else ret NopLock)
    (fun ex =>
       match ex with
       | OSError msg => Some (warn (lock_warning msg) ;;; ret NopLock)
       | _ => None
       end).

(** The top-level statements of the module that this file follows, in
    order: [NUM_THREADS = get_thread_count()] (line 46), the choice of
    the process lock (lines 289-310), and the [NUMBA_DYLD_WORKAROUND]
    launch (lines 649-653).  The result is the lock the module ends up
    with. *)
Definition import_module (ie : import_env) : M lock_kind :=
  let e := base ie in
  match get_thread_count e with
  | Raise ex => raise ex
  | Ok _ =>
      lock <- choose_process_lock ie ;;
      match NUMBA_DYLD_WORKAROUND ie with
      | None => ret lock
      | Some None => raise (ValueError "invalid literal for int() with base 10")
      | Some (Some v) =>
          if v =? 0 then ret lock
          else _launch_threads_in defined_at_workaround e ;;; ret lock
      end
  end.

(** Linux with the workaround switched on, everything installed. *)
Definition import_env_workaround : import_env :=
  {| base := env_linux "default"; start_method := "spawn";
     rlock_raises := None; NUMBA_DYLD_WORKAROUND := Some (Some 1) |}.

(** A fork start method on a system without [/dev/shm]. *)
Definition import_env_no_shm : import_env :=
  {| base := env_linux "default"; start_method := "forkserver";
     rlock_raises := Some "[Errno 38] Function not implemented";
     NUMBA_DYLD_WORKAROUND := None |}.

(** ** The inner dimension count of [build_gufunc_wrapper] *)

(** [set(sym for term in sin for sym in term)] *)
Definition symbols_of (terms : list (list string)) : gset string :=
  list_to_set (concat terms).

(** [inner_ndim = len(sym_in | sym_out)], lines 261-263 *)
Definition inner_ndim (sin sout : list (list string)) : nat :=
  size (symbols_of sin ∪ symbols_of sout).

(** The three symbols [_launch_threads] registers before it launches. *)
Definition register_scheduler (lib : Lib) (m : gmap string (Lib * string))
  : gmap string (Lib * string) :=
  <["do_scheduling_unsigned" := (lib, "do_scheduling_unsigned")]>
  (<["do_scheduling_signed" := (lib, "do_scheduling_signed")]>
   (<["numba_parallel_for" := (lib, "parallel_for")]> m)).

(** * Proofs *)

(** ** Lemmas on the monad and on the trace *)

Lemma add_events_nil s : add_events [] s = s.
Proof. destruct s; unfold add_events, set_trace; simpl. by rewrite app_nil_r. Qed.

Lemma add_events_app evs1 evs2 s :
  add_events evs2 (add_events evs1 s) = add_events (evs1 ++ evs2) s.
Proof. unfold add_events, set_trace; simpl. by rewrite app_assoc. Qed.

Lemma count_launches_app evs1 evs2 :
  count_launches (evs1 ++ evs2) = (count_launches evs1 + count_launches evs2)%nat.
Proof. unfold count_launches. by rewrite List.filter_app, length_app. Qed.

Lemma selects_ret {A} (a : A) : selects (ret a).
Proof. exists (Ok a), []. split; [done|]. intros s. by rewrite add_events_nil. Qed.

Lemma selects_raise {A} ex : selects (@raise A ex).
Proof. exists (Raise ex), []. split; [done|]. intros s. by rewrite add_events_nil. Qed.

Lemma selects_emit ev : is_launch ev = false -> selects (emit ev).
Proof.
  intros H. exists (Ok tt), [ev]. split.
  - unfold count_launches; simpl. by rewrite H.
  - done.
Qed.

Lemma selects_bind {A B} (m : M A) (k : A -> M B) :
  selects m -> (forall a, selects (k a)) -> selects (bind m k).
Proof.
  intros (r & evs & Hc & Hm) Hk. destruct r as [a|ex].
  - destruct (Hk a) as (r' & evs' & Hc' & Hk').
    exists r', (evs ++ evs')%list. split.
    + rewrite count_launches_app. lia.
    + intros s. unfold bind. by rewrite Hm, Hk', add_events_app.
  - exists (Raise ex), evs. split; [done|].
    intros s. unfold bind. by rewrite Hm.
Qed.

Lemma selects_try {A} (m : M A) h :
  selects m -> (forall ex k, h ex = Some k -> selects k) ->
  selects (try_except m h).
Proof.
  intros (r & evs & Hc & Hm) Hh. destruct r as [a|ex].
  - exists (Ok a), evs. split; [done|]. intros s. unfold try_except. by rewrite Hm.
  - destruct (h ex) as [k|] eqn:E.
    + destruct (Hh _ _ E) as (r' & evs' & Hc' & Hk').
      exists r', (evs ++ evs')%list. split.
      * rewrite count_launches_app. lia.
      * intros s. unfold try_except. by rewrite Hm, E, Hk', add_events_app.
    + exists (Raise ex), evs. split; [done|].
      intros s. unfold try_except. by rewrite Hm, E.
Qed.

Ltac sel_step :=
  match goal with
  | |- selects (bind _ _) => apply selects_bind; [|intros ?]
  | |- selects (try_except _ _) => apply selects_try; [|intros ? ? ?]
  | |- selects (ret _) => apply selects_ret
  | |- selects (raise _) => apply selects_raise
  | |- selects (emit _) => apply selects_emit; reflexivity
  | |- selects (if ?b then _ else _) => destruct b
  | |- selects (match ?o with Some _ => _ | None => _ end) => destruct o
  | |- selects (let '(_, _) := ?p in _) => destruct p
  end.

Lemma selects_call_CDLL e name : selects (call_CDLL e name).
Proof. unfold call_CDLL. repeat sel_step. Qed.

Lemma selects_getattr_version_func name lib : selects (getattr_version_func name lib).
Proof. unfold getattr_version_func. repeat sel_step. Qed.

Lemma selects_import_lib e l : selects (import_lib e l).
Proof. unfold import_lib. repeat sel_step. Qed.

Lemma selects_check_tbb e : selects (_check_tbb_version_compatible e).
Proof.
  unfold _check_tbb_version_compatible, warn.
  repeat (sel_step || apply selects_call_CDLL
          || apply selects_getattr_version_func).
  all: destruct ex; simplify_eq; apply selects_raise.
Qed.

Lemma selects_select_known_backend e b : selects (select_known_backend e b).
Proof.
  unfold select_known_backend, except_ImportError_pass.
  repeat (sel_step || apply selects_check_tbb || apply selects_import_lib).
  all: destruct ex; simplify_eq; apply selects_ret.
Qed.

Lemma selects_select_from_backends e l : selects (select_from_backends e l).
Proof.
  induction l as [|b l IH]; simpl.
  - apply selects_ret.
  - apply selects_bind; [apply selects_select_known_backend|].
    intros [lib|]; [apply selects_ret | exact IH].
Qed.

Lemma selects_resolve_mode e t : selects (resolve_mode e t).
Proof.
  unfold resolve_mode.
  repeat (sel_step || apply selects_select_known_backend
          || apply selects_select_from_backends).
Qed.

Lemma selects_err_helper x : selects (err_helper x).
Proof. unfold err_helper. repeat sel_step. Qed.

Lemma selects_mapM_err_helper l : selects (mapM err_helper l).
Proof.
  induction l as [|x l IH]; simpl.
  - apply selects_ret.
  - apply selects_bind; [apply selects_err_helper|]. intros y.
    apply selects_bind; [exact IH|]. intros ys. apply selects_ret.
Qed.

Lemma selects_raise_with_hint {A} l : selects (@raise_with_hint A l).
Proof.
  unfold raise_with_hint.
  apply selects_bind; [|intros; apply selects_raise].
  destruct l as [|x [|y l]].
  - apply selects_ret.
  - repeat (sel_step || apply selects_err_helper).
  - apply selects_bind; [apply selects_mapM_err_helper|]. intros; apply selects_ret.
Qed.

Lemma stateless_err_helper x : stateless (err_helper x).
Proof. unfold err_helper. destruct (err_helpers !! x) as [h|]; eexists; intros s; reflexivity. Qed.

Lemma stateless_bind {A B} (m : M A) (k : A -> M B) :
  stateless m -> (forall a, stateless (k a)) -> stateless (bind m k).
Proof.
  intros [[a|ex] Hm] Hk.
  - destruct (Hk a) as [r Hr]. exists r. intros s. unfold bind. by rewrite Hm, Hr.
  - exists (Raise ex). intros s. unfold bind. by rewrite Hm.
Qed.

Lemma stateless_mapM_err_helper l : stateless (mapM err_helper l).
Proof.
  induction l as [|x l IH]; simpl.
  - by exists (Ok []).
  - apply stateless_bind; [apply stateless_err_helper|]. intros y.
    apply stateless_bind; [exact IH|]. intros ys. by eexists.
Qed.

Lemma raise_with_hint_raises {A} l :
  exists ex, forall s, @raise_with_hint A l s = (Raise ex, s).
Proof.
  unfold raise_with_hint.
  assert (H : stateless
    (match l with
     | [] => ret ""
     | [x] => h <- err_helper x ;; ret (hintmsg h)
     | _ => hs <- mapM err_helper l ;;
            ret (hintmsg ("One of:" +:+ nl +:+ join (nl +:+ "OR" +:+ nl) hs))
     end)).
  { destruct l as [|x [|y l]].
    - by eexists.
    - apply stateless_bind; [apply stateless_err_helper|]. intros; by eexists.
    - apply stateless_bind; [apply stateless_mapM_err_helper|]. intros; by eexists. }
  destruct H as [[h|ex] H].
  - eexists. intros s. unfold bind. rewrite H. reflexivity.
  - exists ex. intros s. unfold bind. by rewrite H.
Qed.

(** The state [bring_up] leaves when the launch call raises: three
    symbols registered, nothing else touched. *)
Lemma bring_up_raises e lib name s :
  launch_raises e lib = true ->
  exists s', bring_up e lib name s = (Raise BackendError, s') /\
             _is_initialized s' = _is_initialized s /\
             _threading_layer s' = _threading_layer s /\
             globals s' = globals s /\
             backends s' = backends s /\
             trace s' = trace s.
Proof.
  intros H. unfold bring_up, call_launch_threads, add_symbol, bind, modify.
  rewrite H. unfold raise. eexists. split; [reflexivity|]. simpl. done.
Qed.

Lemma bring_up_returns e lib name s :
  launch_raises e lib = false ->
  exists s', bring_up e lib name s = (Ok tt, s') /\
             _is_initialized s' = true /\
             _threading_layer s' = Some name /\
             bound_to s' lib /\
             num_threads (backends s' lib) = c_int (NUM_THREADS e) /\
             trace s' = (trace s ++ [EvLaunch lib (c_int (NUM_THREADS e));
                                     EvSetNumThreads lib (c_int (NUM_THREADS e))])%list.
Proof.
  intros H.
  unfold bring_up, call_launch_threads, _load_num_threads_funcs,
    parfor_load_late, _set_num_threads, global, add_symbol, bind_global,
    emit, bind, modify, get_state, ret.
  rewrite H. cbn [globals set_globals set_ll_symbols set_trace set_backends
                  set_threading_layer set_is_initialized
                  _is_initialized _threading_layer ll_symbols backends trace].
  rewrite lookup_insert_eq.
  eexists. split; [reflexivity|].
  cbn [globals set_globals set_ll_symbols set_trace set_backends
       set_threading_layer set_is_initialized
       _is_initialized _threading_layer ll_symbols backends trace].
  repeat split.
  - unfold bound_to, late_bound. repeat constructor; by simplify_map_eq.
  - unfold upd_backend. by rewrite decide_True.
  - by rewrite <- app_assoc.
Qed.

Lemma init_sequence_cases e :
  exists evs, count_launches evs = 0%nat /\
    ((exists ex, forall s, init_sequence e s = (Raise ex, add_events evs s)) \/
     (exists lib name,
        forall s, init_sequence e s = bring_up e lib name (add_events evs s))).
Proof.
  destruct (selects_resolve_mode e (lower e (THREADING_LAYER e)))
    as (r & evs & Hc & Hr).
  exists evs. split; [done|].
  destruct r as [[[[lib|] name] reqs]|ex].
  - right. exists lib, name. intros s. unfold init_sequence, bind. by rewrite Hr.
  - left. destruct (@raise_with_hint_raises unit reqs) as [ex Hex].
    exists ex. intros s. unfold init_sequence, bind. by rewrite Hr, Hex.
  - left. exists ex. intros s. unfold init_sequence, bind. by rewrite Hr.
Qed.

Lemma keeps_bind {A B} (m : M A) (k : A -> M B) :
  keeps m -> (forall a, keeps (k a)) -> keeps (bind m k).
Proof.
  intros Hm Hk s r s'. unfold bind.
  destruct (m s) as [[a|ex] s1] eqn:E; intros H.
  - destruct (Hm _ _ _ E) as (?&?&?&?). destruct (Hk a _ _ _ H) as (?&?&?&?).
    repeat split; congruence.
  - simplify_eq. eauto.
Qed.

Lemma keeps_ret {A} (a : A) : keeps (ret a).
Proof. intros s r s' H. unfold ret in H. by simplify_eq. Qed.

Lemma keeps_raise {A} ex : keeps (@raise A ex).
Proof. intros s r s' H. unfold raise in H. by simplify_eq. Qed.

Lemma keeps_get_state : keeps get_state.
Proof. intros s r s' H. unfold get_state in H. by simplify_eq. Qed.

Lemma keeps_global name : keeps (global name).
Proof.
  unfold global. apply keeps_bind; [apply keeps_get_state|]. intros s0.
  destruct (globals s0 !! name); [apply keeps_ret | apply keeps_raise].
Qed.

Lemma keeps_emit ev : is_launch ev = false -> keeps (emit ev).
Proof.
  intros Hev s r s' H. unfold emit, modify in H. simplify_eq. simpl.
  repeat split. rewrite count_launches_app. unfold count_launches at 2. simpl.
  rewrite Hev. simpl. lia.
Qed.

Lemma keeps_set_num_threads n : keeps (_set_num_threads n).
Proof.
  unfold _set_num_threads. apply keeps_bind; [apply keeps_global|]. intros l.
  apply keeps_bind; [|intros; by apply keeps_emit].
  intros s r s' H. unfold modify in H. by simplify_eq.
Qed.

Lemma keeps_set_parallel_chunksize n : keeps (_set_parallel_chunksize n).
Proof.
  unfold _set_parallel_chunksize. apply keeps_bind; [apply keeps_global|]. intros l.
  apply keeps_bind; [|intros; by apply keeps_emit].
  intros s r s' H. unfold modify in H. by simplify_eq.
Qed.

Lemma keeps_read (f : backend -> Z) name :
  keeps (l <- global name ;; s <- get_state ;; ret (f (backends s l))).
Proof.
  apply keeps_bind; [apply keeps_global|]. intros l.
  apply keeps_bind; [apply keeps_get_state|]. intros; apply keeps_ret.
Qed.

Lemma keeps_snt_check e n : keeps (snt_check e n).
Proof.
  unfold snt_check.
  destruct ((n >? NUMBA_NUM_THREADS e) || (n <? 1));
    [apply keeps_raise | apply keeps_ret].
Qed.

Lemma keeps_threading_layer : keeps threading_layer.
Proof.
  unfold threading_layer. apply keeps_bind; [apply keeps_get_state|].
  intros s0. destruct (_threading_layer s0); [apply keeps_ret|apply keeps_raise].
Qed.

Lemma keeps_preserves {A} (m : M A) : keeps m -> preserves m.
Proof.
  intros Hm s r s' H [Hwf Hc]. destruct (Hm _ _ _ H) as (Hi & Hl & Hg & Hn).
  split; [|congruence]. split.
  - unfold wf, bound_to in *. rewrite Hi, Hl, Hg. exact Hwf.
  - by rewrite Hn, Hi.
Qed.

Lemma preserves_bind {A B} (m : M A) (k : A -> M B) :
  preserves m -> (forall a, preserves (k a)) -> preserves (bind m k).
Proof.
  intros Hm Hk s r s'. unfold bind.
  destruct (m s) as [[a|ex] s1] eqn:E; intros H Hs.
  - destruct (Hm _ _ _ E Hs) as [H1 H1']. destruct (Hk a _ _ _ H H1) as [H2 H2'].
    split; auto.
  - simplify_eq. eauto.
Qed.

Lemma launch_threads_ready e s :
  _is_initialized s = true -> _launch_threads e s = (Ok tt, s).
Proof. intros H. unfold _launch_threads, bind, get_state. by rewrite H. Qed.

Lemma launch_threads_fresh e s :
  _is_initialized s = false -> _launch_threads e s = init_sequence e s.
Proof. intros H. unfold _launch_threads, bind, get_state. by rewrite H. Qed.

Lemma trace_add_events evs s : trace (add_events evs s) = (trace s ++ evs)%list.
Proof. reflexivity. Qed.

(** What one call does from a state that is not initialised. *)
Lemma launch_threads_outcome e s r s' :
  _is_initialized s = false ->
  _launch_threads e s = (r, s') ->
  (exists ex, r = Raise ex /\ _is_initialized s' = false /\
              _threading_layer s' = _threading_layer s /\
              globals s' = globals s /\ backends s' = backends s /\
              count_launches (trace s') = count_launches (trace s)) \/
  (exists lib name, r = Ok tt /\ _is_initialized s' = true /\
              _threading_layer s' = Some name /\ bound_to s' lib /\
              num_threads (backends s' lib) = c_int (NUM_THREADS e) /\
              count_launches (trace s') = S (count_launches (trace s))).
Proof.
  intros Hs. rewrite launch_threads_fresh by done.
  destruct (init_sequence_cases e) as (evs & Hc & [[ex H]|(lib & name & H)]);
    rewrite H; clear H.
  - intros ?; simplify_eq. left. exists ex. simpl.
    rewrite count_launches_app, Hc, Nat.add_0_r. repeat split; done.
  - destruct (launch_raises e lib) eqn:El.
    + destruct (bring_up_raises e lib name (add_events evs s) El)
        as (s1 & -> & ? & ? & ? & ? & Ht).
      intros ?; simplify_eq. left. exists BackendError.
      rewrite Ht, trace_add_events, count_launches_app, Hc.
      simpl in *. rewrite Nat.add_0_r.
      repeat split; try done; congruence.
    + destruct (bring_up_returns e lib name (add_events evs s) El)
        as (s1 & -> & ? & ? & ? & ? & Ht).
      intros ?; simplify_eq. right. exists lib, name.
      rewrite Ht, trace_add_events, !count_launches_app, Hc.
      unfold count_launches at 2. simpl. rewrite Nat.add_0_r, Nat.add_1_r.
      repeat split; done.
Qed.

Lemma preserves_launch_threads e : preserves (_launch_threads e).
Proof.
  intros s r s' H [Hwf Hc]. destruct (_is_initialized s) eqn:Hs.
  - rewrite launch_threads_ready in H by done. simplify_eq.
    split; [|done]. split; [done|]. by rewrite Hs.
  - split; [|done].
    destruct (launch_threads_outcome _ _ _ _ Hs H)
      as [(ex & -> & Hi & _ & _ & _ & Hn)|(lib & name & -> & Hi & Hl & Hb & _ & Hn)].
    + split; [unfold wf; congruence|]. rewrite Hi. lia.
    + split.
      * intros _. split; [by exists lib | congruence].
      * rewrite Hi, Hn, Hc. done.
Qed.

Lemma inv_initial b0 : inv (initial_state b0).
Proof. split; [intros H; discriminate | reflexivity]. Qed.

Lemma preserves_do_call e c s :
  inv s -> inv (do_call e c s) /\
           (_is_initialized s = true -> _is_initialized (do_call e c s) = true).
Proof.
  intros Hs.
  assert (P : forall A (m : M A), preserves m ->
            inv (snd (m s)) /\
            (_is_initialized s = true -> _is_initialized (snd (m s)) = true)).
  { intros A m Hm. destruct (m s) as [r s'] eqn:E. exact (Hm _ _ _ E Hs). }
  destruct c; simpl; apply P.
  - apply preserves_launch_threads.
  - unfold set_num_threads. apply preserves_bind; [apply preserves_launch_threads|].
    intros _. apply keeps_preserves. destruct n; [|apply keeps_raise].
    apply keeps_bind; [apply keeps_snt_check|]. intros; apply keeps_set_num_threads.
  - unfold get_num_threads. apply preserves_bind; [apply preserves_launch_threads|].
    intros _. apply keeps_preserves.
    apply keeps_bind; [apply (keeps_read num_threads)|]. intros v.
    destruct (v <=? 0); [|apply keeps_ret].
    apply keeps_bind; [apply (keeps_read thread_id)|]. intros; apply keeps_raise.
  - unfold set_parallel_chunksize.
    apply preserves_bind; [apply preserves_launch_threads|].
    intros _. apply keeps_preserves. destruct n; [|apply keeps_raise].
    apply keeps_set_parallel_chunksize.
  - unfold get_parallel_chunksize.
    apply preserves_bind; [apply preserves_launch_threads|].
    intros _. apply keeps_preserves. apply (keeps_read chunksize).
  - apply keeps_preserves, keeps_threading_layer.
Qed.

Lemma inv_run calls s :
  inv s -> inv (run calls s) /\
           (_is_initialized s = true -> _is_initialized (run calls s) = true).
Proof.
  revert s. induction calls as [|[e c] rest IH]; intros s Hs; simpl; [done|].
  destruct (preserves_do_call e c s Hs) as [H1 H2].
  destruct (IH _ H1) as [H3 H4]. split; auto.
Qed.

(** C1. Once a call to [_launch_threads] has returned, the module is
    initialised and every later call returns at once, leaving the whole
    process-wide state as it was: no selection, no launch.  Over any
    process lifetime the backend launch has happened exactly once when
    the module is initialised and never otherwise, it is the first call
    that returns which performs it, and an initialised module stays
    initialised, with its single launch, whatever is called next. *)
Theorem launch_threads_exactly_once :
  forall (b0 : Lib -> backend) (calls : list (env * call)),
    let s := run calls (initial_state b0) in
    (forall e s0, _is_initialized s0 = true ->
                  _launch_threads e s0 = (Ok tt, s0)) /\
    (forall e s', _launch_threads e s = (Ok tt, s') ->
                  _is_initialized s' = true) /\
    count_launches (trace s) = (if _is_initialized s then 1 else 0)%nat /\
    (forall e s', _is_initialized s = false ->
                  _launch_threads e s = (Ok tt, s') ->
                  count_launches (trace s') = 1%nat) /\
    (forall more, _is_initialized s = true ->
                  _is_initialized (run more s) = true /\
                  count_launches (trace (run more s)) = 1%nat).
Proof.
  intros b0 calls s.
  destruct (inv_run calls (initial_state b0) (inv_initial b0)) as [[Hwf Hc] _].
  fold s in Hwf, Hc.
  split; [intros; by apply launch_threads_ready|].
  split.
  { intros e s' H. destruct (_is_initialized s) eqn:Hs.
    - rewrite launch_threads_ready in H by done. by simplify_eq.
    - destruct (launch_threads_outcome _ _ _ _ Hs H)
        as [(ex & ? & _)|(lib & name & _ & Hi & _)]; [discriminate | done]. }
  split; [exact Hc|].
  split.
  { intros e s' Hs H. rewrite Hs in Hc.
    destruct (launch_threads_outcome _ _ _ _ Hs H)
      as [(ex & ? & _)|(lib & name & _ & _ & _ & _ & _ & Hn)]; [discriminate|].
    by rewrite Hn, Hc. }
  intros more Hs.
  destruct (inv_run more s (conj Hwf Hc)) as [[_ Hc'] Hi].
  specialize (Hi Hs). split; [done|]. by rewrite Hi in Hc'.
Qed.

(** Every state a process lifetime reaches is well formed. *)
Lemma reachable_wf b0 calls : wf (run calls (initial_state b0)).
Proof. by destruct (inv_run calls (initial_state b0) (inv_initial b0)) as [[? _] _]. Qed.

(** The outcome of the initialisation sequence and what it does to the
    outside are the same from every state. *)
Lemma init_sequence_uniform e s1 s2 :
  fst (init_sequence e s1) = fst (init_sequence e s2) /\
  exists evs, trace (snd (init_sequence e s1)) = (trace s1 ++ evs)%list /\
              trace (snd (init_sequence e s2)) = (trace s2 ++ evs)%list.
Proof.
  destruct (init_sequence_cases e) as (evs & Hc & [[ex H]|(lib & name & H)]);
    rewrite !H; clear H.
  - split; [done|]. by exists evs.
  - destruct (launch_raises e lib) eqn:El.
    + destruct (bring_up_raises e lib name (add_events evs s1) El)
        as (s1' & -> & _ & _ & _ & _ & Ht1).
      destruct (bring_up_raises e lib name (add_events evs s2) El)
        as (s2' & -> & _ & _ & _ & _ & Ht2).
      split; [done|]. exists evs. simpl. by rewrite Ht1, Ht2.
    + destruct (bring_up_returns e lib name (add_events evs s1) El)
        as (s1' & -> & _ & _ & _ & _ & Ht1).
      destruct (bring_up_returns e lib name (add_events evs s2) El)
        as (s2' & -> & _ & _ & _ & _ & Ht2).
      split; [done|]. eexists. simpl. rewrite Ht1, Ht2, !trace_add_events.
      by rewrite <- !app_assoc.
Qed.

(** C2. From a module that is not initialised: an exception raised by
    the mode dispatch (an unknown mode among them) reaches the caller, so
    does the no-layer error when no library was found, and so does the
    exception of a launch call that raises.  Whenever the call raises,
    [_is_initialized] is still unset and [_threading_layer] is what it
    was, and the next call runs the whole selection and launch again: its
    outcome and its actions are those of a first call in a fresh module. *)
Theorem launch_threads_failure_retries e s :
  _is_initialized s = false ->
  (forall ex s1,
      resolve_mode e (lower e (THREADING_LAYER e)) s = (Raise ex, s1) ->
      _launch_threads e s = (Raise ex, s1)) /\
  (forall name reqs s1,
      resolve_mode e (lower e (THREADING_LAYER e)) s = (Ok (None, name, reqs), s1) ->
      exists ex, _launch_threads e s = (Raise ex, s1)) /\
  (forall lib name reqs s1,
      resolve_mode e (lower e (THREADING_LAYER e)) s
        = (Ok (Some lib, name, reqs), s1) ->
      launch_raises e lib = true ->
      fst (_launch_threads e s) = Raise BackendError) /\
  (forall ex s',
      _launch_threads e s = (Raise ex, s') ->
      _is_initialized s' = false /\
      _threading_layer s' = _threading_layer s /\
      forall e',
        let fresh := _launch_threads e' (initial_state (backends s')) in
        fst (_launch_threads e' s') = fst fresh /\
        trace (snd (_launch_threads e' s')) = (trace s' ++ trace (snd fresh))%list).
Proof.
  intros Hs. rewrite launch_threads_fresh by done.
  split; [|split; [|split]].
  - intros ex s1 H. unfold init_sequence, bind. by rewrite H.
  - intros name reqs s1 H. unfold init_sequence, bind. rewrite H.
    destruct (@raise_with_hint_raises unit reqs) as [ex Hex].
    exists ex. by rewrite Hex.
  - intros lib name reqs s1 H El. unfold init_sequence, bind. rewrite H.
    destruct (bring_up_raises e lib name s1 El) as (s2 & -> & _). done.
  - intros ex s' H. rewrite <- launch_threads_fresh in H by done.
    destruct (launch_threads_outcome _ _ _ _ Hs H)
      as [(ex' & _ & Hi & Hl & _)|(lib & name & ? & _)]; [|discriminate].
    split; [done|]. split; [done|]. intros e' fresh. subst fresh.
    rewrite !launch_threads_fresh by done.
    destruct (init_sequence_uniform e' s' (initial_state (backends s')))
      as (Hr & evs & H1 & H2).
    split; [done|]. rewrite H1, H2. done.
Qed.

Lemma launch_threads_failure_retries_witness :
  fst (_launch_threads (env_launch_fails "omp") (initial_state idle_backends))
  = Raise BackendError /\
  _is_initialized
    (snd (_launch_threads (env_launch_fails "omp") (initial_state idle_backends)))
  = false /\
  _threading_layer
    (snd (_launch_threads (env_launch_fails "omp") (initial_state idle_backends)))
  = None /\
  fst (_launch_threads (env_linux "omp")
         (snd (_launch_threads (env_launch_fails "omp")
                 (initial_state idle_backends))))
  = Ok tt.
Proof.
  assert (Hs : _is_initialized (initial_state idle_backends) = false)
    by reflexivity.
  destruct (launch_threads_failure_retries (env_launch_fails "omp")
              (initial_state idle_backends) Hs) as (_ & _ & _ & HD).
  assert (Hr : _launch_threads (env_launch_fails "omp")
                 (initial_state idle_backends)
               = (Raise BackendError,
                  snd (_launch_threads (env_launch_fails "omp")
                         (initial_state idle_backends))))
    by (vm_compute; reflexivity).
  destruct (HD _ _ Hr) as (Hi & Hl & Hretry).
  split; [vm_compute; reflexivity|]. split; [exact Hi|]. split; [exact Hl|].
  destruct (Hretry (env_linux "omp")) as [Hf _]. rewrite Hf.
  vm_compute; reflexivity.
Defined.

Lemma selects_fst {A} (m : M A) s1 s2 : selects m -> fst (m s1) = fst (m s2).
Proof. intros (r & evs & _ & H). by rewrite !H. Qed.

Lemma skb_tbb_result e b s :
  startswith b "tbb" = true ->
  fst (select_known_backend e b s)
  = match load_error e tbbpool with
    | Some ex => Raise ex
    | None => Ok (if fails_to_load e tbbpool then None else Some tbbpool)
    end.
Proof.
  intros Hb. unfold select_known_backend. rewrite Hb.
  unfold load_error, version_lookup_error, tbb_lacks_version, fails_to_load,
    tbb_iface_ver, libtbb, libtbb_name,
    _check_tbb_version_compatible, call_CDLL, getattr_version_func, import_lib,
    warn, emit, try_except, bind, modify, raise, ret, except_ImportError_pass.
  destruct (_IS_WINDOWS e), (_IS_OSX e), (_IS_LINUX e); simpl;
    repeat match goal with
      | |- context [CDLL e ?n] => destruct (CDLL e n) as [[[v|]]|]; simpl
      | |- context [c_int ?v <? 11005] => destruct (c_int v <? 11005); simpl
      | |- context [importable e tbbpool] => destruct (importable e tbbpool); simpl
      end; reflexivity.
Qed.

Lemma skb_tbb_unavailable e b s :
  startswith b "tbb" = true ->
  load_error e tbbpool = None -> fails_to_load e tbbpool = true ->
  fst (select_known_backend e b s) = Ok None.
Proof. intros Hb He Hf. by rewrite skb_tbb_result, He, Hf. Qed.

Lemma skb_omp_result e b s :
  startswith b "tbb" = false -> startswith b "omp" = true ->
  fst (select_known_backend e b s)
  = Ok (if fails_to_load e omppool then None else Some omppool).
Proof.
  intros Hb Hb'. unfold select_known_backend. rewrite Hb, Hb'.
  unfold fails_to_load, import_lib, emit, try_except, bind, modify, raise, ret,
    except_ImportError_pass.
  destruct (importable e omppool); reflexivity.
Qed.

Lemma skb_workqueue_result e b s :
  startswith b "tbb" = false -> startswith b "omp" = false ->
  startswith b "workqueue" = true ->
  fst (select_known_backend e b s)
  = if fails_to_load e workqueue then Raise (ImportError "cannot import name")
    else Ok (Some workqueue).
Proof.
  intros Hb Hb' Hb''. unfold select_known_backend. rewrite Hb, Hb', Hb''.
  unfold fails_to_load, import_lib, emit, bind, modify, raise, ret.
  destruct (importable e workqueue); reflexivity.
Qed.

Lemma skb_tbb_warns e b s v :
  startswith b "tbb" = true ->
  tbb_iface_ver e = Some v -> v < 11005 ->
  In (EvWarn (tbb_warning v)) (trace (snd (select_known_backend e b s))).
Proof.
  intros Hb Hv Hlt. unfold select_known_backend. rewrite Hb.
  unfold tbb_iface_ver, libtbb, libtbb_name in Hv.
  unfold _check_tbb_version_compatible, call_CDLL, getattr_version_func, import_lib,
    warn, emit, try_except, bind, modify, raise, ret, except_ImportError_pass.
  destruct (_IS_WINDOWS e), (_IS_OSX e), (_IS_LINUX e); simpl in *;
    try discriminate;
    match type of Hv with
    | context [CDLL e ?n] => destruct (CDLL e n) as [[[w|]]|]; simpl in *
    end; try discriminate; simplify_eq;
    (destruct (c_int w <? 11005) eqn:E; [|apply Z.ltb_ge in E; lia]);
    simpl; apply in_or_app; right; left; reflexivity.
Qed.

Lemma skb_outcome e b s r s' :
  select_known_backend e b s = (r, s') ->
  match r with
  | Ok (Some lib) => loads e b lib
  | Ok None => unavailable e b
  | Raise ex => load_raises e b ex
  end.
Proof.
  intros H.
  assert (Hr : forall s0, fst (select_known_backend e b s0) = r).
  { intros s0. rewrite (selects_fst _ s0 s (selects_select_known_backend e b)).
    by rewrite H. }
  destruct r as [[lib|]|ex]; exact Hr.
Qed.

Lemma select_from_backends_first e l s :
  match fst (select_from_backends e l s) with
  | Ok (Some lib, name) =>
      exists l1 l2, l = (l1 ++ name :: l2)%list /\
                    Forall (unavailable e) l1 /\ loads e name lib
  | Ok (None, name) => Forall (unavailable e) l /\ name = ""
  | Raise ex =>
      exists l1 b l2, l = (l1 ++ b :: l2)%list /\
                      Forall (unavailable e) l1 /\ load_raises e b ex
  end.
Proof.
  revert s. induction l as [|b l IH]; intros s; simpl; [done|].
  unfold bind. destruct (select_known_backend e b s) as [r s1] eqn:E.
  pose proof (skb_outcome _ _ _ _ _ E) as Hb.
  destruct r as [[lib|]|ex]; simpl.
  - exists [], l. done.
  - specialize (IH s1).
    destruct (fst (select_from_backends e l s1)) as [[[lib|] name]|ex].
    + destruct IH as (l1 & l2 & -> & H1 & H2). exists (b :: l1), l2.
      split; [done|]. split; [by constructor | done].
    + destruct IH as [H1 H2]. split; [by constructor | done].
    + destruct IH as (l1 & b' & l2 & -> & H1 & H2). exists (b :: l1), b', l2.
      split; [done|]. split; [by constructor | done].
  - exists [], b, l. done.
Qed.

Lemma resolve_mode_first e t s l :
  candidates e t = Some l ->
  match fst (resolve_mode e t s) with
  | Ok (Some lib, name, _) =>
      exists l1 l2, l = (l1 ++ name :: l2)%list /\
                    Forall (unavailable e) l1 /\ loads e name lib
  | Ok (None, _, _) => Forall (unavailable e) l
  | Raise ex =>
      exists l1 b l2, l = (l1 ++ b :: l2)%list /\
                      Forall (unavailable e) l1 /\ load_raises e b ex
  end.
Proof.
  assert (Hlist : forall av (reqs : option Lib -> list string),
    l = av ->
    match fst ((sel <- select_from_backends e av ;;
                ret (fst sel, snd sel, reqs (fst sel))) s) with
    | Ok (Some lib, name, _) =>
        exists l1 l2, l = (l1 ++ name :: l2)%list /\
                      Forall (unavailable e) l1 /\ loads e name lib
    | Ok (None, _, _) => Forall (unavailable e) l
    | Raise ex =>
        exists l1 b l2, l = (l1 ++ b :: l2)%list /\
                        Forall (unavailable e) l1 /\ load_raises e b ex
    end).
  { intros av reqs ->. pose proof (select_from_backends_first e av s) as H.
    unfold bind, ret. destruct (select_from_backends e av s) as [[[[lib|] name]|ex] s1];
      simpl in *; [done | tauto | done]. }
  unfold candidates, resolve_mode. intros H.
  destruct (String.eqb_spec t "default") as [->|_].
  { simplify_eq. exact (Hlist _ (fun o => match o with Some _ => [] | None => _ end) eq_refl). }
  destruct (String.eqb_spec t "safe") as [->|_].
  { simplify_eq. exact (Hlist _ (fun _ => _) eq_refl). }
  destruct (String.eqb_spec t "threadsafe") as [->|_].
  { simplify_eq. exact (Hlist _ (fun _ => _) eq_refl). }
  destruct (String.eqb_spec t "forksafe") as [->|_].
  { simplify_eq. destruct (_IS_LINUX e); exact (Hlist _ (fun _ => _) eq_refl). }
  destruct (str_in t ["tbb"; "omp"; "workqueue"]) eqn:Hin; [|discriminate].
  simplify_eq. change (str_in t namedbackends) with (str_in t ["tbb"; "omp"; "workqueue"]).
  rewrite Hin. unfold bind, ret.
  destruct (select_known_backend e t s) as [r s1] eqn:E.
  pose proof (skb_outcome _ _ _ _ _ E) as Hb.
  destruct r as [[lib|]|ex]; simpl.
  - exists [], []. done.
  - by constructor.
  - exists [], t, []. done.
Qed.



(** The candidate lists, mode by mode. *)
Example candidates_table e :
  candidates e "default" = Some ["tbb"; "omp"; "workqueue"] /\
  candidates e "safe" = Some ["tbb"] /\
  candidates e "threadsafe" = Some ["tbb"; "omp"] /\
  candidates e "forksafe"
  = Some (if _IS_LINUX e then ["tbb"; "workqueue"]
          else ["tbb"; "omp"; "workqueue"]) /\
  candidates e "tbb" = Some ["tbb"] /\
  candidates e "omp" = Some ["omp"] /\
  candidates e "workqueue" = Some ["workqueue"] /\
  candidates e "fastest" = None.
Proof. repeat split; reflexivity. Qed.

(** A candidate that is unavailable is skipped: the loop goes on with
    the rest of the list, from the state the attempt left. *)
Lemma select_from_backends_skip e b rest s :
  unavailable e b ->
  exists evs, select_known_backend e b s = (Ok None, add_events evs s) /\
              select_from_backends e (b :: rest) s
              = select_from_backends e rest (add_events evs s).
Proof.
  intros Hb. destruct (selects_select_known_backend e b) as (r & evs & _ & H).
  specialize (Hb s). rewrite H in Hb. simpl in Hb. subst r.
  exists evs. split; [apply H|]. simpl. unfold bind. by rewrite H.
Qed.

(** X16. A tbb or omp candidate that fails to load (its import fails;
    for tbb also: no TBB runtime is found, or one whose interface version
    is below 11005, which is reported by a warning that gives the version
    found) makes [select_known_backend] return no library instead of
    raising, and [select_from_backends] goes on with the next candidate.
    This is so unless the TBB runtime found does not export
    [TBB_runtime_interface_version]: the [AttributeError] of that lookup
    is not caught. *)
Theorem tbb_omp_load_failure_not_fatal e b l rest s :
  module_of b = Some l -> l <> workqueue ->
  fails_to_load e l = true -> load_error e l = None ->
  unavailable e b /\
  (exists evs, select_known_backend e b s = (Ok None, add_events evs s) /\
               select_from_backends e (b :: rest) s
               = select_from_backends e rest (add_events evs s)) /\
  (forall v, l = tbbpool -> tbb_iface_ver e = Some v -> v < 11005 ->
             In (EvWarn (tbb_warning v))
                (trace (snd (select_known_backend e b s)))).
Proof.
  unfold module_of. intros Hm Hl Hf He.
  assert (Hu : unavailable e b).
  { intros s0. destruct (startswith b "tbb") eqn:E1.
    - simplify_eq. by apply skb_tbb_unavailable.
    - destruct (startswith b "omp") eqn:E2.
      + simplify_eq. by rewrite skb_omp_result, Hf.
      + destruct (startswith b "workqueue"); by simplify_eq. }
  split; [exact Hu|]. split; [by apply select_from_backends_skip|].
  intros v -> Hv Hlt. destruct (startswith b "tbb") eqn:E1.
  - by apply skb_tbb_warns.
  - destruct (startswith b "omp"); [by simplify_eq|].
    destruct (startswith b "workqueue"); by simplify_eq.
Qed.

Lemma tbb_omp_load_failure_not_fatal_witness :
  unavailable (env_old_tbb "default") "tbb" /\
  (exists evs,
     select_known_backend (env_old_tbb "default") "tbb"
       (initial_state idle_backends)
     = (Ok None, add_events evs (initial_state idle_backends)) /\
     select_from_backends (env_old_tbb "default") ["tbb"; "omp"; "workqueue"]
       (initial_state idle_backends)
     = select_from_backends (env_old_tbb "default") ["omp"; "workqueue"]
         (add_events evs (initial_state idle_backends))) /\
  (forall v, tbbpool = tbbpool ->
             tbb_iface_ver (env_old_tbb "default") = Some v -> v < 11005 ->
             In (EvWarn (tbb_warning v))
                (trace (snd (select_known_backend (env_old_tbb "default") "tbb"
                               (initial_state idle_backends))))).
Proof.
  apply (tbb_omp_load_failure_not_fatal (env_old_tbb "default") "tbb" tbbpool).
  - reflexivity.
  - discriminate.
  - vm_compute; reflexivity.
  - vm_compute; reflexivity.
Defined.

(** C4, at the failing input.  The claim has every candidate that fails
    to load treated as unavailable.  The tbb and omp branches of
    [select_known_backend] do so with [except ImportError: pass]; the
    workqueue branch imports without a guard.  With no module importable
    the workqueue import fails, [select_known_backend] raises instead of
    returning no library, and [_launch_threads] in default mode ends with
    that [ImportError]. *)
Lemma workqueue_load_failure_fatal :
  fails_to_load (env_bare "default") workqueue = true /\
  ~ unavailable (env_bare "default") "workqueue" /\
  fst (select_known_backend (env_bare "default") "workqueue"
         (initial_state idle_backends))
  = Raise (ImportError "cannot import name") /\
  fst (_launch_threads (env_bare "default") (initial_state idle_backends))
  = Raise (ImportError "cannot import name").
Proof.
  split; [reflexivity|]. split; [|split; vm_compute; reflexivity].
  intros H. specialize (H (initial_state idle_backends)).
  vm_compute in H. discriminate.
Qed.

#[local] Arguments raise_with_hint : simpl never.
#[local] Arguments hint_text : simpl never.
#[local] Arguments errmsg : simpl never.

Lemma unavailable_all e l s :
  Forall (unavailable e) l ->
  exists evs, select_from_backends e l s = (Ok (None, ""), add_events evs s).
Proof.
  intros H. revert s. induction H as [|b l Hb _ IH]; intros s.
  - exists []. simpl. unfold ret. by rewrite add_events_nil.
  - destruct (select_from_backends_skip e b l s Hb) as (evs & _ & ->).
    destruct (IH (add_events evs s)) as (evs' & ->).
    exists (evs ++ evs')%list. by rewrite add_events_app.
Qed.

Lemma workqueue_not_unavailable e : ~ unavailable e "workqueue".
Proof.
  intros H. specialize (H (initial_state idle_backends)).
  rewrite skb_workqueue_result in H by reflexivity.
  by destruct (fails_to_load e workqueue).
Qed.

Lemma mapM_err_helper_some keys s :
  Forall (fun k => is_Some (err_helpers !! k)) keys ->
  mapM err_helper keys s = (Ok (omap (fun k => err_helpers !! k) keys), s).
Proof.
  induction 1 as [|k keys [h Hk] _ IH]; simpl; [done|].
  unfold bind. unfold err_helper at 1. rewrite Hk. unfold ret.
  cbv beta iota. rewrite IH. done.
Qed.

Lemma raise_with_hint_text {A} keys s :
  Forall (fun k => is_Some (err_helpers !! k)) keys ->
  @raise_with_hint A keys s = (Raise (ValueError (errmsg (hint_text keys))), s).
Proof.
  intros H. unfold raise_with_hint, hint_text.
  destruct keys as [|k [|k' keys]].
  - reflexivity.
  - inversion H as [|? ? [h Hk] _]; subst. unfold bind, err_helper. simpl.
    rewrite Hk. reflexivity.
  - unfold bind. rewrite mapM_err_helper_some by done.
    inversion H as [|? ? [h Hk] H']; subst.
    inversion H' as [|? ? [h' Hk'] _]; subst.
    simpl. rewrite Hk, Hk'. reflexivity.
Qed.

Lemma err_helpers_TBB : is_Some (err_helpers !! "TBB").
Proof. eexists. vm_compute. reflexivity. Qed.

Lemma err_helpers_OSX_OMP : is_Some (err_helpers !! "OSX_OMP").
Proof. eexists. vm_compute. reflexivity. Qed.

Lemma relevant_hints_known e l :
  Forall (fun k => is_Some (err_helpers !! k)) (relevant_hints e l).
Proof.
  unfold relevant_hints.
  destruct (str_in "tbb" l), (str_in "omp" l && _IS_OSX e); simpl;
    repeat constructor; auto using err_helpers_TBB, err_helpers_OSX_OMP.
Qed.

Lemma relevant_hints_NoDup e l : NoDup (relevant_hints e l).
Proof.
  unfold relevant_hints.
  destruct (str_in "tbb" l), (str_in "omp" l && _IS_OSX e); simpl;
    repeat constructor; rewrite ?list_elem_of_In; simpl; intuition discriminate.
Qed.

Lemma str_in_In x l : str_in x l = true <-> In x l.
Proof.
  unfold str_in. rewrite existsb_exists. split.
  - intros (y & Hy & E). apply String.eqb_eq in E. by subst.
  - intros H. exists x. split; [done | apply String.eqb_refl].
Qed.

(** X17. When every attempted candidate was found unavailable (which
    workqueue never is, so the mode is tbb, omp, safe or threadsafe),
    [_launch_threads] raises the [ValueError]
    "No threading layer could be loaded." followed by the hints that go
    with the attempted candidates: the TBB one if tbb was tried, then the
    Intel OpenMP one if omp was tried on macOS; there is no duplicate,
    one hint follows "HINT:" alone and two are given under "One of:"
    with "OR" between them. *)
Theorem no_layer_error_lists_hints e s l :
  _is_initialized s = false ->
  candidates e (lower e (THREADING_LAYER e)) = Some l ->
  Forall (unavailable e) l ->
  fst (_launch_threads e s)
  = Raise (ValueError (errmsg (hint_text (relevant_hints e l)))) /\
  NoDup (relevant_hints e l) /\
  ~ In "workqueue" l.
Proof.
  intros Hs Hl Hu. split; [|split; [apply relevant_hints_NoDup|]].
  2:{ intros Hin. rewrite Forall_forall in Hu.
      exact (workqueue_not_unavailable e (Hu _ (proj2 (list_elem_of_In _ _) Hin))). }
  rewrite launch_threads_fresh by done. unfold init_sequence.
  pose proof (relevant_hints_known e l) as Hk.
  pose proof (@raise_with_hint_text unit (relevant_hints e l)) as Hr.
  revert Hl Hk Hr. generalize (lower e (THREADING_LAYER e)). intros t.
  unfold candidates.
  assert (Hwq : forall l', Forall (unavailable e) l' -> In "workqueue" l' -> False).
  { intros l' H Hin. rewrite Forall_forall in H.
    exact (workqueue_not_unavailable e (H _ (proj2 (list_elem_of_In _ _) Hin))). }
  assert (Hlist : forall (av : list string) (reqs : option Lib -> list string),
    l = av -> reqs None = relevant_hints e l ->
    fst ((sel <- (sel <- select_from_backends e av ;;
                  ret (fst sel, snd sel, reqs (fst sel))) ;;
          let '(lib, libname, requirements) := sel in
          match lib with
          | None => raise_with_hint requirements
          | Some lib => bring_up e lib libname
          end) s)
    = Raise (ValueError (errmsg (hint_text (relevant_hints e l))))).
  { intros av reqs <- Hreq. unfold bind.
    destruct (unavailable_all e l s Hu) as (evs & ->). unfold ret. simpl.
    rewrite Hreq, (raise_with_hint_text _ _ (relevant_hints_known e l)). done. }
  destruct (String.eqb_spec t "default") as [->|_].
  { intros; simplify_eq. exfalso. eapply Hwq; [done|]. simpl; tauto. }
  destruct (String.eqb_spec t "safe") as [->|_].
  { intros; simplify_eq. by apply (Hlist _ (fun _ => _)). }
  destruct (String.eqb_spec t "threadsafe") as [->|_].
  { intros; simplify_eq. apply (Hlist _ (fun _ => _)); [done|].
    unfold relevant_hints. simpl. by destruct (_IS_OSX e). }
  destruct (String.eqb_spec t "forksafe") as [->|_].
  { intros; simplify_eq. exfalso. eapply Hwq; [done|].
    destruct (_IS_LINUX e); simpl; tauto. }
  destruct (str_in t ["tbb"; "omp"; "workqueue"]) eqn:Hin; [|discriminate].
  intros; simplify_eq. unfold resolve_mode.
  change (str_in t namedbackends) with (str_in t ["tbb"; "omp"; "workqueue"]).
  rewrite Hin. apply str_in_In in Hin. apply Forall_inv in Hu.
  destruct (select_from_backends_skip e t [] s Hu) as (evs & Ht & _).
  unfold bind. rewrite Ht. unfold ret. cbv beta iota.
  specialize (Hr (add_events evs s) Hk). unfold relevant_hints in *.
  destruct Hin as [<-|[<-|[<-|[]]]].
  - simpl in *. by rewrite Hr.
  - simpl in *. by rewrite Hr.
  - exfalso. by apply (workqueue_not_unavailable e).
Qed.

Lemma no_layer_error_lists_hints_witness :
  fst (_launch_threads (env_bare "threadsafe") (initial_state idle_backends))
  = Raise (ValueError
             (errmsg (hint_text
                        (relevant_hints (env_bare "threadsafe") ["tbb"; "omp"])))) /\
  NoDup (relevant_hints (env_bare "threadsafe") ["tbb"; "omp"]) /\
  ~ In "workqueue" ["tbb"; "omp"].
Proof.
  apply (no_layer_error_lists_hints (env_bare "threadsafe")
           (initial_state idle_backends) ["tbb"; "omp"]).
  - reflexivity.
  - vm_compute; reflexivity.
  - repeat constructor; intros s; vm_compute; reflexivity.
Defined.

(** The message of the error on macOS in threadsafe mode with nothing
    installed. *)
Example no_layer_error_macos_threadsafe :
  fst (_launch_threads (env_bare "threadsafe") (initial_state idle_backends))
  = Raise (ValueError
      ("No threading layer could be loaded." +:+ nl +:+
       "HINT:" +:+ nl +:+ "One of:" +:+ nl +:+
       "Intel TBB is required, try:" +:+ nl +:+
       "$ conda/pip install tbb" +:+ nl +:+ "OR" +:+ nl +:+
       "Intel OpenMP is required, try:" +:+ nl +:+
       "$ conda/pip install intel-openmp")).
Proof. vm_compute. reflexivity. Qed.

(** C5, at the failing input.  The claim has [_launch_threads] fail
    with the error that lists the hints when no candidate loads, and the
    default branch gathers the TBB and Intel OpenMP requirements for it.
    In default mode with no module loadable no candidate loads, yet the
    error that reaches the caller is the [ImportError] of the unguarded
    workqueue import: it lists no hint, and the hint code is not
    reached. *)
Lemma default_mode_failure_lists_no_hint :
  candidates (env_bare "default") (lower (env_bare "default") (THREADING_LAYER (env_bare "default")))
  = Some ["tbb"; "omp"; "workqueue"] /\
  Forall (fun l => fails_to_load (env_bare "default") l = true)
         [tbbpool; omppool; workqueue] /\
  fst (_launch_threads (env_bare "default") (initial_state idle_backends))
  = Raise (ImportError "cannot import name") /\
  fst (_launch_threads (env_bare "default") (initial_state idle_backends))
  <> Raise (ValueError
              (errmsg (hint_text (relevant_hints (env_bare "default")
                                    ["tbb"; "omp"; "workqueue"])))).
Proof.
  split; [vm_compute; reflexivity|].
  split; [repeat constructor|].
  split; [vm_compute; reflexivity|].
  vm_compute. discriminate.
Qed.

Lemma raises_only_ret {A} P (a : A) : raises_only P (ret a).
Proof. intros s ex s' H. discriminate. Qed.

Lemma raises_only_raise {A} (P : exn -> Prop) ex : P ex -> raises_only P (@raise A ex).
Proof. intros HP s ex' s' H. unfold raise in H. by simplify_eq. Qed.

Lemma raises_only_modify P f : raises_only P (modify f).
Proof. intros s ex s' H. discriminate. Qed.

Lemma raises_only_get_state P : raises_only P get_state.
Proof. intros s ex s' H. discriminate. Qed.

Lemma raises_only_bind {A B} P (m : M A) (k : A -> M B) :
  raises_only P m -> (forall a, raises_only P (k a)) -> raises_only P (bind m k).
Proof.
  intros Hm Hk s ex s'. unfold bind.
  destruct (m s) as [[a|ex'] s1] eqn:E; intros H.
  - by apply (Hk a _ _ _ H).
  - simplify_eq. by apply (Hm _ _ _ E).
Qed.

Lemma raises_only_try {A} P (m : M A) h :
  raises_only P m ->
  (forall ex k, h ex = Some k -> raises_only P k) ->
  raises_only P (try_except m h).
Proof.
  intros Hm Hh s ex s'. unfold try_except.
  destruct (m s) as [[a|ex'] s1] eqn:E; [discriminate|].
  destruct (h ex') as [k|] eqn:Eh; intros H.
  - by apply (Hh _ _ Eh _ _ _ H).
  - simplify_eq. by apply (Hm _ _ _ E).
Qed.

Ltac not_unknown :=
  intros ?; unfold unknown_layer_error, errmsg; simpl; discriminate.

Ltac ro_step :=
  match goal with
  | |- raises_only _ (bind _ _) => apply raises_only_bind; [|intros ?]
  | |- raises_only _ (ret _) => apply raises_only_ret
  | |- raises_only _ (modify _) => apply raises_only_modify
  | |- raises_only _ (emit _) => apply raises_only_modify
  | |- raises_only _ (add_symbol _ _ _) => apply raises_only_modify
  | |- raises_only _ (bind_global _ _) => apply raises_only_modify
  | |- raises_only _ get_state => apply raises_only_get_state
  | |- raises_only _ (raise _) => apply raises_only_raise; not_unknown
  | |- raises_only _ (try_except _ _) => apply raises_only_try; [|intros ? ? ?]
  | |- raises_only _ (if ?b then _ else _) => destruct b eqn:?
  | |- raises_only _ (match ?o with Some _ => _ | None => _ end) => destruct o eqn:?
  end.

Lemma raises_only_check_tbb e :
  raises_only not_unknown_layer (_check_tbb_version_compatible e).
Proof.
  unfold _check_tbb_version_compatible, call_CDLL, getattr_version_func, warn.
  repeat ro_step.
  all: destruct ex; simplify_eq; apply raises_only_raise; not_unknown.
Qed.

Lemma raises_only_select_known_backend e b :
  raises_only not_unknown_layer (select_known_backend e b).
Proof.
  unfold select_known_backend, import_lib, except_ImportError_pass.
  repeat (ro_step || apply raises_only_check_tbb).
  all: destruct ex; simplify_eq; apply raises_only_ret.
Qed.

Lemma raises_only_select_from_backends e l :
  raises_only not_unknown_layer (select_from_backends e l).
Proof.
  induction l as [|b l IH]; simpl; [apply raises_only_ret|].
  apply raises_only_bind; [apply raises_only_select_known_backend|].
  intros [lib|]; [apply raises_only_ret | exact IH].
Qed.

Lemma raises_only_err_helper x : raises_only not_unknown_layer (err_helper x).
Proof. unfold err_helper. repeat ro_step. Qed.

Lemma raises_only_mapM_err_helper l :
  raises_only not_unknown_layer (mapM err_helper l).
Proof.
  induction l as [|x l IH]; simpl; [apply raises_only_ret|].
  apply raises_only_bind; [apply raises_only_err_helper|]. intros y.
  apply raises_only_bind; [exact IH|]. intros; apply raises_only_ret.
Qed.

Lemma raises_only_raise_with_hint {A} l :
  raises_only not_unknown_layer (@raise_with_hint A l).
Proof.
  unfold raise_with_hint. apply raises_only_bind.
  - destruct l as [|x [|y l]].
    + apply raises_only_ret.
    + apply raises_only_bind; [apply raises_only_err_helper|].
      intros; apply raises_only_ret.
    + apply raises_only_bind; [apply raises_only_mapM_err_helper|].
      intros; apply raises_only_ret.
  - intros hint. apply raises_only_raise. not_unknown.
Qed.

Lemma raises_only_bring_up e lib name :
  raises_only not_unknown_layer (bring_up e lib name).
Proof.
  unfold bring_up, call_launch_threads, _load_num_threads_funcs,
    parfor_load_late, _set_num_threads, global.
  repeat ro_step.
Qed.

(** On ASCII strings [kelvin_lower] is the ASCII folding. *)
Lemma kelvin_lower_ascii : lower_folds_ascii env_kelvin.
Proof.
  intros t. cbn [lower env_kelvin].
  induction t as [|a r IH]; [done|].
  cbn [is_ascii]. intros H. apply andb_prop in H. destruct H as [Ha Hr].
  assert (Hk : forall b c, is_kelvin_sign a b c = false).
  { intros b c. unfold is_kelvin_sign.
    destruct (Nat.eqb_spec (nat_of_ascii a) 226) as [E|]; [|done].
    rewrite E in Ha. discriminate. }
  cbn [kelvin_lower ascii_lower]. rewrite <- (IH Hr).
  destruct r as [|b [|c r']]; try reflexivity. by rewrite Hk.
Qed.

(** The seven mode names are ASCII and in lower case already. *)
Lemma known_mode_lower e t :
  lower_folds_ascii e -> str_in t known_modes = true -> lower e t = t.
Proof.
  intros He Ht. apply str_in_In in Ht.
  assert (H : is_ascii t = true /\ ascii_lower t = t).
  { simpl in Ht. repeat (destruct Ht as [<-|Ht]; [by split|]). done. }
  destruct H as [H1 H2]. by rewrite (He t H1).
Qed.

Lemma candidates_known e t :
  str_in t known_modes = true -> exists l, candidates e t = Some l.
Proof.
  unfold candidates, known_modes, str_in. simpl.
  destruct (String.eqb t "default"), (String.eqb t "safe"),
    (String.eqb t "threadsafe"), (String.eqb t "forksafe"),
    (String.eqb t "tbb"), (String.eqb t "omp"), (String.eqb t "workqueue");
    simpl; intros H; try discriminate; eauto.
Qed.

Lemma resolve_mode_unknown e t s :
  str_in t known_modes = false ->
  resolve_mode e t s = (Raise (unknown_layer_error t), s).
Proof.
  unfold known_modes, str_in, resolve_mode, namedbackends. simpl.
  destruct (String.eqb t "default"), (String.eqb t "safe"),
    (String.eqb t "threadsafe"), (String.eqb t "forksafe"),
    (String.eqb t "tbb"), (String.eqb t "omp"), (String.eqb t "workqueue");
    simpl; intros H; try discriminate; reflexivity.
Qed.

Lemma raises_only_resolve_mode e t :
  str_in t known_modes = true ->
  raises_only not_unknown_layer (resolve_mode e t).
Proof.
  intros Hk. unfold resolve_mode.
  destruct (str_in t namedbackends) eqn:E1.
  { apply raises_only_bind; [apply raises_only_select_known_backend|].
    intros; apply raises_only_ret. }
  destruct (str_in t ["threadsafe"; "forksafe"; "safe"]) eqn:E2.
  { apply raises_only_bind.
    - repeat ro_step.
    - intros [av reqs]. apply raises_only_bind;
        [apply raises_only_select_from_backends|]. intros; apply raises_only_ret. }
  destruct (String.eqb t "default") eqn:E3.
  { apply raises_only_bind; [apply raises_only_select_from_backends|].
    intros; apply raises_only_ret. }
  exfalso. revert Hk E1 E2 E3. unfold known_modes, namedbackends, str_in. simpl.
  destruct (String.eqb t "default"), (String.eqb t "safe"),
    (String.eqb t "threadsafe"), (String.eqb t "forksafe"),
    (String.eqb t "tbb"), (String.eqb t "omp"), (String.eqb t "workqueue");
    simpl; intros; discriminate.
Qed.

Lemma resolve_mode_with_layer x e t :
  resolve_mode (with_threading_layer x e) t = resolve_mode e t.
Proof.
  unfold resolve_mode.
  change (_IS_LINUX (with_threading_layer x e)) with (_IS_LINUX e).
  change (_IS_OSX (with_threading_layer x e)) with (_IS_OSX e).
  destruct (str_in t namedbackends); [reflexivity|].
  destruct (str_in t ["threadsafe"; "forksafe"; "safe"]).
  - destruct (String.eqb t "safe"), (String.eqb t "threadsafe"),
      (String.eqb t "forksafe"), (_IS_LINUX e), (_IS_OSX e); reflexivity.
  - destruct (String.eqb t "default"); reflexivity.
Qed.

(** C10. [_launch_threads] lowercases the configured mode before it
    compares it, with the [str.lower] of the interpreter, of which only
    this is assumed: on ASCII strings it folds the letters A-Z.  A mode
    whose lowercase form is one of tbb, omp, workqueue, threadsafe,
    forksafe, safe, default makes the call do, from every state, what it
    does for that lowercase form; so does in particular every ASCII
    spelling of one of the seven names, whatever its case.  From a module
    that is not initialised, a mode whose lowercase form is none of the
    seven raises the unknown-threading-layer [ValueError] naming the
    lowercase form and leaves the state as it was; a mode whose lowercase
    form is one of them never raises that error. *)
Theorem threading_layer_case_insensitive e s :
  lower_folds_ascii e ->
  (str_in (lower e (THREADING_LAYER e)) known_modes = true ->
   _launch_threads e s
   = _launch_threads
       (with_threading_layer (lower e (THREADING_LAYER e)) e) s) /\
  (is_ascii (THREADING_LAYER e) = true ->
   str_in (ascii_lower (THREADING_LAYER e)) known_modes = true ->
   _launch_threads e s
   = _launch_threads
       (with_threading_layer (ascii_lower (THREADING_LAYER e)) e) s) /\
  (_is_initialized s = false ->
   (str_in (lower e (THREADING_LAYER e)) known_modes = false ->
    _launch_threads e s
    = (Raise (unknown_layer_error (lower e (THREADING_LAYER e))), s)) /\
   (str_in (lower e (THREADING_LAYER e)) known_modes = true ->
    forall t, fst (_launch_threads e s) <> Raise (unknown_layer_error t))).
Proof.
  intros He.
  assert (Hknown : str_in (lower e (THREADING_LAYER e)) known_modes = true ->
    _launch_threads e s
    = _launch_threads
        (with_threading_layer (lower e (THREADING_LAYER e)) e) s).
  { intros Hk. unfold _launch_threads, init_sequence.
    cbn [THREADING_LAYER lower with_threading_layer].
    rewrite (known_mode_lower e _ He Hk), resolve_mode_with_layer.
    reflexivity. }
  split; [exact Hknown|]. split.
  { intros Ha Hk. rewrite <- (He _ Ha) in Hk |- *. by apply Hknown. }
  intros Hs. rewrite launch_threads_fresh by done. split.
  - intros H. unfold init_sequence, bind. by rewrite resolve_mode_unknown.
  - intros H t Hr.
    assert (R : raises_only not_unknown_layer (init_sequence e)).
    { unfold init_sequence. apply raises_only_bind;
        [by apply raises_only_resolve_mode|].
      intros [[[lib|] name] reqs];
        [apply raises_only_bring_up | apply raises_only_raise_with_hint]. }
    destruct (init_sequence e s) as [r s'] eqn:E. simpl in Hr. subst r.
    exact (R _ _ _ E t eq_refl).
Qed.

Lemma threading_layer_case_insensitive_witness :
  _launch_threads (env_linux "Default") (initial_state idle_backends)
  = _launch_threads (env_linux "default") (initial_state idle_backends) /\
  _launch_threads env_kelvin (initial_state idle_backends)
  = _launch_threads (with_threading_layer "workqueue" env_kelvin)
      (initial_state idle_backends).
Proof.
  assert (He : lower_folds_ascii (env_linux "Default"))
    by (intros t _; reflexivity).
  destruct (threading_layer_case_insensitive (env_linux "Default")
              (initial_state idle_backends) He) as (H & _).
  destruct (threading_layer_case_insensitive env_kelvin
              (initial_state idle_backends) kelvin_lower_ascii) as (H' & _).
  split; [apply H | apply H']; vm_compute; reflexivity.
Defined.

(** The mode spelled with a Kelvin sign selects workqueue. *)
Example kelvin_sign_mode :
  lower env_kelvin (THREADING_LAYER env_kelvin) = "workqueue" /\
  is_ascii (THREADING_LAYER env_kelvin) = false /\
  fst (_launch_threads env_kelvin (initial_state idle_backends)) = Ok tt /\
  _threading_layer (snd (_launch_threads env_kelvin (initial_state idle_backends)))
  = Some "workqueue".
Proof. vm_compute. repeat split; reflexivity. Qed.

Example mixed_case_modes :
  fst (_launch_threads (env_linux "TBB") (initial_state idle_backends)) = Ok tt /\
  _threading_layer
    (snd (_launch_threads (env_linux "TBB") (initial_state idle_backends)))
  = Some "tbb" /\
  _threading_layer
    (snd (_launch_threads (env_linux "Default") (initial_state idle_backends)))
  = Some "tbb" /\
  fst (_launch_threads (env_linux "Fastest") (initial_state idle_backends))
  = Raise (ValueError
             "The threading layer requested 'fastest' is unknown to Numba.").
Proof. vm_compute. repeat split; reflexivity. Qed.

Lemma launch_threads_bound e s s1 :
  wf s -> _launch_threads e s = (Ok tt, s1) ->
  _is_initialized s1 = true /\ exists l, bound_to s1 l.
Proof.
  intros Hwf H. destruct (_is_initialized s) eqn:Hs.
  - rewrite launch_threads_ready in H by done. simplify_eq.
    split; [done|]. by destruct (Hwf Hs).
  - destruct (launch_threads_outcome _ _ _ _ Hs H)
      as [(ex & ? & _)|(lib & name & _ & Hi & _ & Hb & _)]; [discriminate|].
    split; [done|]. by exists lib.
Qed.

Lemma bound_to_lookup s l name :
  bound_to s l -> In name late_bound -> globals s !! name = Some l.
Proof.
  unfold bound_to. rewrite Forall_forall. intros H Hin.
  apply H. by apply list_elem_of_In.
Qed.

(** C7. Once the module is initialised, [get_num_threads] returns the
    count the backend reports, as it is, when that count is positive; it
    raises a [RuntimeError] whose message carries the backend's thread id
    and the reported count when the count is zero or negative, and in no
    other case; the state is left as [_launch_threads] left it. *)
Theorem get_num_threads_reports e s s1 :
  wf s -> _launch_threads e s = (Ok tt, s1) ->
  exists l, globals s1 !! "_get_num_threads" = Some l /\
            globals s1 !! "_get_thread_id" = Some l /\
    let v := num_threads (backends s1 l) in
    let tid := thread_id (backends s1 l) in
    (0 < v -> get_num_threads e s = (Ok v, s1)) /\
    (v <= 0 -> get_num_threads e s
               = (Raise (RuntimeError (invalid_threads_msg tid v)), s1)) /\
    ((exists msg, fst (get_num_threads e s) = Raise (RuntimeError msg))
     <-> v <= 0).
Proof.
  intros Hwf H. destruct (launch_threads_bound _ _ _ Hwf H) as [_ [l Hb]].
  pose proof (bound_to_lookup _ _ "_get_num_threads" Hb) as H1.
  pose proof (bound_to_lookup _ _ "_get_thread_id" Hb) as H2.
  rewrite H1, H2 by (simpl; tauto).
  exists l. split; [done|]. split; [done|]. intros v tid.
  assert (E : get_num_threads e s
              = if v <=? 0
                then (Raise (RuntimeError (invalid_threads_msg tid v)), s1)
                else (Ok v, s1)).
  { unfold get_num_threads, _get_num_threads, _get_thread_id, global, bind,
      get_state, ret, raise. rewrite H. rewrite H1 by (simpl; tauto). fold v.
    destruct (v <=? 0); [|done]. rewrite H2 by (simpl; tauto). done. }
  rewrite E. destruct (Z.leb_spec v 0).
  - split; [lia|]. split; [done|]. split; [done|]. by eexists.
  - split; [done|]. split; [lia|]. split; [|lia]. intros [msg Hm]. discriminate.
Qed.

Lemma get_num_threads_reports_witness :
  exists l, globals ready_state !! "_get_num_threads" = Some l /\
            globals ready_state !! "_get_thread_id" = Some l /\
    let v := num_threads (backends ready_state l) in
    let tid := thread_id (backends ready_state l) in
    (0 < v -> get_num_threads (env_linux "omp") (initial_state idle_backends)
              = (Ok v, ready_state)) /\
    (v <= 0 -> get_num_threads (env_linux "omp") (initial_state idle_backends)
               = (Raise (RuntimeError (invalid_threads_msg tid v)), ready_state)) /\
    ((exists msg, fst (get_num_threads (env_linux "omp")
                         (initial_state idle_backends))
                  = Raise (RuntimeError msg))
     <-> v <= 0).
Proof.
  apply (get_num_threads_reports (env_linux "omp") (initial_state idle_backends)).
  - intros H. vm_compute in H. discriminate.
  - vm_compute; reflexivity.
Defined.

(** C6, as the code has it.  Once the module is initialised, with
    [N = NUMBA_NUM_THREADS >= 1]: [set_num_threads(n)] raises the
    [ValueError] "The number of threads must be between 1 and N" for every
    [n < 1] and every [n > N], for 0 and [N + 1] among them, and then
    leaves the state as [_launch_threads] left it: the backend's setter
    is not called; for [1 <= n <= N], for 1 and [N] among them, it returns
    after setting the backend's count to [n].  A rejected call on a module
    that was initialised before the call changes nothing at all. *)
Theorem set_num_threads_validates e s s1 :
  wf s -> 1 <= NUMBA_NUM_THREADS e ->
  _launch_threads e s = (Ok tt, s1) ->
  (forall n, n < 1 \/ NUMBA_NUM_THREADS e < n ->
             set_num_threads e (PyInt n) s = (Raise (range_error e), s1)) /\
  set_num_threads e (PyInt 0) s = (Raise (range_error e), s1) /\
  set_num_threads e (PyInt (NUMBA_NUM_THREADS e + 1)) s
  = (Raise (range_error e), s1) /\
  (exists l, globals s1 !! "_set_num_threads" = Some l /\
     forall n, 1 <= n <= NUMBA_NUM_THREADS e ->
       exists s2, set_num_threads e (PyInt n) s = (Ok tt, s2) /\
                  num_threads (backends s2 l) = c_int n /\
                  trace s2 = (trace s1 ++ [EvSetNumThreads l (c_int n)])%list) /\
  fst (set_num_threads e (PyInt 1) s) = Ok tt /\
  fst (set_num_threads e (PyInt (NUMBA_NUM_THREADS e)) s) = Ok tt /\
  (_is_initialized s = true -> s1 = s).
Proof.
  intros Hwf HN H. destruct (launch_threads_bound _ _ _ Hwf H) as [_ [l Hb]].
  pose proof (bound_to_lookup _ _ "_set_num_threads" Hb) as H1.
  rewrite H1 by (simpl; tauto).
  assert (Hrej : forall n, n < 1 \/ NUMBA_NUM_THREADS e < n ->
             set_num_threads e (PyInt n) s = (Raise (range_error e), s1)).
  { intros n Hn. unfold set_num_threads, snt_check, bind. rewrite H.
    replace ((n >? NUMBA_NUM_THREADS e) || (n <? 1)) with true; [done|].
    symmetry. apply orb_true_iff. rewrite Z.gtb_lt, Z.ltb_lt. lia. }
  assert (Hacc : forall n, 1 <= n <= NUMBA_NUM_THREADS e ->
       exists s2, set_num_threads e (PyInt n) s = (Ok tt, s2) /\
                  num_threads (backends s2 l) = c_int n /\
                  trace s2 = (trace s1 ++ [EvSetNumThreads l (c_int n)])%list).
  { intros n Hn. unfold set_num_threads, snt_check, bind. rewrite H.
    replace ((n >? NUMBA_NUM_THREADS e) || (n <? 1)) with false.
    2:{ symmetry. apply orb_false_iff. rewrite Z.gtb_ltb, !Z.ltb_ge. lia. }
    unfold ret, _set_num_threads, global, bind, get_state, modify, emit.
    rewrite H1 by (simpl; tauto). eexists. split; [reflexivity|]. simpl.
    split; [|done]. unfold upd_backend. by rewrite decide_True. }
  split; [exact Hrej|]. split; [apply Hrej; lia|]. split; [apply Hrej; lia|].
  split; [by exists l|].
  split; [destruct (Hacc 1) as (s2 & -> & _); [lia | done]|].
  split; [destruct (Hacc (NUMBA_NUM_THREADS e)) as (s2 & -> & _); [lia | done]|].
  intros Hs. rewrite launch_threads_ready in H by done. by simplify_eq.
Qed.

Lemma set_num_threads_validates_witness :
  set_num_threads (env_linux "omp") (PyInt 0) ready_state
  = (Raise (range_error (env_linux "omp")), ready_state) /\
  set_num_threads (env_linux "omp") (PyInt 5) ready_state
  = (Raise (range_error (env_linux "omp")), ready_state) /\
  fst (set_num_threads (env_linux "omp") (PyInt 1) ready_state) = Ok tt /\
  fst (set_num_threads (env_linux "omp") (PyInt 4) ready_state) = Ok tt.
Proof.
  assert (Hwf : wf ready_state).
  { intros _. split; [exists omppool; repeat constructor|]; vm_compute; congruence. }
  assert (HN : 1 <= NUMBA_NUM_THREADS (env_linux "omp")) by (vm_compute; congruence).
  assert (H : _launch_threads (env_linux "omp") ready_state = (Ok tt, ready_state))
    by (vm_compute; reflexivity).
  destruct (set_num_threads_validates (env_linux "omp") ready_state ready_state
              Hwf HN H) as (_ & H0 & H5 & _ & H1 & H4 & _).
  exact (conj H0 (conj H5 (conj H1 H4))).
Defined.

(** C6 fails on the first call of a process: [set_num_threads(0)] is
    rejected with the range error, but the initialisation it triggered
    has called the backend's setter and left the count at 4. *)
Lemma rejected_first_call_sets_thread_count :
  fst (set_num_threads (env_linux "omp") (PyInt 0) (initial_state idle_backends))
  = Raise (ValueError "The number of threads must be between 1 and 4") /\
  num_threads (backends (initial_state idle_backends) omppool) = 0 /\
  num_threads
    (backends (snd (set_num_threads (env_linux "omp") (PyInt 0)
                      (initial_state idle_backends))) omppool) = 4 /\
  trace (snd (set_num_threads (env_linux "omp") (PyInt 0)
                (initial_state idle_backends)))
  = [EvImport omppool; EvLaunch omppool 4; EvSetNumThreads omppool 4].
Proof. vm_compute. repeat split; reflexivity. Qed.

(** C8, as the code has it.  Once the module is initialised,
    [set_parallel_chunksize(n)] returns for every integer [n], negative
    ones included, after handing the backend [n] converted to [c_uint]:
    [n] itself when [0 <= n < 2^32], 0 among them, and [n mod 2^32]
    otherwise; [get_parallel_chunksize] then returns that value.  Only an
    argument that is not an integer is rejected, with a [TypeError] and
    the state as [_launch_threads] left it. *)
Theorem set_parallel_chunksize_unchecked e s s1 :
  wf s -> _launch_threads e s = (Ok tt, s1) ->
  (exists l, globals s1 !! "_set_parallel_chunksize" = Some l /\
     forall n, exists s2,
       set_parallel_chunksize e (PyInt n) s = (Ok tt, s2) /\
       chunksize (backends s2 l) = n mod 2 ^ 32 /\
       (0 <= n < 2 ^ 32 -> chunksize (backends s2 l) = n) /\
       trace s2 = (trace s1 ++ [EvSetChunksize l (n mod 2 ^ 32)])%list /\
       get_parallel_chunksize e s2 = (Ok (n mod 2 ^ 32), s2)) /\
  set_parallel_chunksize e PyOther s
  = (Raise (TypeError "The parallel chunkize must be an integer"), s1).
Proof.
  intros Hwf H. destruct (launch_threads_bound _ _ _ Hwf H) as [Hi [l Hb]].
  pose proof (bound_to_lookup _ _ "_set_parallel_chunksize" Hb) as H1.
  pose proof (bound_to_lookup _ _ "_get_parallel_chunksize" Hb) as H2.
  rewrite H1 by (simpl; tauto).
  split.
  - exists l. split; [done|]. intros n.
    unfold set_parallel_chunksize, _set_parallel_chunksize, global, bind,
      get_state, modify, emit, ret. rewrite H, H1 by (simpl; tauto).
    eexists. split; [reflexivity|].
    cbn [globals set_globals set_ll_symbols set_trace set_backends
         _is_initialized _threading_layer ll_symbols backends trace].
    assert (Hc : chunksize (upd_backend l
                   {| num_threads := num_threads (backends s1 l);
                      thread_id := thread_id (backends s1 l);
                      chunksize := c_uint n |} (backends s1) l) = n mod 2 ^ 32).
    { unfold upd_backend. by rewrite decide_True. }
    split; [exact Hc|]. split; [intros Hn; rewrite Hc; by apply Z.mod_small|].
    split; [done|].
    unfold get_parallel_chunksize, _get_parallel_chunksize, global, bind,
      get_state, ret.
    rewrite launch_threads_ready by done.
    cbn [globals set_globals set_ll_symbols set_trace set_backends
         _is_initialized _threading_layer ll_symbols backends trace].
    rewrite H2 by (simpl; tauto).
    cbn [set_trace set_backends backends]. by rewrite Hc.
  - unfold set_parallel_chunksize, bind. by rewrite H.
Qed.

Lemma set_parallel_chunksize_unchecked_witness :
  exists l, globals ready_state !! "_set_parallel_chunksize" = Some l /\
    forall n, exists s2,
      set_parallel_chunksize (env_linux "omp") (PyInt n) ready_state
      = (Ok tt, s2) /\
      chunksize (backends s2 l) = n mod 2 ^ 32 /\
      (0 <= n < 2 ^ 32 -> chunksize (backends s2 l) = n) /\
      trace s2 = (trace ready_state ++ [EvSetChunksize l (n mod 2 ^ 32)])%list /\
      get_parallel_chunksize (env_linux "omp") s2 = (Ok (n mod 2 ^ 32), s2).
Proof.
  assert (Hwf : wf ready_state).
  { intros _. split; [exists omppool; repeat constructor|]; vm_compute; congruence. }
  assert (H : _launch_threads (env_linux "omp") ready_state = (Ok tt, ready_state))
    by (vm_compute; reflexivity).
  exact (proj1 (set_parallel_chunksize_unchecked (env_linux "omp") ready_state
                  ready_state Hwf H)).
Defined.

(** C8 fails for a negative chunk size: on an initialised module
    [set_parallel_chunksize(-1)] returns without an error and the
    backend's chunk size has gone from 0 to [2^32 - 1]. *)
Lemma negative_chunksize_accepted :
  _is_initialized ready_state = true /\
  chunksize (backends ready_state omppool) = 0 /\
  fst (set_parallel_chunksize (env_linux "omp") (PyInt (-1)) ready_state)
  = Ok tt /\
  chunksize
    (backends (snd (set_parallel_chunksize (env_linux "omp") (PyInt (-1))
                      ready_state)) omppool) = 4294967295.
Proof. vm_compute. repeat split; reflexivity. Qed.

Section RangeSchedulerProofs.
Local Open Scope nat_scope.

Lemma chained_le a c rs : chained a c rs -> a <= c.
Proof. induction 1; lia. Qed.

Lemma chained_covering a c rs x :
  chained a c rs ->
  covering x rs = if (a <=? x) && (x <? c) then 1 else 0.
Proof.
  induction 1 as [a|a b c rs Hab Hch IH].
  - unfold covering. simpl.
    destruct (Nat.leb_spec a x), (Nat.ltb_spec x a); simpl; lia.
  - pose proof (chained_le _ _ _ Hch) as Hbc.
    unfold covering in *. simpl.
    destruct (Nat.leb_spec a x), (Nat.ltb_spec x b), (Nat.leb_spec b x),
      (Nat.ltb_spec x c); simpl in *; rewrite IH; simpl; lia.
Qed.

Lemma ranges_from_chained sizes start :
  Forall (fun n => 0 < n) sizes ->
  chained start (start + list_sum sizes) (ranges_from start sizes).
Proof.
  intros H. revert start. induction H as [|n sizes Hn _ IH]; intros start; simpl.
  - rewrite Nat.add_0_r. constructor.
  - rewrite Nat.add_assoc. constructor; [lia | apply IH].
Qed.

Lemma length_ranges_from sizes start :
  length (ranges_from start sizes) = length sizes.
Proof. revert start. induction sizes; intros; simpl; auto. Qed.

Lemma ranges_from_nth sizes start i a b :
  nth_error (ranges_from start sizes) i = Some (a, b) ->
  nth_error sizes i = Some (b - a).
Proof.
  revert start i. induction sizes as [|n sizes IH]; intros start [|i]; simpl;
    try discriminate.
  - intros H. injection H as <- <-. f_equal. lia.
  - apply IH.
Qed.

Lemma sizes_nth total threads k i n :
  nth_error (map (range_size total threads) (seq 0 k)) i = Some n ->
  i < k /\ n = range_size total threads i.
Proof.
  intros H. rewrite nth_error_map in H.
  destruct (nth_error (seq 0 k) i) as [j|] eqn:E; [|discriminate].
  simpl in H. injection H as <-.
  assert (Hi : i < k).
  { rewrite <- (length_seq k 0). apply nth_error_Some. congruence. }
  rewrite nth_error_seq in E. apply Nat.ltb_lt in Hi. rewrite Hi in E.
  injection E as <-. apply Nat.ltb_lt in Hi. done.
Qed.

Lemma sizes_sum total threads k :
  list_sum (map (range_size total threads) (seq 0 k))
  = k * (total / threads) + Nat.min k (total mod threads).
Proof.
  induction k as [|k IH]; [done|].
  rewrite seq_S, map_app, list_sum_app, IH.
  cbn [map list_sum fold_right]. rewrite Nat.add_0_l. unfold range_size.
  destruct (Nat.ltb_spec k (total mod threads)); lia.
Qed.

Lemma sizes_positive total threads :
  1 <= threads ->
  Forall (fun n => 0 < n)
         (map (range_size total threads) (seq 0 (Nat.min threads total))).
Proof.
  intros Ht. apply Forall_forall. intros n Hn.
  apply list_elem_of_In, In_nth_error in Hn. destruct Hn as [i Hi].
  apply sizes_nth in Hi. destruct Hi as [Hi ->]. unfold range_size.
  destruct (Nat.le_gt_cases threads total) as [Hle|Hgt].
  - assert (1 <= total / threads); [|lia].
    apply Nat.div_le_lower_bound; lia.
  - rewrite Nat.mod_small by lia.
    destruct (Nat.ltb_spec i total); lia.
Qed.

Lemma sizes_total total threads :
  1 <= threads ->
  list_sum (map (range_size total threads) (seq 0 (Nat.min threads total)))
  = total.
Proof.
  intros Ht. rewrite sizes_sum.
  destruct (Nat.le_gt_cases threads total) as [Hle|Hgt].
  - rewrite Nat.min_l by lia.
    pose proof (Nat.mod_upper_bound total threads).
    rewrite Nat.min_r by lia.
    rewrite (Nat.div_mod_eq total threads) at 3. lia.
  - rewrite (Nat.min_r threads total) by lia.
    rewrite Nat.div_small, Nat.mod_small by lia. lia.
Qed.

(** C9. For a thread count of at least one, the ranges of the
    chunk-size-0 partition form a chain of non-empty ranges from 0 to
    [total_count]: each starts where the one before ends; so every index
    below [total_count] lies in exactly one range and no other index in
    any.  There are [min(thread_count, total_count)] ranges, none when
    [total_count] is 0.  Of two ranges the earlier is never the shorter
    and is longer by at most one.  For 10 elements and 4 threads the
    ranges are [0,3), [3,6), [6,8), [8,10). *)
Theorem chunk0_partition total_count thread_count :
  1 <= thread_count ->
  let rs := get_schedule_ranges total_count thread_count in
  chained 0 total_count rs /\
  (forall x, covering x rs = if x <? total_count then 1 else 0) /\
  length rs = Nat.min thread_count total_count /\
  length rs <= Nat.min thread_count total_count /\
  (total_count = 0 -> rs = []) /\
  (forall i j a b c d,
      i <= j -> nth_error rs i = Some (a, b) -> nth_error rs j = Some (c, d) ->
      d - c <= b - a <= d - c + 1) /\
  get_schedule_ranges 10 4 = [(0, 3); (3, 6); (6, 8); (8, 10)].
Proof.
  intros Ht rs. unfold get_schedule_ranges in rs.
  assert (Hch : chained 0 total_count rs).
  { pose proof (ranges_from_chained _ 0 (sizes_positive total_count _ Ht)) as H.
    by rewrite sizes_total in H. }
  assert (Hlen : length rs = Nat.min thread_count total_count).
  { subst rs. by rewrite length_ranges_from, length_map, length_seq. }
  split; [exact Hch|].
  split; [intros x; by rewrite (chained_covering _ _ _ x Hch)|].
  split; [exact Hlen|]. split; [lia|].
  split.
  { intros ->. destruct rs; [done|]. simpl in Hlen. lia. }
  split; [|reflexivity].
  intros i j a b c d Hij Hi Hj.
  apply ranges_from_nth, sizes_nth in Hi. apply ranges_from_nth, sizes_nth in Hj.
  destruct Hi as [_ ->], Hj as [_ ->]. unfold range_size.
  destruct (Nat.ltb_spec i (total_count mod thread_count)),
    (Nat.ltb_spec j (total_count mod thread_count)); lia.
Qed.

Lemma chunk0_partition_witness :
  chained 0 10 (get_schedule_ranges 10 4) /\
  (forall x, covering x (get_schedule_ranges 10 4) = if x <? 10 then 1 else 0) /\
  length (get_schedule_ranges 10 4) = Nat.min 4 10.
Proof.
  assert (H : 1 <= 4) by lia.
  destruct (chunk0_partition 10 4 H) as (H1 & H2 & H3 & _).
  exact (conj H1 (conj H2 H3)).
Defined.

End RangeSchedulerProofs.

(** * Further properties of the code *)

(** ** The TBB version check *)

Lemma selects_run {A} (m : M A) :
  selects m ->
  forall s, m s = (fst (m (initial_state idle_backends)),
                   add_events (trace (snd (m (initial_state idle_backends)))) s).
Proof. intros (r & evs & _ & H) s. by rewrite !H. Qed.

Lemma check_tbb_cases e :
  let r := _check_tbb_version_compatible e (initial_state idle_backends) in
  match libtbb_name e with
  | None => (exists msg, fst r = Raise (ImportError msg)) /\ trace (snd r) = []
  | Some name =>
      match CDLL e name with
      | None =>
          (exists msg, fst r = Raise (ImportError msg)) /\
          trace (snd r) = [EvCDLL name]
      | Some lib =>
          match TBB_runtime_interface_version lib with
          | None =>
              fst r = Raise (version_lookup_error name) /\
              trace (snd r) = [EvCDLL name]
          | Some v =>
              if c_int v <? 11005
              then (exists msg, fst r = Raise (ImportError msg)) /\
                   trace (snd r) = [EvCDLL name; EvWarn (tbb_warning (c_int v))]
              else fst r = Ok tt /\ trace (snd r) = [EvCDLL name]
          end
      end
  end.
Proof.
  unfold libtbb_name, version_lookup_error, _check_tbb_version_compatible,
    call_CDLL, getattr_version_func, warn, emit, try_except, bind, modify, raise,
    ret.
  destruct (_IS_WINDOWS e), (_IS_OSX e), (_IS_LINUX e); simpl;
    repeat match goal with
      | |- context [CDLL e ?n] => destruct (CDLL e n) as [[[v|]]|]; simpl
      | |- context [c_int ?v <? 11005] => destruct (c_int v <? 11005); simpl
      end; eauto 6.
Qed.

(** X1. [_check_tbb_version_compatible] returns exactly when a TBB
    runtime is found that exports [TBB_runtime_interface_version] and
    whose interface version is at least 11005.  When the runtime found
    does not export that function the call raises the [AttributeError]
    of the lookup, which the [except (ValueError, OSError)] clause does
    not translate; every other failure (unknown operating system,
    library not found, old version) reaches the caller as an
    [ImportError].  It warns exactly when a runtime older than 11005 was
    found, naming the version; on an unknown operating system it does
    not call [CDLL]; it imports nothing and touches nothing but the
    trace. *)
Theorem check_tbb_outcome e s :
  let r := _check_tbb_version_compatible e s in
  (fst r = Ok tt <-> exists v, tbb_iface_ver e = Some v /\ 11005 <= v) /\
  ((exists msg, fst r = Raise (AttributeError msg)) <->
   tbb_lacks_version e = true) /\
  (forall ex, fst r = Raise ex ->
     (exists msg, ex = AttributeError msg) \/ (exists msg, ex = ImportError msg)) /\
  (exists evs, snd r = add_events evs s /\
     (forall m, In (EvWarn m) evs <->
                exists v, tbb_iface_ver e = Some v /\ v < 11005 /\
                          m = tbb_warning v) /\
     (libtbb_name e = None -> evs = []) /\
     (forall l, ~ In (EvImport l) evs)).
Proof.
  intros r. subst r.
  rewrite (selects_run _ (selects_check_tbb e) s).
  cbn [fst snd].
  pose proof (check_tbb_cases e) as H. cbv zeta in H.
  set (s0 := initial_state idle_backends) in *.
  unfold tbb_iface_ver, tbb_lacks_version, libtbb.
  destruct (libtbb_name e) as [name|].
  2:{ destruct H as [[msg ->] ->]. split; [|split; [|split]].
      - split; [discriminate|]. intros (v & ? & ?). discriminate.
      - split; [intros [? ?]|]; discriminate.
      - intros ex ?. simplify_eq. eauto.
      - exists []. split; [done|]. split; [|split; [done|]].
        + intros m. split; [intros []|]. intros (v & ? & ?). discriminate.
        + intros l []. }
  destruct (CDLL e name) as [[[v|]]|]; cbn [TBB_runtime_interface_version] in *.
  - cbn [fmap option_fmap option_map].
    destruct (Z.ltb_spec (c_int v) 11005).
    + destruct H as [[msg ->] ->]. split; [|split; [|split]].
      * split; [discriminate|]. intros (v' & ? & ?). simplify_eq. lia.
      * split; [intros [? ?]|]; discriminate.
      * intros ex ?. simplify_eq. eauto.
      * eexists. split; [reflexivity|]. split; [|split].
        -- intros m. simpl. split.
           ++ intros [?|[?|[]]]; simplify_eq. eauto.
           ++ intros (v' & ? & ? & ->). simplify_eq. eauto.
        -- discriminate.
        -- intros l [?|[?|[]]]; discriminate.
    + destruct H as [-> ->]. split; [|split; [|split]].
      * split; eauto.
      * split; [intros [? ?]|]; discriminate.
      * discriminate.
      * eexists. split; [reflexivity|]. split; [|split].
        -- intros m. simpl. split.
           ++ intros [?|[]]; discriminate.
           ++ intros (v' & ? & ? & ->). simplify_eq. lia.
        -- discriminate.
        -- intros l [?|[]]; discriminate.
  - destruct H as [-> ->]. split; [|split; [|split]].
    + split; [discriminate|]. intros (v' & ? & ?). discriminate.
    + split; [done|]. intros _. unfold version_lookup_error. eauto.
    + intros ex ?. simplify_eq. unfold version_lookup_error. eauto.
    + eexists. split; [reflexivity|]. split; [|split].
      * intros m. simpl. split.
        -- intros [?|[]]; discriminate.
        -- intros (v' & ? & ?). discriminate.
      * discriminate.
      * intros l [?|[]]; discriminate.
  - destruct H as [[msg ->] ->]. split; [|split; [|split]].
    + split; [discriminate|]. intros (v' & ? & ?). discriminate.
    + split; [intros [? ?]|]; discriminate.
    + intros ex ?. simplify_eq. eauto.
    + eexists. split; [reflexivity|]. split; [|split].
      * intros m. simpl. split.
        -- intros [?|[]]; discriminate.
        -- intros (v' & ? & ?). discriminate.
      * discriminate.
      * intros l [?|[]]; discriminate.
Qed.

(** A library that loads under the TBB name without the version
    function: the lookup raises, nothing translates or catches the
    error, and a default-mode [_launch_threads] ends with it although
    omp and workqueue would load. *)
Example tbb_without_version_function :
  exists msg,
    fst (_check_tbb_version_compatible (env_tbb_no_version "default")
           (initial_state idle_backends))
    = Raise (AttributeError msg) /\
    fst (select_known_backend (env_tbb_no_version "default") "tbb"
           (initial_state idle_backends))
    = Raise (AttributeError msg) /\
    fst (_launch_threads (env_tbb_no_version "default")
           (initial_state idle_backends))
    = Raise (AttributeError msg) /\
    loadable (env_tbb_no_version "default") "omp" = true /\
    predicted_layer (env_tbb_no_version "default") = None.
Proof. eexists. vm_compute. repeat split; reflexivity. Qed.

(** ** The errors of [_launch_threads] *)

Lemma load_error_selection e l ex :
  load_error e l = Some ex -> selection_error e ex.
Proof.
  unfold load_error, selection_error. destruct l.
  - destruct (tbb_lacks_version e); [|discriminate].
    destruct (libtbb_name e); simpl; intros; simplify_eq.
    right. split; [done|]. unfold version_lookup_error. eauto.
  - discriminate.
  - destruct (importable e workqueue); intros; simplify_eq. by left.
Qed.

Lemma skb_named_raises e b :
  In b namedbackends ->
  raises_only (selection_error e) (select_known_backend e b).
Proof.
  intros Hin s ex s' H.
  assert (Hf : fst (select_known_backend e b s) = Raise ex) by (by rewrite H).
  destruct Hin as [<-|[<-|[<-|[]]]].
  - rewrite skb_tbb_result in Hf by reflexivity.
    destruct (load_error e tbbpool) as [ex'|] eqn:E; [|discriminate].
    simplify_eq. by apply (load_error_selection e tbbpool).
  - rewrite skb_omp_result in Hf by reflexivity. discriminate.
  - rewrite skb_workqueue_result in Hf by reflexivity.
    unfold fails_to_load in Hf.
    destruct (importable e workqueue) eqn:E; simpl in Hf; simplify_eq.
    by left.
Qed.

Lemma sfb_named_raises e l :
  Forall (fun b => In b namedbackends) l ->
  raises_only (selection_error e) (select_from_backends e l).
Proof.
  induction 1 as [|b l Hb _ IH]; simpl; [apply raises_only_ret|].
  apply raises_only_bind; [by apply skb_named_raises|].
  intros [lib|]; [apply raises_only_ret | exact IH].
Qed.

Lemma resolve_mode_post e t s :
  match resolve_mode e t s with
  | (Ok (_, _, reqs), _) => incl reqs ["TBB"; "OSX_OMP"]
  | (Raise ex, _) => ex = unknown_layer_error t \/ selection_error e ex
  end.
Proof.
  assert (Hlist : forall av (reqs : option Lib -> list string),
    Forall (fun b => In b namedbackends) av ->
    (forall o, incl (reqs o) ["TBB"; "OSX_OMP"]) ->
    match (sel <- select_from_backends e av ;;
           ret (fst sel, snd sel, reqs (fst sel))) s with
    | (Ok (_, _, rs), _) => incl rs ["TBB"; "OSX_OMP"]
    | (Raise ex, _) => ex = unknown_layer_error t \/ selection_error e ex
    end).
  { intros av reqs Hav Hreqs. unfold bind, ret.
    destruct (select_from_backends e av s) as [[[o n]|ex] s1] eqn:E; simpl.
    - apply Hreqs.
    - right. exact (sfb_named_raises e av Hav _ _ _ E). }
  unfold resolve_mode.
  destruct (str_in t namedbackends) eqn:E1.
  { apply str_in_In in E1. unfold bind, ret.
    destruct (select_known_backend e t s) as [[o|ex] s1] eqn:E; simpl.
    - destruct o; [intros x []|].
      destruct (String.eqb t "tbb"); [intros x Hx; simpl in *; tauto|].
      destruct (String.eqb t "omp" && _IS_OSX e); intros x Hx; simpl in *; tauto.
    - right. exact (skb_named_raises e t E1 _ _ _ E). }
  destruct (str_in t ["threadsafe"; "forksafe"; "safe"]) eqn:E2.
  { revert E2. unfold str_in. simpl.
    destruct (String.eqb t "safe"), (String.eqb t "threadsafe"),
      (String.eqb t "forksafe"); simpl; try discriminate; intros _;
      destruct (_IS_LINUX e), (_IS_OSX e);
      apply (Hlist _ (fun _ => _));
      try (repeat constructor; simpl; tauto);
      intros _ x Hx; simpl in *; tauto. }
  destruct (String.eqb t "default").
  { apply (Hlist namedbackends
             (fun o => match o with
                       | Some _ => []
                       | None => (["TBB"] ++ (if _IS_OSX e then ["OSX_OMP"] else []))%list
                       end)).
    - repeat constructor; simpl; tauto.
    - intros [l|]; [intros x []|]. destruct (_IS_OSX e); intros x Hx; simpl in *; tauto. }
  by left.
Qed.

Lemma hint_keys_known keys :
  incl keys ["TBB"; "OSX_OMP"] ->
  Forall (fun k => is_Some (err_helpers !! k)) keys.
Proof.
  intros H. apply Forall_forall. intros k Hk.
  apply list_elem_of_In, H in Hk.
  destruct Hk as [<-|[<-|[]]]; [apply err_helpers_TBB | apply err_helpers_OSX_OMP].
Qed.

(** X2. Whatever the environment and the state, a [_launch_threads]
    that raises ends with one of five errors: the unknown-mode
    [ValueError] naming the lowercased mode; the "No threading layer
    could be loaded." [ValueError] whose hints are taken among the TBB and
    the Intel OpenMP ones; the [ImportError] of the workqueue import,
    when workqueue does not import; the [AttributeError] of the version
    lookup, when the TBB runtime found does not export
    [TBB_runtime_interface_version]; the error of the launch call, when
    a library's launch call raises.  The extension modules are taken to
    have every entry point that is registered.  The [ValueError] of the
    branch the source marks as unreachable, the "Unknown value specified"
    [ValueError] of [select_known_backend], a [KeyError] from
    [err_helpers] and a [NameError] never come out of it. *)
Theorem launch_threads_errors e s :
  match fst (_launch_threads e s) with
  | Ok _ => True
  | Raise ex =>
      launch_error e ex /\
      ex <> ValueError ("No threading layer available for purpose "
                        +:+ lower e (THREADING_LAYER e)) /\
      (forall b, ex <> ValueError
                         ("Unknown value specified for threading layer: " +:+ b)) /\
      (forall k, ex <> KeyError k) /\ (forall n, ex <> NameError n)
  end.
Proof.
  assert (Hle : forall ex, launch_error e ex ->
    launch_error e ex /\
    ex <> ValueError ("No threading layer available for purpose "
                      +:+ lower e (THREADING_LAYER e)) /\
    (forall b, ex <> ValueError
                       ("Unknown value specified for threading layer: " +:+ b)) /\
    (forall k, ex <> KeyError k) /\ (forall n, ex <> NameError n)).
  { intros ex H. split; [exact H|].
    destruct H as [->|[(keys & _ & ->)|[[[_ ->]|[_ [msg ->]]]|(lib & _ & ->)]]];
      unfold unknown_layer_error, errmsg;
      (split; [|split; [|split]]); try discriminate;
      intros ?; simpl; discriminate. }
  unfold _launch_threads, bind, get_state.
  destruct (_is_initialized s); [done|].
  unfold init_sequence, bind.
  pose proof (resolve_mode_post e (lower e (THREADING_LAYER e)) s) as H.
  destruct (resolve_mode e (lower e (THREADING_LAYER e)) s)
    as [[[[[lib|] name] reqs]|ex] s1].
  - destruct (launch_raises e lib) eqn:El.
    + destruct (bring_up_raises e lib name s1 El) as (s2 & -> & _).
      simpl. apply Hle. unfold launch_error. eauto 6.
    + destruct (bring_up_returns e lib name s1 El) as (s2 & -> & _). done.
  - rewrite (raise_with_hint_text _ _ (hint_keys_known _ H)). simpl.
    apply Hle. right. left. by exists reqs.
  - simpl. apply Hle. unfold launch_error. tauto.
Qed.

(** ** The wiring of the module *)

Lemma same_wiring_refl s : same_wiring s s.
Proof. by repeat split. Qed.

Lemma same_wiring_trans s1 s2 s3 :
  same_wiring s1 s2 -> same_wiring s2 s3 -> same_wiring s1 s3.
Proof. intros (?&?&?&?) (?&?&?&?). repeat split; congruence. Qed.

Lemma wiring_inv_same s s' : same_wiring s s' -> wiring_inv s -> wiring_inv s'.
Proof.
  intros (Hi & Hl & Hg & Hy). unfold wiring_inv, wired, bound_to.
  by rewrite Hi, Hl, Hg, Hy.
Qed.

Lemma kw_ret {A} (a : A) : keeps_wiring (ret a).
Proof. intros s r s' H. unfold ret in H. simplify_eq. apply same_wiring_refl. Qed.

Lemma kw_raise {A} ex : keeps_wiring (@raise A ex).
Proof. intros s r s' H. unfold raise in H. simplify_eq. apply same_wiring_refl. Qed.

Lemma kw_get_state : keeps_wiring get_state.
Proof. intros s r s' H. unfold get_state in H. simplify_eq. apply same_wiring_refl. Qed.

Lemma kw_bind {A B} (m : M A) (k : A -> M B) :
  keeps_wiring m -> (forall a, keeps_wiring (k a)) -> keeps_wiring (bind m k).
Proof.
  intros Hm Hk s r s'. unfold bind.
  destruct (m s) as [[a|ex] s1] eqn:E; intros H.
  - eapply same_wiring_trans; [exact (Hm _ _ _ E) | exact (Hk a _ _ _ H)].
  - simplify_eq. exact (Hm _ _ _ E).
Qed.

Lemma kw_emit ev : keeps_wiring (emit ev).
Proof. intros s r s' H. unfold emit, modify in H. by simplify_eq. Qed.

Lemma kw_global name : keeps_wiring (global name).
Proof.
  unfold global. apply kw_bind; [apply kw_get_state|]. intros s0.
  destruct (globals s0 !! name); [apply kw_ret | apply kw_raise].
Qed.

Lemma kw_set_num_threads n : keeps_wiring (_set_num_threads n).
Proof.
  unfold _set_num_threads. apply kw_bind; [apply kw_global|]. intros l.
  apply kw_bind; [|intros; apply kw_emit].
  intros s r s' H. unfold modify in H. by simplify_eq.
Qed.

Lemma kw_set_parallel_chunksize n : keeps_wiring (_set_parallel_chunksize n).
Proof.
  unfold _set_parallel_chunksize. apply kw_bind; [apply kw_global|]. intros l.
  apply kw_bind; [|intros; apply kw_emit].
  intros s r s' H. unfold modify in H. by simplify_eq.
Qed.

Lemma kw_read (f : backend -> Z) name :
  keeps_wiring (l <- global name ;; s <- get_state ;; ret (f (backends s l))).
Proof.
  apply kw_bind; [apply kw_global|]. intros l.
  apply kw_bind; [apply kw_get_state|]. intros; apply kw_ret.
Qed.

Lemma kw_threading_layer : keeps_wiring threading_layer.
Proof.
  unfold threading_layer. apply kw_bind; [apply kw_get_state|].
  intros s0. destruct (_threading_layer s0); [apply kw_ret | apply kw_raise].
Qed.

Lemma kw_set_num_threads_tail e n :
  keeps_wiring (match n with
                | PyOther =>
                    raise (TypeError
                             "The number of threads specified must be an integer")
                | PyInt n => snt_check e n ;;; _set_num_threads n
                end).
Proof.
  destruct n; [|apply kw_raise].
  apply kw_bind; [|intros; apply kw_set_num_threads].
  unfold snt_check.
  destruct ((z >? NUMBA_NUM_THREADS e) || (z <? 1)); [apply kw_raise | apply kw_ret].
Qed.

Lemma kw_get_num_threads_tail :
  keeps_wiring
    (num_threads <- _get_num_threads ;;
     if num_threads <=? 0 then
       tid <- _get_thread_id ;;
       raise (RuntimeError
                ("Invalid number of threads. "
                 +:+ "This likely indicates a bug in Numba. "
                 +:+ "(thread_id=" +:+ str_of_Z tid
                 +:+ ", num_threads=" +:+ str_of_Z num_threads +:+ ")"))
     else ret num_threads).
Proof.
  apply kw_bind; [apply (kw_read num_threads)|]. intros v.
  destruct (v <=? 0); [|apply kw_ret].
  apply kw_bind; [apply (kw_read thread_id)|]. intros; apply kw_raise.
Qed.

Lemma kw_set_parallel_chunksize_tail n :
  keeps_wiring (match n with
                | PyOther =>
                    raise (TypeError "The parallel chunkize must be an integer")
                | PyInt n => _set_parallel_chunksize n
                end).
Proof. destruct n; [apply kw_set_parallel_chunksize | apply kw_raise]. Qed.

Lemma bring_up_wires e lib name s :
  launch_raises e lib = false ->
  exists s', bring_up e lib name s = (Ok tt, s') /\
             _is_initialized s' = true /\
             _threading_layer s' = Some name /\
             bound_to s' lib /\
             Forall (fun p => ll_symbols s' !! fst p = Some (lib, snd p))
                    entry_points.
Proof.
  intros H.
  unfold bring_up, call_launch_threads, _load_num_threads_funcs,
    parfor_load_late, _set_num_threads, global, add_symbol, bind_global,
    emit, bind, modify, get_state, ret.
  rewrite H. cbn [globals set_globals set_ll_symbols set_trace set_backends
                  set_threading_layer set_is_initialized
                  _is_initialized _threading_layer ll_symbols backends trace].
  rewrite lookup_insert_eq.
  eexists. split; [reflexivity|].
  cbn [globals set_globals set_ll_symbols set_trace set_backends
       set_threading_layer set_is_initialized
       _is_initialized _threading_layer ll_symbols backends trace].
  repeat split.
  - unfold bound_to, late_bound. repeat constructor; by simplify_map_eq.
  - unfold entry_points. repeat constructor; cbn [fst snd]; by simplify_map_eq.
Qed.

Lemma loads_module e name lib :
  In name namedbackends -> loads e name lib -> module_of name = Some lib.
Proof.
  intros Hin H. specialize (H (initial_state idle_backends)).
  destruct Hin as [<-|[<-|[<-|[]]]].
  - rewrite skb_tbb_result in H by reflexivity.
    destruct (load_error e tbbpool); [discriminate|].
    destruct (fails_to_load e tbbpool); by simplify_eq.
  - rewrite skb_omp_result in H by reflexivity.
    destruct (fails_to_load e omppool); by simplify_eq.
  - rewrite skb_workqueue_result in H by reflexivity.
    destruct (fails_to_load e workqueue); by simplify_eq.
Qed.

Lemma candidates_named e t l :
  candidates e t = Some l -> Forall (fun b => In b namedbackends) l.
Proof.
  unfold candidates.
  destruct (String.eqb t "default"); [intros; simplify_eq; repeat constructor; simpl; tauto|].
  destruct (String.eqb t "safe"); [intros; simplify_eq; repeat constructor; simpl; tauto|].
  destruct (String.eqb t "threadsafe");
    [intros; simplify_eq; repeat constructor; simpl; tauto|].
  destruct (String.eqb t "forksafe").
  { intros; simplify_eq. destruct (_IS_LINUX e); repeat constructor; simpl; tauto. }
  destruct (str_in t ["tbb"; "omp"; "workqueue"]) eqn:E; [|discriminate].
  intros; simplify_eq. apply str_in_In in E. constructor; [exact E | constructor].
Qed.

Lemma candidates_unknown e t :
  candidates e t = None -> str_in t known_modes = false.
Proof.
  unfold candidates, known_modes, str_in. simpl.
  destruct (String.eqb t "default"), (String.eqb t "safe"),
    (String.eqb t "threadsafe"), (String.eqb t "forksafe"),
    (String.eqb t "tbb"), (String.eqb t "omp"), (String.eqb t "workqueue");
    simpl; intros H; try discriminate; try reflexivity;
    destruct (_IS_LINUX e); discriminate.
Qed.

Lemma resolve_mode_names e t s lib name reqs s1 :
  resolve_mode e t s = (Ok (Some lib, name, reqs), s1) ->
  In name namedbackends /\ module_of name = Some lib.
Proof.
  intros H. destruct (candidates e t) as [l|] eqn:E.
  - pose proof (resolve_mode_first e t s l E) as Hf. rewrite H in Hf. simpl in Hf.
    destruct Hf as (l1 & l2 & -> & _ & Hl).
    pose proof (candidates_named _ _ _ E) as Hn.
    apply Forall_app in Hn. destruct Hn as [_ Hn]. apply Forall_inv in Hn.
    split; [done | by apply (loads_module e)].
  - rewrite (resolve_mode_unknown e t s (candidates_unknown e t E)) in H.
    discriminate.
Qed.

Lemma launch_threads_wires e s s' :
  _is_initialized s = false ->
  _launch_threads e s = (Ok tt, s') ->
  _is_initialized s' = true /\ exists name lib, wired s' name lib.
Proof.
  intros Hs. rewrite launch_threads_fresh by done. unfold init_sequence, bind.
  destruct (resolve_mode e (lower e (THREADING_LAYER e)) s)
    as [[[[[lib|] name] reqs]|ex] s1] eqn:E.
  - destruct (resolve_mode_names _ _ _ _ _ _ _ E) as [Hn Hm].
    destruct (launch_raises e lib) eqn:El.
    + destruct (bring_up_raises e lib name s1 El) as (s2 & -> & _). discriminate.
    + destruct (bring_up_wires e lib name s1 El) as (s2 & -> & Hi & Hl & Hb & Hy).
      intros ?; simplify_eq. split; [done|]. exists name, lib. by repeat split.
  - destruct (@raise_with_hint_raises unit reqs) as [ex ->]. discriminate.
  - discriminate.
Qed.

Lemma wiring_inv_launch_threads e s :
  wiring_inv s -> wiring_inv (snd (_launch_threads e s)).
Proof.
  intros H. destruct (_is_initialized s) eqn:Hs.
  - by rewrite launch_threads_ready.
  - destruct (_launch_threads e s) as [[[]|ex] s'] eqn:E; simpl.
    + destruct (launch_threads_wires _ _ _ Hs E) as [Hi Hw].
      unfold wiring_inv. by rewrite Hi.
    + destruct (launch_threads_outcome _ _ _ _ Hs E)
        as [(ex' & _ & Hi & Hl & _)|(lib & name & ? & _)]; [|discriminate].
      unfold wiring_inv in *. rewrite Hs in H. by rewrite Hi, Hl.
Qed.

(** Every entry point is [_launch_threads] followed by something that
    keeps the wiring. *)
Lemma api_call_wiring {A} e (tail : M A) s :
  keeps_wiring tail ->
  same_wiring (snd (_launch_threads e s))
              (snd ((_launch_threads e ;;; tail) s)).
Proof.
  intros Ht. unfold bind.
  destruct (_launch_threads e s) as [[[]|ex] s1]; simpl.
  - destruct (tail s1) as [r s2] eqn:E. exact (Ht _ _ _ E).
  - apply same_wiring_refl.
Qed.

Lemma do_call_wiring e c s :
  same_wiring (snd (_launch_threads e s)) (do_call e c s) \/
  same_wiring s (do_call e c s).
Proof.
  destruct c; simpl.
  - left. apply same_wiring_refl.
  - left. apply api_call_wiring, kw_set_num_threads_tail.
  - left. apply api_call_wiring, kw_get_num_threads_tail.
  - left. apply api_call_wiring, kw_set_parallel_chunksize_tail.
  - left. apply api_call_wiring, (kw_read chunksize).
  - right. destruct (threading_layer s) as [r s'] eqn:E.
    exact (kw_threading_layer _ _ _ E).
Qed.

Lemma wiring_inv_run calls s : wiring_inv s -> wiring_inv (run calls s).
Proof.
  revert s. induction calls as [|[e c] rest IH]; intros s Hs; simpl; [done|].
  apply IH. destruct (do_call_wiring e c s) as [H|H].
  - eapply wiring_inv_same; [exact H|]. by apply wiring_inv_launch_threads.
  - eapply wiring_inv_same; [exact H | done].
Qed.

(** X3. In every state a process lifetime reaches: before a
    [_launch_threads] has returned no layer is named and
    [threading_layer()] raises its [ValueError]; after, [threading_layer()]
    returns a name that is one of tbb, omp, workqueue, and everything is
    wired to the one library of that name: the six rebound globals and
    the nine symbols registered with LLVM, whatever earlier failed
    attempts had registered. *)
Theorem wiring_consistent (b0 : Lib -> backend) (calls : list (env * call)) :
  let s := run calls (initial_state b0) in
  if _is_initialized s
  then exists name lib, wired s name lib /\ threading_layer s = (Ok name, s)
  else _threading_layer s = None /\
       threading_layer s
       = (Raise (ValueError "Threading layer is not initialized."), s).
Proof.
  intros s. assert (H : wiring_inv s).
  { apply wiring_inv_run. reflexivity. }
  unfold wiring_inv in H. unfold threading_layer, bind, get_state.
  destruct (_is_initialized s).
  - destruct H as (name & lib & Hw). exists name, lib. split; [done|].
    destruct Hw as (-> & _). done.
  - by rewrite H.
Qed.

Lemma same_wiring_run calls s :
  _is_initialized s = true -> same_wiring s (run calls s).
Proof.
  revert s. induction calls as [|[e c] rest IH]; intros s Hs; simpl;
    [apply same_wiring_refl|].
  assert (H : same_wiring s (do_call e c s)).
  { destruct (do_call_wiring e c s) as [H|H]; [|done].
    by rewrite launch_threads_ready in H. }
  eapply same_wiring_trans; [exact H|]. apply IH.
  destruct H as (-> & _). done.
Qed.

(** X4. Initialisation is final: from an initialised module, whatever is
    called afterwards and whatever the configuration, platform or
    installed libraries have become by then, the module stays initialised
    with the same layer name, the same rebound globals and the same
    registered symbols; [threading_layer()] keeps returning the same
    name. *)
Theorem initialisation_is_final s (calls : list (env * call)) :
  _is_initialized s = true ->
  same_wiring s (run calls s) /\
  fst (threading_layer (run calls s)) = fst (threading_layer s).
Proof.
  intros Hs. pose proof (same_wiring_run calls s Hs) as H.
  split; [exact H|]. destruct H as (_ & Hl & _).
  unfold threading_layer, bind, get_state. rewrite Hl.
  by destruct (_threading_layer s).
Qed.

Lemma initialisation_is_final_witness :
  same_wiring ready_state
    (run [(env_bare "tbb", CallLaunchThreads);
          (env_linux "workqueue", CallSetNumThreads (PyInt 2))] ready_state) /\
  fst (threading_layer
         (run [(env_bare "tbb", CallLaunchThreads);
               (env_linux "workqueue", CallSetNumThreads (PyInt 2))]
              ready_state))
  = fst (threading_layer ready_state).
Proof.
  apply (initialisation_is_final ready_state). vm_compute; reflexivity.
Defined.

(** ** Which layer a call selects *)

Lemma skb_named_fst e b s :
  In b namedbackends ->
  exists lib, module_of b = Some lib /\
    fst (select_known_backend e b s)
    = match load_error e lib with
      | Some ex => Raise ex
      | None => Ok (if fails_to_load e lib then None else Some lib)
      end.
Proof.
  intros [<-|[<-|[<-|[]]]].
  - exists tbbpool. split; [done|]. by rewrite skb_tbb_result.
  - exists omppool. split; [done|]. by rewrite skb_omp_result.
  - exists workqueue. split; [done|]. rewrite skb_workqueue_result by reflexivity.
    unfold fails_to_load, load_error. by destruct (importable e workqueue).
Qed.

Lemma unavailable_not_loadable e b :
  In b namedbackends -> unavailable e b ->
  fatal e b = false /\ loadable e b = false.
Proof.
  intros Hin H. specialize (H (initial_state idle_backends)).
  destruct (skb_named_fst e b (initial_state idle_backends) Hin) as (lib & Hm & Hf).
  rewrite Hf in H. unfold fatal, loadable. rewrite Hm.
  destruct (load_error e lib); [discriminate|].
  split; [by rewrite bool_decide_eq_false; intros [? ?]|].
  by destruct (fails_to_load e lib).
Qed.

Lemma loads_loadable e b lib :
  In b namedbackends -> loads e b lib ->
  fatal e b = false /\ loadable e b = true.
Proof.
  intros Hin H. specialize (H (initial_state idle_backends)).
  destruct (skb_named_fst e b (initial_state idle_backends) Hin) as (lib' & Hm & Hf).
  rewrite Hf in H. unfold fatal, loadable. rewrite Hm.
  destruct (load_error e lib'); [discriminate|].
  split; [by rewrite bool_decide_eq_false; intros [? ?]|].
  by destruct (fails_to_load e lib').
Qed.

Lemma load_raises_fatal e b ex :
  In b namedbackends -> load_raises e b ex -> fatal e b = true.
Proof.
  intros Hin H. specialize (H (initial_state idle_backends)).
  destruct (skb_named_fst e b (initial_state idle_backends) Hin) as (lib & Hm & Hf).
  rewrite Hf in H. unfold fatal. rewrite Hm.
  destruct (load_error e lib); [|discriminate].
  by rewrite bool_decide_eq_true.
Qed.

Lemma first_loading_skip e l1 l2 :
  Forall (fun b => fatal e b = false /\ loadable e b = false) l1 ->
  first_loading e (l1 ++ l2) = first_loading e l2.
Proof.
  induction 1 as [|x l1 [Hx1 Hx2] _ IH]; simpl; [done|]. by rewrite Hx1, Hx2.
Qed.

(** X5. Which layer a first [_launch_threads] names can be read off the
    environment.  The candidates of the mode are gone through in order:
    one whose attempt ends with an error that is not caught (the version
    lookup in a TBB runtime that lacks the function, the failed import
    of workqueue) ends the selection; one whose module loads (for tbb: a
    runtime of interface version 11005 or later is found and [tbbpool]
    imports) is selected; any other is passed over.  If a candidate is
    selected, the call launches that library and names it, or ends with
    the error of the launch call; if none is, or the mode is unknown,
    the call raises. *)
Theorem launch_threads_selects_predicted e s :
  _is_initialized s = false ->
  match predicted_layer e with
  | Some name =>
      exists lib, module_of name = Some lib /\
        if launch_raises e lib
        then fst (_launch_threads e s) = Raise BackendError
        else fst (_launch_threads e s) = Ok tt /\
             _threading_layer (snd (_launch_threads e s)) = Some name
  | None => exists ex, fst (_launch_threads e s) = Raise ex
  end.
Proof.
  intros Hs. rewrite launch_threads_fresh by done.
  unfold predicted_layer, init_sequence, bind.
  destruct (candidates e (lower e (THREADING_LAYER e))) as [l|] eqn:E.
  2:{ rewrite (resolve_mode_unknown e _ s (candidates_unknown e _ E)). by eexists. }
  pose proof (resolve_mode_first e _ s l E) as Hf.
  pose proof (candidates_named _ _ _ E) as Hn.
  assert (Hskip : forall l1 l2, Forall (unavailable e) l1 ->
            Forall (fun b => In b namedbackends) l1 ->
            first_loading e (l1 ++ l2) = first_loading e l2).
  { intros l1 l2 Hu Hn1. apply first_loading_skip, Forall_forall.
    intros b Hb. rewrite Forall_forall in Hu, Hn1.
    apply unavailable_not_loadable; auto. }
  destruct (resolve_mode e (lower e (THREADING_LAYER e)) s)
    as [[[[[lib|] name] reqs]|ex] s1]; simpl in Hf.
  - destruct Hf as (l1 & l2 & -> & Hu & Hl).
    apply Forall_app in Hn. destruct Hn as [Hn1 Hn2].
    pose proof (Forall_inv Hn2) as Hname.
    rewrite Hskip by done.
    destruct (loads_loadable e name lib Hname Hl) as [H1 H2].
    simpl. rewrite H1, H2.
    exists lib. split; [by apply (loads_module e)|].
    destruct (launch_raises e lib) eqn:El.
    + by destruct (bring_up_raises e lib name s1 El) as (s2 & -> & _).
    + by destruct (bring_up_returns e lib name s1 El) as (s2 & -> & _ & ? & _).
  - rewrite <- (app_nil_r l), Hskip by done.
    simpl. destruct (@raise_with_hint_raises unit reqs) as [ex ->]. by eexists.
  - destruct Hf as (l1 & b & l2 & -> & Hu & Hb).
    apply Forall_app in Hn. destruct Hn as [Hn1 Hn2].
    rewrite Hskip by done. simpl.
    rewrite (load_raises_fatal e b ex (Forall_inv Hn2) Hb). by eexists.
Qed.

Lemma launch_threads_selects_predicted_witness :
  exists lib, module_of "omp" = Some lib /\
    if launch_raises (env_old_tbb "threadsafe") lib
    then fst (_launch_threads (env_old_tbb "threadsafe")
                (initial_state idle_backends)) = Raise BackendError
    else fst (_launch_threads (env_old_tbb "threadsafe")
                (initial_state idle_backends)) = Ok tt /\
         _threading_layer (snd (_launch_threads (env_old_tbb "threadsafe")
                                  (initial_state idle_backends))) = Some "omp".
Proof.
  exact (launch_threads_selects_predicted (env_old_tbb "threadsafe")
           (initial_state idle_backends) eq_refl).
Defined.

(** X6. The selection stops at the first candidate that loads: whatever
    comes after it in the list is never looked at, so the result, the
    imports made and the warnings given are those of the list cut after
    that candidate. *)
Theorem select_from_backends_stops e l1 name l2 lib s :
  Forall (unavailable e) l1 -> loads e name lib ->
  select_from_backends e (l1 ++ name :: l2) s
  = select_from_backends e (l1 ++ [name]) s /\
  fst (select_from_backends e (l1 ++ name :: l2) s) = Ok (Some lib, name).
Proof.
  intros Hu Hl. revert s. induction Hu as [|b l1 Hb _ IH]; intros s.
  - simpl. unfold bind. specialize (Hl s).
    destruct (select_known_backend e name s) as [r s1]. simpl in Hl. by subst r.
  - simpl. unfold bind. pose proof (Hb s) as Hbs.
    destruct (select_known_backend e b s) as [r s1]. simpl in Hbs. subst r.
    apply IH.
Qed.

Lemma select_from_backends_stops_witness :
  select_from_backends (env_old_tbb "default") (["tbb"] ++ "omp" :: ["workqueue"])
    (initial_state idle_backends)
  = select_from_backends (env_old_tbb "default") (["tbb"] ++ ["omp"])
      (initial_state idle_backends) /\
  fst (select_from_backends (env_old_tbb "default")
         (["tbb"] ++ "omp" :: ["workqueue"]) (initial_state idle_backends))
  = Ok (Some omppool, "omp").
Proof.
  apply (select_from_backends_stops (env_old_tbb "default") ["tbb"] "omp"
           ["workqueue"] omppool).
  - repeat constructor; intros s; vm_compute; reflexivity.
  - intros s; vm_compute; reflexivity.
Defined.

(** ** The active thread count *)

Lemma c_int_small n : - 2 ^ 31 <= n < 2 ^ 31 -> c_int n = n.
Proof. intros H. unfold c_int. rewrite Z.mod_small; lia. Qed.

Lemma launch_threads_returns_ready e s s1 :
  _launch_threads e s = (Ok tt, s1) -> _is_initialized s1 = true.
Proof.
  intros H. destruct (_is_initialized s) eqn:Hs.
  - rewrite launch_threads_ready in H by done. by simplify_eq.
  - destruct (launch_threads_outcome _ _ _ _ Hs H)
      as [(ex & ? & _)|(lib & name & _ & Hi & _)]; [discriminate | done].
Qed.

Lemma get_num_threads_ready e s lib :
  _is_initialized s = true -> bound_to s lib ->
  get_num_threads e s
  = if num_threads (backends s lib) <=? 0
    then (Raise (RuntimeError
                   (invalid_threads_msg (thread_id (backends s lib))
                      (num_threads (backends s lib)))), s)
    else (Ok (num_threads (backends s lib)), s).
Proof.
  intros Hs Hb.
  pose proof (bound_to_lookup _ _ "_get_num_threads" Hb) as H1.
  pose proof (bound_to_lookup _ _ "_get_thread_id" Hb) as H2.
  unfold get_num_threads, _get_num_threads, _get_thread_id, global, bind,
    get_state, ret, raise.
  rewrite launch_threads_ready by done. rewrite H1 by (simpl; tauto).
  destruct (num_threads (backends s lib) <=? 0); [|done].
  by rewrite H2 by (simpl; tauto).
Qed.

Lemma set_num_threads_tail e z s lib :
  bound_to s lib ->
  (z < 1 \/ NUMBA_NUM_THREADS e < z) /\
  (snt_check e z ;;; _set_num_threads z) s = (Raise (range_error e), s) \/
  1 <= z <= NUMBA_NUM_THREADS e /\
  exists s2, (snt_check e z ;;; _set_num_threads z) s = (Ok tt, s2) /\
             _is_initialized s2 = _is_initialized s /\
             globals s2 = globals s /\
             num_threads (backends s2 lib) = c_int z.
Proof.
  intros Hb. pose proof (bound_to_lookup _ _ "_set_num_threads" Hb) as H1.
  unfold snt_check, bind.
  destruct (Z.gtb_spec z (NUMBA_NUM_THREADS e)); simpl; [left; split; [lia|done]|].
  destruct (Z.ltb_spec z 1); simpl; [left; split; [lia|done]|].
  right. split; [lia|].
  unfold ret, _set_num_threads, global, bind, get_state, modify, emit.
  rewrite H1 by (simpl; tauto). eexists. split; [reflexivity|]. simpl.
  repeat split. unfold upd_backend. by rewrite decide_True.
Qed.

Lemma set_parallel_chunksize_tail z s lib :
  bound_to s lib ->
  exists s2, _set_parallel_chunksize z s = (Ok tt, s2) /\
             _is_initialized s2 = _is_initialized s /\
             globals s2 = globals s /\
             num_threads (backends s2 lib) = num_threads (backends s lib).
Proof.
  intros Hb. pose proof (bound_to_lookup _ _ "_set_parallel_chunksize" Hb) as H1.
  unfold _set_parallel_chunksize, global, bind, get_state, modify, emit, ret.
  rewrite H1 by (simpl; tauto). eexists. split; [reflexivity|]. simpl.
  repeat split. unfold upd_backend. by rewrite decide_True.
Qed.

Lemma read_leaves_state (f : backend -> Z) name s :
  snd ((l <- global name ;; s <- get_state ;; ret (f (backends s l))) s) = s.
Proof.
  unfold global, bind, get_state, ret, raise. by destruct (globals s !! name).
Qed.

Lemma count_in_range_same N s s' lib :
  bound_to s lib ->
  _is_initialized s' = _is_initialized s -> globals s' = globals s ->
  num_threads (backends s' lib) = num_threads (backends s lib) ->
  count_in_range N s -> count_in_range N s'.
Proof.
  intros Hb Hi Hg Hn H Hs'. rewrite Hi in Hs'. destruct (H Hs') as (lib' & Hb' & Hr).
  assert (lib' = lib) as ->.
  { pose proof (bound_to_lookup _ _ "_set_num_threads" Hb) as H1.
    pose proof (bound_to_lookup _ _ "_set_num_threads" Hb') as H2.
    rewrite H1 in H2 by (simpl; tauto). specialize (H2 ltac:(simpl; tauto)).
    by simplify_eq. }
  exists lib. split; [|by rewrite Hn]. unfold bound_to in *. by rewrite Hg.
Qed.

Lemma count_in_range_launch e N s :
  NUMBA_NUM_THREADS e = N -> 1 <= N < 2 ^ 31 ->
  count_in_range N s -> count_in_range N (snd (_launch_threads e s)).
Proof.
  intros HN Hr H. destruct (_is_initialized s) eqn:Hs.
  - by rewrite launch_threads_ready.
  - destruct (_launch_threads e s) as [r s1] eqn:E. simpl.
    destruct (launch_threads_outcome _ _ _ _ Hs E)
      as [(ex & _ & Hi & _)|(lib & name & _ & _ & _ & Hb & Hn & _)].
    + intros ?; congruence.
    + intros _. exists lib. split; [done|]. unfold NUM_THREADS in Hn.
      rewrite Hn, HN, c_int_small; lia.
Qed.

Lemma count_in_range_do_call e c N s :
  NUMBA_NUM_THREADS e = N -> 1 <= N < 2 ^ 31 ->
  count_in_range N s -> count_in_range N (do_call e c s).
Proof.
  intros HN Hr H. pose proof (count_in_range_launch e N s HN Hr H) as H1.
  destruct c; simpl; try done.
  - unfold set_num_threads. unfold bind at 1.
    destruct (_launch_threads e s) as [[[]|ex] s1] eqn:E; cbn [snd] in *; [|done].
    destruct n as [z|]; [|done].
    destruct (H1 (launch_threads_returns_ready _ _ _ E)) as (lib & Hb & Hc).
    destruct (set_num_threads_tail e z s1 lib Hb)
      as [[_ ->]|[Hz (s2 & -> & Hi & Hg & Hn)]]; [done|]. simpl.
    intros _. exists lib. split; [unfold bound_to in *; by rewrite Hg|].
    rewrite Hn, c_int_small; lia.
  - unfold get_num_threads, bind.
    destruct (_launch_threads e s) as [[[]|ex] s1] eqn:E; simpl in *; [|done].
    unfold _get_num_threads, _get_thread_id, global, bind, get_state, ret, raise.
    destruct (globals s1 !! "_get_num_threads"); [|done].
    destruct (num_threads (backends s1 l) <=? 0); [|done].
    by destruct (globals s1 !! "_get_thread_id").
  - unfold set_parallel_chunksize, bind.
    destruct (_launch_threads e s) as [[[]|ex] s1] eqn:E; simpl in *; [|done].
    destruct n as [z|]; [|done].
    destruct (H1 (launch_threads_returns_ready _ _ _ E)) as (lib & Hb & Hc).
    destruct (set_parallel_chunksize_tail z s1 lib Hb) as (s2 & -> & Hi & Hg & Hn).
    simpl. by apply (count_in_range_same N s1 s2 lib).
  - unfold get_parallel_chunksize, bind.
    destruct (_launch_threads e s) as [[[]|ex] s1] eqn:E; simpl in *; [|done].
    unfold _get_parallel_chunksize. by rewrite (read_leaves_state chunksize).
  - unfold threading_layer, bind, get_state, ret, raise.
    by destruct (_threading_layer s).
Qed.

Lemma count_in_range_run N calls s :
  1 <= N < 2 ^ 31 ->
  Forall (fun ec => NUMBA_NUM_THREADS (fst ec) = N) calls ->
  count_in_range N s -> count_in_range N (run calls s).
Proof.
  intros Hr Hall. revert s. induction Hall as [|[e c] rest He _ IH]; intros s Hs;
    simpl; [done|].
  apply IH. by apply count_in_range_do_call.
Qed.

(** X7. By default all launched threads are used: on a module that is
    not yet initialised, with [1 <= NUMBA_NUM_THREADS < 2^31] and a
    backend that reports the count it was last given, a [get_num_threads]
    whose initialisation succeeds returns [NUMBA_NUM_THREADS], and so
    does every later one until the count is set. *)
Theorem fresh_module_uses_all_threads e s s1 :
  _is_initialized s = false ->
  1 <= NUMBA_NUM_THREADS e < 2 ^ 31 ->
  _launch_threads e s = (Ok tt, s1) ->
  get_num_threads e s = (Ok (NUMBA_NUM_THREADS e), s1) /\
  forall e', get_num_threads e' s1 = (Ok (NUMBA_NUM_THREADS e), s1).
Proof.
  intros Hs Hr H.
  destruct (launch_threads_outcome _ _ _ _ Hs H)
    as [(ex & ? & _)|(lib & name & _ & Hi & _ & Hb & Hn & _)]; [discriminate|].
  unfold NUM_THREADS in Hn. rewrite c_int_small in Hn by lia.
  assert (Hg : forall e', get_num_threads e' s1 = (Ok (NUMBA_NUM_THREADS e), s1)).
  { intros e'. rewrite (get_num_threads_ready e' s1 lib Hi Hb), Hn.
    destruct (Z.leb_spec (NUMBA_NUM_THREADS e) 0); [lia | done]. }
  split; [|exact Hg].
  specialize (Hg e). unfold get_num_threads, bind in *. rewrite H.
  by rewrite launch_threads_ready in Hg.
Qed.

Lemma fresh_module_uses_all_threads_witness :
  get_num_threads (env_linux "default") (initial_state idle_backends)
  = (Ok 4, snd (_launch_threads (env_linux "default")
                  (initial_state idle_backends))).
Proof.
  refine (proj1 (fresh_module_uses_all_threads (env_linux "default")
                   (initial_state idle_backends) _ _ _ _)).
  - reflexivity.
  - vm_compute. split; [discriminate | reflexivity].
  - vm_compute; reflexivity.
Defined.

(** X8. Over a process lifetime in which [NUMBA_NUM_THREADS] keeps one
    value [N] with [1 <= N < 2^31], with a backend that reports the count
    it was last given: once the module is initialised [get_num_threads]
    never raises, and what it returns is between 1 and [N], whatever
    calls were made, rejected ones included. *)
Theorem active_count_stays_in_range (N : Z) (b0 : Lib -> backend)
    (calls : list (env * call)) :
  1 <= N < 2 ^ 31 ->
  Forall (fun ec => NUMBA_NUM_THREADS (fst ec) = N) calls ->
  _is_initialized (run calls (initial_state b0)) = true ->
  forall e, exists v,
    get_num_threads e (run calls (initial_state b0))
    = (Ok v, run calls (initial_state b0)) /\ 1 <= v <= N.
Proof.
  intros Hr Hall Hs e.
  assert (H : count_in_range N (run calls (initial_state b0))).
  { apply count_in_range_run; [done | done | intros ?; discriminate]. }
  destruct (H Hs) as (lib & Hb & Hc).
  exists (num_threads (backends (run calls (initial_state b0)) lib)).
  split; [|done]. rewrite (get_num_threads_ready e _ lib Hs Hb).
  destruct (Z.leb_spec (num_threads (backends (run calls (initial_state b0)) lib)) 0);
    [lia | done].
Qed.

Lemma active_count_stays_in_range_witness :
  exists v,
    get_num_threads (env_linux "omp")
      (run [(env_linux "omp", CallSetNumThreads (PyInt 7));
            (env_linux "tbb", CallSetNumThreads (PyInt 3));
            (env_linux "omp", CallSetParallelChunksize (PyInt (-1)))]
           (initial_state idle_backends))
    = (Ok v, run [(env_linux "omp", CallSetNumThreads (PyInt 7));
                  (env_linux "tbb", CallSetNumThreads (PyInt 3));
                  (env_linux "omp", CallSetParallelChunksize (PyInt (-1)))]
                 (initial_state idle_backends)) /\ 1 <= v <= 4.
Proof.
  apply (active_count_stays_in_range 4 idle_backends).
  - lia.
  - repeat constructor.
  - vm_compute; reflexivity.
Defined.

(** X9. What [set_num_threads] stores, [get_num_threads] returns: after
    an accepted [set_num_threads(n)], with [n < 2^31] and a backend that
    reports the count it was last given, [get_num_threads] returns [n]
    and changes nothing. *)
Theorem set_then_get_num_threads e s n :
  wf s -> 1 <= n <= NUMBA_NUM_THREADS e -> n < 2 ^ 31 ->
  fst (_launch_threads e s) = Ok tt ->
  fst (set_num_threads e (PyInt n) s) = Ok tt /\
  forall e', get_num_threads e' (snd (set_num_threads e (PyInt n) s))
             = (Ok n, snd (set_num_threads e (PyInt n) s)).
Proof.
  intros Hwf Hn Hn' H. destruct (_launch_threads e s) as [r s1] eqn:E.
  simpl in H. subst r.
  destruct (launch_threads_bound _ _ _ Hwf E) as [Hi [lib Hb]].
  destruct (set_num_threads_tail e n s1 lib Hb)
    as [[? _]|[_ (s2 & Ht & Hi2 & Hg & Hc)]]; [lia|].
  assert (Hset : set_num_threads e (PyInt n) s = (Ok tt, s2)).
  { unfold set_num_threads. unfold bind at 1. by rewrite E. }
  rewrite Hset. split; [done|]. intros e'. cbn [snd].
  assert (Hb2 : bound_to s2 lib) by (unfold bound_to in *; by rewrite Hg).
  rewrite (get_num_threads_ready e' s2 lib) by (done || congruence).
  rewrite Hc, c_int_small by lia.
  destruct (Z.leb_spec n 0); [lia | done].
Qed.

Lemma set_then_get_num_threads_witness :
  fst (set_num_threads (env_linux "omp") (PyInt 3) ready_state) = Ok tt /\
  forall e', get_num_threads e'
               (snd (set_num_threads (env_linux "omp") (PyInt 3) ready_state))
             = (Ok 3, snd (set_num_threads (env_linux "omp") (PyInt 3)
                              ready_state)).
Proof.
  apply (set_then_get_num_threads (env_linux "omp") ready_state 3).
  - intros _. split; [exists omppool; repeat constructor|]; vm_compute; congruence.
  - vm_compute. split; discriminate.
  - reflexivity.
  - vm_compute; reflexivity.
Defined.

(** ** Initialisation comes first *)

(** X10. Every entry point initialises before it looks at its argument:
    when [_launch_threads] raises, [set_num_threads],
    [get_num_threads], [set_parallel_chunksize] and
    [get_parallel_chunksize] raise that same error and leave the state
    [_launch_threads] left, whatever the argument, a non-integer or an
    out-of-range one included. *)
Theorem initialisation_error_comes_first e s ex s1 :
  _launch_threads e s = (Raise ex, s1) ->
  (forall n, set_num_threads e n s = (Raise ex, s1)) /\
  get_num_threads e s = (Raise ex, s1) /\
  (forall n, set_parallel_chunksize e n s = (Raise ex, s1)) /\
  get_parallel_chunksize e s = (Raise ex, s1).
Proof.
  intros H. unfold set_num_threads, get_num_threads, set_parallel_chunksize,
    get_parallel_chunksize, bind. by rewrite H.
Qed.

Lemma initialisation_error_comes_first_witness :
  (forall n, fst (set_num_threads (env_bare "tbb") n (initial_state idle_backends))
             = Raise (ValueError (errmsg (hint_text ["TBB"])))) /\
  fst (get_num_threads (env_bare "tbb") (initial_state idle_backends))
  = Raise (ValueError (errmsg (hint_text ["TBB"]))).
Proof.
  assert (H : _launch_threads (env_bare "tbb") (initial_state idle_backends)
              = (Raise (ValueError (errmsg (hint_text ["TBB"]))),
                 snd (_launch_threads (env_bare "tbb")
                        (initial_state idle_backends))))
    by (vm_compute; reflexivity).
  destruct (initialisation_error_comes_first _ _ _ _ H) as (H1 & H2 & _).
  split; [intros n; by rewrite H1 | by rewrite H2].
Defined.

(** ** The module-level [_get_thread_id] *)

(** X11. The [def _get_thread_id()] of the module never recurses on a
    well-formed state: with any call depth left, it initialises and, when
    that succeeds, returns the thread id the library reports, the name
    having been rebound to the library's entry point; when initialisation
    raises, so does it, with the same error. *)
Theorem get_thread_id_def_returns d e s :
  wf s ->
  match _launch_threads e s with
  | (Ok _, s1) =>
      exists lib, bound_to s1 lib /\
        _get_thread_id_def (S d) e s = (Ok (thread_id (backends s1 lib)), s1)
  | (Raise ex, s1) => _get_thread_id_def (S d) e s = (Raise ex, s1)
  end.
Proof.
  intros Hwf.
  destruct (_launch_threads e s) as [[[]|ex] s1] eqn:E;
    cbn [_get_thread_id_def]; unfold bind at 1; rewrite E; [|done].
  destruct (launch_threads_bound _ _ _ Hwf E) as [_ [lib Hb]].
  exists lib. split; [done|].
  pose proof (bound_to_lookup _ _ "_get_thread_id" Hb) as H.
  specialize (H ltac:(simpl; tauto)).
  cbv [bind get_state ret _get_thread_id global]. by rewrite !H.
Qed.

Lemma get_thread_id_def_returns_witness :
  exists lib, bound_to ready_state lib /\
    _get_thread_id_def 1 (env_linux "omp") (initial_state idle_backends)
    = (Ok (thread_id (backends ready_state lib)), ready_state).
Proof.
  assert (Hwf : wf (initial_state idle_backends)) by (intros H; discriminate).
  pose proof (get_thread_id_def_returns 0 (env_linux "omp")
                (initial_state idle_backends) Hwf) as H.
  assert (E : _launch_threads (env_linux "omp") (initial_state idle_backends)
              = (Ok tt, ready_state)) by (vm_compute; reflexivity).
  rewrite E in H. exact H.
Defined.

(** ** The import of the module *)

Lemma launch_threads_in_all e s :
  _launch_threads_in (fun _ => true) e s = _launch_threads e s.
Proof. reflexivity. Qed.

Lemma bring_up_early e lib name s :
  exists s', bring_up_in defined_at_workaround e lib name s
             = (Raise (if launch_raises e lib then BackendError
                       else NameError "parfor_load_late"), s') /\
             _is_initialized s' = _is_initialized s /\
             _threading_layer s' = _threading_layer s /\
             count_launches (trace s')
             = ((if launch_raises e lib then 0 else 1)
                + count_launches (trace s))%nat.
Proof.
  unfold bring_up_in, call_function, defined_at_workaround, call_launch_threads,
    _load_num_threads_funcs, _set_num_threads, global, add_symbol, bind_global,
    emit, bind, modify, get_state, ret, raise.
  destruct (launch_raises e lib).
  - eexists. split; [reflexivity|]. done.
  - cbn [globals set_globals set_ll_symbols set_trace set_backends
         _is_initialized _threading_layer ll_symbols backends trace
         String.eqb Ascii.eqb Bool.eqb negb].
    rewrite lookup_insert_eq. eexists. split; [reflexivity|].
    cbn [globals set_globals set_ll_symbols set_trace set_backends
         _is_initialized _threading_layer ll_symbols backends trace].
    repeat split. rewrite !count_launches_app. unfold count_launches at 2 3.
    simpl. lia.
Qed.

(** What a [_launch_threads] does that runs while [parfor_load_late] is
    not yet defined, against what the ordinary one does. *)
Lemma early_launch_outcome e s :
  _is_initialized s = false ->
  match fst (_launch_threads e s) with
  | Ok _ =>
      fst (_launch_threads_in defined_at_workaround e s)
      = Raise (NameError "parfor_load_late") /\
      _is_initialized (snd (_launch_threads_in defined_at_workaround e s))
      = false /\
      _threading_layer (snd (_launch_threads_in defined_at_workaround e s))
      = _threading_layer s /\
      count_launches
        (trace (snd (_launch_threads_in defined_at_workaround e s)))
      = S (count_launches (trace s))
  | Raise ex =>
      fst (_launch_threads_in defined_at_workaround e s) = Raise ex
  end.
Proof.
  intros Hs. rewrite launch_threads_fresh by done.
  assert (Hin : _launch_threads_in defined_at_workaround e s
                = init_sequence_in defined_at_workaround e s).
  { unfold _launch_threads_in, bind, get_state. by rewrite Hs. }
  rewrite !Hin. clear Hin.
  unfold init_sequence, init_sequence_in, bind.
  destruct (selects_resolve_mode e (lower e (THREADING_LAYER e)))
    as (r & evs & Hc & Hr). rewrite !Hr.
  destruct r as [[[[lib|] name] reqs]|ex]; [| |done].
  - destruct (bring_up_early e lib name (add_events evs s))
      as (s' & -> & Hi & Hl & Hn).
    destruct (launch_raises e lib) eqn:El.
    + by destruct (bring_up_raises e lib name (add_events evs s) El) as (s2 & -> & _).
    + destruct (bring_up_returns e lib name (add_events evs s) El) as (s2 & -> & _).
      cbn [fst snd]. rewrite Hi, Hl, Hn. simpl.
      rewrite count_launches_app, Hc, Nat.add_0_r. done.
  - by destruct (@raise_with_hint_raises unit reqs) as [ex ->].
Qed.

Lemma choose_process_lock_spec ie s :
  choose_process_lock ie s
  = if str_contains "fork" (start_method ie) || _IS_WINDOWS (base ie)
    then match rlock_raises ie with
         | Some msg => (Ok NopLock, add_events [EvWarn (lock_warning msg)] s)
         | None => (Ok ProcessRLock, s)
         end
    else (Ok NopLock, s).
Proof.
  unfold choose_process_lock, try_except.
  destruct (str_contains "fork" (start_method ie) || _IS_WINDOWS (base ie));
    [|done].
  by destruct (rlock_raises ie).
Qed.

(** X12. Importing the module is lazy unless the workaround asks
    otherwise: with [NUMBA_DYLD_WORKAROUND] unset or 0 the import fails
    exactly when [NUMBA_NUM_THREADS] is below 1, with the [ValueError] of
    [get_thread_count], and otherwise completes without selecting or
    launching anything.  The process lock is a multiprocessing [RLock]
    exactly when the start method has "fork" in its name (forkserver
    included) or the platform is Windows, and the [RLock] can be made;
    when it cannot, the import still completes, with a no-op lock and a
    warning that carries the OS error. *)
Theorem import_is_lazy ie s :
  NUMBA_DYLD_WORKAROUND ie = None \/ NUMBA_DYLD_WORKAROUND ie = Some (Some 0) ->
  if NUMBA_NUM_THREADS (base ie) <? 1
  then import_module ie s
       = (Raise (ValueError "Number of threads specified must be > 0."), s)
  else exists lock evs,
         import_module ie s = (Ok lock, add_events evs s) /\
         (lock = ProcessRLock <->
          str_contains "fork" (start_method ie) || _IS_WINDOWS (base ie) = true /\
          rlock_raises ie = None) /\
         evs = (if str_contains "fork" (start_method ie) || _IS_WINDOWS (base ie)
                then match rlock_raises ie with
                     | Some msg => [EvWarn (lock_warning msg)]
                     | None => []
                     end
                else []).
Proof.
  intros Hw. unfold import_module, get_thread_count.
  destruct (NUMBA_NUM_THREADS (base ie) <? 1); [done|].
  unfold bind. rewrite choose_process_lock_spec.
  destruct (str_contains "fork" (start_method ie) || _IS_WINDOWS (base ie)).
  - destruct (rlock_raises ie) as [msg|].
    + exists NopLock, [EvWarn (lock_warning msg)].
      split; [by destruct Hw as [->| ->]|]. split; [|done].
      split; [discriminate | intros [_ ?]; discriminate].
    + exists ProcessRLock, []. rewrite add_events_nil.
      split; [by destruct Hw as [->| ->]|]. done.
  - exists NopLock, []. rewrite add_events_nil.
    split; [by destruct Hw as [->| ->]|]. split; [|done].
    split; [discriminate | intros [? _]; discriminate].
Qed.

Lemma import_is_lazy_witness :
  exists lock evs,
    import_module import_env_no_shm (initial_state idle_backends)
    = (Ok lock, add_events evs (initial_state idle_backends)) /\
    (lock = ProcessRLock <->
     str_contains "fork" (start_method import_env_no_shm)
     || _IS_WINDOWS (base import_env_no_shm) = true /\
     rlock_raises import_env_no_shm = None) /\
    evs = [EvWarn (lock_warning "[Errno 38] Function not implemented")].
Proof.
  exact (import_is_lazy import_env_no_shm (initial_state idle_backends)
           (or_introl eq_refl)).
Defined.

(** X13. With [NUMBA_DYLD_WORKAROUND] set to a number other than 0 the
    import of the module never completes: the [_launch_threads()] of line
    653 runs before line 656 has defined [parfor_load_late].  Where an
    ordinary [_launch_threads] would return, the import ends with
    [NameError] for [parfor_load_late] after the library has been
    selected and launched, with [_is_initialized] still unset; otherwise
    it ends with the error of [get_thread_count] or of the selection or
    launch. *)
Theorem workaround_import_fails ie s v :
  NUMBA_DYLD_WORKAROUND ie = Some (Some v) -> v <> 0 ->
  _is_initialized s = false ->
  (forall lock, fst (import_module ie s) <> Ok lock) /\
  (1 <= NUMBA_NUM_THREADS (base ie) ->
   fst (_launch_threads (base ie) s) = Ok tt ->
   fst (import_module ie s) = Raise (NameError "parfor_load_late") /\
   _is_initialized (snd (import_module ie s)) = false /\
   count_launches (trace (snd (import_module ie s)))
   = S (count_launches (trace s))).
Proof.
  intros Hw Hv Hs.
  destruct (Z.ltb_spec (NUMBA_NUM_THREADS (base ie)) 1) as [Hn|Hn].
  { assert (H : import_module ie s
                = (Raise (ValueError "Number of threads specified must be > 0."), s)).
    { unfold import_module, get_thread_count.
      by destruct (Z.ltb_spec (NUMBA_NUM_THREADS (base ie)) 1); [|lia]. }
    rewrite H. split; [discriminate | lia]. }
  set (s1 := if str_contains "fork" (start_method ie) || _IS_WINDOWS (base ie)
             then match rlock_raises ie with
                  | Some msg => add_events [EvWarn (lock_warning msg)] s
                  | None => s
                  end
             else s).
  assert (Hs1 : _is_initialized s1 = false /\
                count_launches (trace s1) = count_launches (trace s)).
  { subst s1.
    destruct (str_contains "fork" (start_method ie) || _IS_WINDOWS (base ie));
      [|done].
    destruct (rlock_raises ie); [|done]. split; [done|].
    rewrite trace_add_events, count_launches_app. unfold count_launches at 2.
    simpl. lia. }
  destruct Hs1 as [Hi1 Hc1].
  assert (Himp : exists k,
    import_module ie s
    = match _launch_threads_in defined_at_workaround (base ie) s1 with
      | (Ok _, s2) => (Ok k, s2)
      | (Raise ex, s2) => (Raise ex, s2)
      end).
  { unfold import_module, get_thread_count. rewrite Hw.
    destruct (Z.ltb_spec (NUMBA_NUM_THREADS (base ie)) 1); [lia|].
    destruct (Z.eqb_spec v 0) as [|_]; [done|].
    unfold bind at 1. rewrite choose_process_lock_spec. subst s1.
    unfold bind, ret.
    destruct (str_contains "fork" (start_method ie) || _IS_WINDOWS (base ie));
      [destruct (rlock_raises ie)|]; eexists;
      match goal with
      | |- context [_launch_threads_in ?d ?e ?s0] =>
          destruct (_launch_threads_in d e s0) as [[[]|?] ?]
      end; reflexivity. }
  destruct Himp as [k Himp]. rewrite Himp. clear Himp.
  pose proof (early_launch_outcome (base ie) s1 Hi1) as H.
  assert (Hf : fst (_launch_threads (base ie) s1) = fst (_launch_threads (base ie) s)).
  { rewrite !launch_threads_fresh by done.
    by destruct (init_sequence_uniform (base ie) s1 s) as [-> _]. }
  rewrite Hf in H.
  destruct (_launch_threads_in defined_at_workaround (base ie) s1) as [r1 s2].
  cbn [fst snd] in H.
  destruct (fst (_launch_threads (base ie) s)) as [[]|ex].
  - destruct H as (-> & Hi & _ & Hc). split; [discriminate|].
    intros _ _. cbn [fst snd]. by rewrite Hi, Hc, Hc1.
  - rewrite H. split; [discriminate|]. intros _ ?. discriminate.
Qed.

Lemma workaround_import_fails_witness :
  (forall lock, fst (import_module import_env_workaround
                       (initial_state idle_backends)) <> Ok lock) /\
  (1 <= NUMBA_NUM_THREADS (base import_env_workaround) ->
   fst (_launch_threads (base import_env_workaround)
          (initial_state idle_backends)) = Ok tt ->
   fst (import_module import_env_workaround (initial_state idle_backends))
   = Raise (NameError "parfor_load_late") /\
   _is_initialized (snd (import_module import_env_workaround
                           (initial_state idle_backends))) = false /\
   count_launches (trace (snd (import_module import_env_workaround
                                 (initial_state idle_backends))))
   = S (count_launches (trace (initial_state idle_backends)))).
Proof.
  apply (workaround_import_fails import_env_workaround
           (initial_state idle_backends) 1).
  - reflexivity.
  - discriminate.
  - reflexivity.
Defined.

(** ** The inner dimension count *)

Lemma length_remove_dups_le (l : list string) :
  (length (remove_dups l) <= length l)%nat.
Proof.
  induction l as [|x l IH]; simpl; [done|].
  destruct (decide_rel elem_of x l); simpl; lia.
Qed.

Lemma size_symbols (l : list string) :
  size (list_to_set l : gset string) = length (remove_dups l).
Proof.
  rewrite <- (size_list_to_set (C:=gset string) (remove_dups l))
    by apply NoDup_remove_dups.
  f_equal. apply set_eq. intros x.
  by rewrite !elem_of_list_to_set, elem_of_remove_dups.
Qed.

(** X14. The inner dimension count [build_gufunc_wrapper] hands to the
    kernel builder is the number of distinct dimension symbols of the
    signature: a symbol counts once however often and on whichever side
    it occurs, so the count is at most the number of occurrences, is the
    same with inputs and outputs exchanged, and is 0 exactly when no term
    has a symbol. *)
Theorem inner_ndim_counts_distinct (sin sout : list (list string)) :
  inner_ndim sin sout = length (remove_dups (concat sin ++ concat sout)) /\
  (inner_ndim sin sout <= length (concat sin) + length (concat sout))%nat /\
  inner_ndim sin sout = inner_ndim sout sin /\
  (inner_ndim sin sout = 0%nat <-> concat sin = [] /\ concat sout = []).
Proof.
  assert (H : inner_ndim sin sout
              = length (remove_dups (concat sin ++ concat sout))).
  { unfold inner_ndim, symbols_of. by rewrite <- list_to_set_app_L, size_symbols. }
  split; [exact H|]. split; [|split].
  - rewrite H, <- length_app. apply length_remove_dups_le.
  - unfold inner_ndim. f_equal. apply (comm_L (∪)).
  - rewrite H. split.
    + intros H0. destruct (concat sin ++ concat sout)%list as [|x l] eqn:E.
      * by apply app_eq_nil in E.
      * exfalso. simpl in H0. destruct (decide_rel elem_of x l) as [Hx|]; [|done].
        apply elem_of_remove_dups in Hx.
        destruct (remove_dups l); [by apply not_elem_of_nil in Hx | done].
    + intros [-> ->]. done.
Qed.

Example inner_ndim_matmul :
  inner_ndim [["m"; "n"]; ["n"; "p"]] [["m"; "p"]] = 3%nat.
Proof. vm_compute. reflexivity. Qed.

(** ** What a failed initialisation leaves behind *)

Lemma bring_up_raises_symbols e lib name s :
  launch_raises e lib = true ->
  bring_up e lib name s
  = (Raise BackendError, set_ll_symbols (register_scheduler lib (ll_symbols s)) s).
Proof.
  intros H. unfold bring_up, call_launch_threads, add_symbol, bind, modify.
  rewrite H. reflexivity.
Qed.

(** X15. A [_launch_threads] that raises never touches the rebound
    globals, the layer name, or the backends' thread count and chunk
    size.  The symbols registered with LLVM are as before too, except
    when it is the launch call that raised: then the parallel-for and the
    two scheduling symbols of the selected library have already been
    registered, and stay. *)
Theorem failed_launch_leaves e s ex s' :
  _is_initialized s = false ->
  _launch_threads e s = (Raise ex, s') ->
  _threading_layer s' = _threading_layer s /\
  globals s' = globals s /\
  backends s' = backends s /\
  (ll_symbols s' = ll_symbols s \/
   ex = BackendError /\
   exists lib, launch_raises e lib = true /\
               ll_symbols s' = register_scheduler lib (ll_symbols s)).
Proof.
  intros Hs H.
  destruct (launch_threads_outcome _ _ _ _ Hs H)
    as [(ex' & _ & _ & Hl & Hg & Hb & _)|(lib & name & ? & _)]; [|discriminate].
  split; [done|]. split; [done|]. split; [done|].
  rewrite launch_threads_fresh in H by done.
  destruct (init_sequence_cases e) as (evs & _ & [[ex0 H0]|(lib & name & H0)]);
    rewrite H0 in H.
  - left. by simplify_eq.
  - destruct (launch_raises e lib) eqn:El.
    + rewrite bring_up_raises_symbols in H by done. simplify_eq.
      right. split; [done|]. by exists lib.
    + destruct (bring_up_returns e lib name (add_events evs s) El) as (s2 & E2 & _).
      rewrite E2 in H. discriminate.
Qed.

Lemma failed_launch_leaves_witness :
  ll_symbols (snd (_launch_threads (env_launch_fails "omp")
                     (initial_state idle_backends)))
  = ll_symbols (initial_state idle_backends) \/
  BackendError = BackendError /\
  exists lib, launch_raises (env_launch_fails "omp") lib = true /\
    ll_symbols (snd (_launch_threads (env_launch_fails "omp")
                       (initial_state idle_backends)))
    = register_scheduler lib (ll_symbols (initial_state idle_backends)).
Proof.
  assert (H : _launch_threads (env_launch_fails "omp")
                (initial_state idle_backends)
              = (Raise BackendError,
                 snd (_launch_threads (env_launch_fails "omp")
                        (initial_state idle_backends))))
    by (vm_compute; reflexivity).
  assert (Hs : _is_initialized (initial_state idle_backends) = false)
    by reflexivity.
  exact (proj2 (proj2 (proj2 (failed_launch_leaves _ _ _ _ Hs H)))).
Defined.
